(** * PredictWeather: risk scoring, prediction and alerting

    A shallow embedding of [backend/app/services/ai_service.py]
    (class [AIWeatherService]) and of the alert sweep of
    [backend/app/services/scheduler.py] (class [WeatherScheduler]),
    followed by the properties of the design document that concern them.
    The analysis and prediction handlers of [backend/app/routers/weather.py]
    and the registry encoding of
    [backend/app/services/blockchain_service.py] are embedded as well, with
    further properties of the code at the end.

    Numbers.  Python's [float] is read in two ways.  In the modules
    [PyFloat] to [BlockchainService] it is an exact rational ([Q]) or the
    not-a-number value: rounding, overflow and the infinities are left
    out, and the two places that take a square root ([Series.std] and
    [np.std]) produce a real number ([R]).  What is stated over this
    reading does not depend on the rounding: it compares the readings
    themselves, counts them, relies on the clamps of the scores, or keeps
    a margin around each threshold.  The module [Binary64] follows the
    anomaly detector, the trend fit, the storm block and the prediction
    loop on IEEE 754 binary64 numbers.

    Columns.  In the rational reading a key that is missing from a row and
    a key that holds [None] both show as NaN in the pandas column, and
    every measurement column is a float column.  This is what pandas does
    with the rows of the [weather_data] table, whose measurements are
    floats, and with any column in which a row holds a float.  A column in
    which every row holds [None] is kept by pandas as a column of Python
    objects, on which [None - None] and [np.polyfit] raise [TypeError],
    and a column of Python ints is an int64 column, whose arithmetic wraps
    around: such batches, which the two POST handlers of [routers/ai.py]
    accept, are followed in [Binary64].

    Collaborators.  The chat-completion request is a function that may
    fail; the database session is the list of the rows committed so far;
    the clock is left out. *)

From Stdlib Require Import Floats.
From Stdlib Require Import Ascii String QArith Qabs Qround Qreals Reals Psatz Sorted.
From stdpp Require Import gmap strings list.

Local Open Scope Q_scope.

(** A decimal literal of a float stands for the nearest binary64 number,
    as in Python. *)
Set Warnings "-inexact-float".

(** ** Python floats *)

Module PyFloat.

Inductive fl : Type :=
| Num (q : Q)
| NaN.

Definition Qltb (a b : Q) : bool :=
  match a ?= b with Lt => true | _ => false end.

Definition lift2 (f : Q -> Q -> Q) (a b : fl) : fl :=
  match a, b with
  | Num x, Num y => Num (f x y)
  | _, _ => NaN
  end.

Definition fadd := lift2 Qplus.
Definition fsub := lift2 Qminus.
Definition fmul := lift2 Qmult.
(** Every divisor in the program is a non-zero constant or a length that is
    at least one; [Qdiv] is only ever used there. *)
Definition fdiv := lift2 Qdiv.

Definition fabs (a : fl) : fl :=
  match a with Num x => Num (Qabs x) | NaN => NaN end.

(** [a < b] and [a > b]: a comparison with NaN is false. *)
Definition flt (a b : fl) : bool :=
  match a, b with
  | Num x, Num y => Qltb x y
  | _, _ => false
  end.

Definition fgt (a b : fl) : bool := flt b a.

(** The builtins [min(a, b)] and [max(a, b)]: the first argument is kept
    unless the second one compares strictly below (above) it. *)
Definition py_min (a b : fl) : fl := if flt b a then b else a.
Definition py_max (a b : fl) : fl := if fgt b a then b else a.

(** Order on floats as propositions; nothing is related to NaN. *)
Definition fle (a b : fl) : Prop :=
  match a, b with
  | Num x, Num y => x <= y
  | _, _ => False
  end.

Definition in_unit (a : fl) : Prop := fle (Num 0) a /\ fle a (Num 1).

(** A float that went through a square root. *)
Inductive flR : Type :=
| NumR (r : R)
| NaNR.

End PyFloat.
Import PyFloat.

(** ** Python strings

    Strings are sequences of 8-bit characters; the case functions act on the
    ASCII letters and leave every other character as it is. *)

Module PyStr.

Definition is_upper (c : ascii) : bool :=
  let n := nat_of_ascii c in (65 <=? n)%nat && (n <=? 90)%nat.

Definition is_lower (c : ascii) : bool :=
  let n := nat_of_ascii c in (97 <=? n)%nat && (n <=? 122)%nat.

Definition to_lower (c : ascii) : ascii :=
  if is_upper c then ascii_of_nat (nat_of_ascii c + 32) else c.

Definition to_upper (c : ascii) : ascii :=
  if is_lower c then ascii_of_nat (nat_of_ascii c - 32) else c.

(** [s.lower()] *)
Fixpoint lower (s : string) : string :=
  match s with
  | EmptyString => EmptyString
  | String c s' => String (to_lower c) (lower s')
  end.

(** [s.title()]: a letter that follows a letter is lowered, any other
    letter is raised. *)
Fixpoint title_from (previous_is_cased : bool) (s : string) : string :=
  match s with
  | EmptyString => EmptyString
  | String c s' =>
      if is_upper c || is_lower c
      then String (if previous_is_cased then to_lower c else to_upper c)
                  (title_from true s')
      else String c (title_from false s')
  end.

Definition title (s : string) : string := title_from false s.

(** [s.replace(old, new)] for a non-empty [old]: the occurrences are
    replaced from left to right, without overlap.  [skip] counts the
    characters of a matched occurrence that are still to be dropped. *)
Fixpoint replace_from (skip : nat) (old new s : string) : string :=
  match s with
  | EmptyString => EmptyString
  | String c s' =>
      match skip with
      | S k => replace_from k old new s'
      | O =>
          if String.prefix old s
          then new +:+ replace_from (String.length old - 1) old new s'
          else String c (replace_from O old new s')
      end
  end.

Definition replace (old new s : string) : string := replace_from O old new s.

(** [sub in s] *)
Fixpoint contains (sub s : string) : bool :=
  String.prefix sub s ||
  match s with
  | EmptyString => false
  | String _ s' => contains sub s'
  end.

(** [c.isspace()] on the ASCII range *)
Definition is_space (c : ascii) : bool :=
  let n := nat_of_ascii c in
  ((9 <=? n)%nat && (n <=? 13)%nat) || ((28 <=? n)%nat && (n <=? 32)%nat).

Fixpoint lstrip (s : string) : string :=
  match s with
  | EmptyString => EmptyString
  | String c s' => if is_space c then lstrip s' else s
  end.

Fixpoint rstrip (s : string) : string :=
  match s with
  | EmptyString => EmptyString
  | String c s' =>
      match rstrip s' with
      | EmptyString => if is_space c then EmptyString else String c EmptyString
      | r => String c r
      end
  end.

(** [s.strip()] *)
Definition strip (s : string) : string := rstrip (lstrip s).

Definition newline : ascii := ascii_of_nat 10.

(** [s.split('\n')] *)
Fixpoint split_lines (s : string) : list string :=
  match s with
  | EmptyString => [EmptyString]
  | String c s' =>
      if Ascii.eqb c newline then EmptyString :: split_lines s'
      else match split_lines s' with
           | h :: t => String c h :: t
           | [] => [String c EmptyString]
           end
  end.

End PyStr.
Import PyStr.

(** ** The pandas and numpy operations the service calls *)

Module Pandas.

(** What a row dict holds under a key: nothing (the key is missing),
    [None], or a value. *)
Inductive cell (A : Type) : Type :=
| Absent
| Null
| Val (a : A).
Arguments Absent {A}.
Arguments Null {A}.
Arguments Val {A} a.

Definition is_present {A} (c : cell A) : bool :=
  match c with Absent => false | _ => true end.

(** The cell as it shows in a float column. *)
Definition to_fl (c : cell Q) : fl :=
  match c with Val q => Num q | _ => NaN end.

Definition to_opt {A} (c : cell A) : option A :=
  match c with Val a => Some a | _ => None end.

(** One row of [weather_data], with the keys the service reads. *)
Record Measurement : Type := {
  location : cell string;
  timestamp : cell string;
  temperature : cell Q;
  humidity : cell Q;
  pressure : cell Q;
  wind_speed : cell Q;
  precipitation : cell Q;
  weather_type : cell string
}.

(** [pd.DataFrame(weather_data)]: the rows in order, index 0..n-1. *)
Definition DataFrame : Type := list Measurement.

Definition num_cell (col : string) (m : Measurement) : cell Q :=
  if String.eqb col "temperature" then temperature m
  else if String.eqb col "humidity" then humidity m
  else if String.eqb col "pressure" then pressure m
  else if String.eqb col "wind_speed" then wind_speed m
  else if String.eqb col "precipitation" then precipitation m
  else Absent.

Definition str_cell (col : string) (m : Measurement) : cell string :=
  if String.eqb col "location" then location m
  else if String.eqb col "timestamp" then timestamp m
  else if String.eqb col "weather_type" then weather_type m
  else Absent.

(** [col in df.columns]: some row has the key. *)
Definition has_column (col : string) (df : DataFrame) : bool :=
  existsb (fun m => is_present (num_cell col m) || is_present (str_cell col m)) df.

(** [df[col]] for a numeric column. *)
Definition series (col : string) (df : DataFrame) : list fl :=
  map (fun m => to_fl (num_cell col m)) df.

(** [df[col]] for a string column. *)
Definition str_series (col : string) (df : DataFrame) : list (option string) :=
  map (fun m => to_opt (str_cell col m)) df.

(** [s.tail(n)] *)
Definition tail {A} (n : nat) (s : list A) : list A :=
  skipn (length s - n) s.

(** The values that are not NaN, in order. *)
Fixpoint dropna (s : list fl) : list Q :=
  match s with
  | [] => []
  | Num q :: s' => q :: dropna s'
  | NaN :: s' => dropna s'
  end.

Definition Qsum (l : list Q) : Q := fold_right Qplus 0 l.

Definition of_nat (n : nat) : Q := inject_Z (Z.of_nat n).

(** [s.sum()]: NaN is skipped, nothing to add gives 0. *)
Definition series_sum (s : list fl) : fl := Num (Qsum (dropna s)).

(** [s.mean()]: NaN is skipped, nothing left gives NaN. *)
Definition series_mean (s : list fl) : fl :=
  match dropna s with
  | [] => NaN
  | l => Num (Qsum l / of_nat (length l))
  end.

Definition Qmax2 (a b : Q) : Q := if Qltb a b then b else a.
Definition Qmin2 (a b : Q) : Q := if Qltb b a then b else a.

(** [s.max()] and [s.min()]: NaN is skipped, nothing left gives NaN. *)
Definition series_max (s : list fl) : fl :=
  match dropna s with
  | [] => NaN
  | x :: l => Num (fold_left Qmax2 l x)
  end.

Definition series_min (s : list fl) : fl :=
  match dropna s with
  | [] => NaN
  | x :: l => Num (fold_left Qmin2 l x)
  end.

Fixpoint insert_sorted (x : Q) (l : list Q) : list Q :=
  match l with
  | [] => [x]
  | y :: l' => if Qle_bool x y then x :: l else y :: insert_sorted x l'
  end.

Definition sort (l : list Q) : list Q := fold_right insert_sorted [] l.

(** [s.quantile(q)] with the default linear interpolation: on the sorted
    values that are not NaN, at position [(n-1)*q]. *)
Definition series_quantile (q : Q) (s : list fl) : fl :=
  match sort (dropna s) with
  | [] => NaN
  | x :: l =>
      let v := x :: l in
      let n := length v in
      let h := of_nat (n - 1) * q in
      let i := Z.to_nat (Qfloor h) in
      let frac := h - inject_Z (Qfloor h) in
      let lo := nth i v x in
      let hi := nth (Nat.min (i + 1) (n - 1)) v x in
      Num (lo + (hi - lo) * frac)
  end.

(** [s.median()] *)
Definition series_median (s : list fl) : fl :=
  match sort (dropna s) with
  | [] => NaN
  | x :: l =>
      let v := x :: l in
      let n := length v in
      if Nat.even n
      then Num ((nth (n / 2 - 1) v x + nth (n / 2) v x) / 2)
      else Num (nth (n / 2) v x)
  end.

Definition sum_sq_dev (l : list Q) : Q :=
  let m := Qsum l / of_nat (length l) in
  Qsum (map (fun x => (x - m) * (x - m)) l).

(** [s.std()]: the sample standard deviation of the values that are not
    NaN; fewer than two of them give NaN. *)
Definition series_std (s : list fl) : flR :=
  match dropna s with
  | [] | [_] => NaNR
  | l => NumR (sqrt (Q2R (sum_sq_dev l / of_nat (length l - 1))))
  end.

(** [np.std(a)]: the population standard deviation; a NaN among the
    values gives NaN. *)
Definition np_std (a : list fl) : flR :=
  if Nat.eqb (length (dropna a)) (length a) && negb (Nat.eqb (length a) 0)
  then NumR (sqrt (Q2R (sum_sq_dev (dropna a) / of_nat (length a))))
  else NaNR.

(** [range(n)] as floats. *)
Definition positions (n : nat) : list Q := map of_nat (seq 0 n).

(** [np.polyfit(range(len(y)), y, 1)[0]]: the slope of the least-squares
    line through the points [(i, y_i)], for at least two points; a NaN
    among the [y_i] gives NaN. *)
Definition polyfit_slope (y : list fl) : fl :=
  if Nat.eqb (length (dropna y)) (length y)
  then
    let ys := dropna y in
    let xs := positions (length ys) in
    let n := of_nat (length ys) in
    let sx := Qsum xs in
    let sy := Qsum ys in
    let sxy := Qsum (map (fun p => fst p * snd p) (combine xs ys)) in
    let sxx := Qsum (map (fun x => x * x) xs) in
    Num ((n * sxy - sx * sy) / (n * sxx - sx * sx))
  else NaN.

(** [s.iloc[0]] and [s.iloc[-1]] of a series that is not empty. *)
Definition iloc_first (s : list fl) : fl := hd NaN s.
Definition iloc_last (s : list fl) : fl := List.last s NaN.

(** [(s > c).sum()] and [(s < c).sum()] *)
Definition count_gt (c : Q) (s : list fl) : nat :=
  length (List.filter (fun v => fgt v (Num c)) s).
Definition count_lt (c : Q) (s : list fl) : nat :=
  length (List.filter (fun v => flt v (Num c)) s).

(** [df.sort_values('timestamp')]: ascending, rows without a timestamp
    last; rows with equal timestamps keep their order. *)
Definition ts_le (a b : Measurement) : bool :=
  match to_opt (timestamp a), to_opt (timestamp b) with
  | Some x, Some y => String.leb x y
  | Some _, None => true
  | None, Some _ => false
  | None, None => true
  end.

Fixpoint insert_row (r : Measurement) (l : DataFrame) : DataFrame :=
  match l with
  | [] => [r]
  | r' :: l' => if ts_le r r' then r :: l else r' :: insert_row r l'
  end.

Definition sort_values_timestamp (df : DataFrame) : DataFrame :=
  fold_right insert_row [] df.

End Pandas.
Import Pandas.

(** ** Python dicts that are iterated: keys in insertion order *)

Module PyDict.

Definition odict (V : Type) : Type := list (string * V).

(** [d[k] = v]: an existing key keeps its place. *)
Fixpoint od_set {V} (k : string) (v : V) (d : odict V) : odict V :=
  match d with
  | [] => [(k, v)]
  | (k', v') :: d' =>
      if String.eqb k k' then (k, v) :: d' else (k', v') :: od_set k v d'
  end.

(** [d.get(k)] *)
Fixpoint od_get {V} (k : string) (d : odict V) : option V :=
  match d with
  | [] => None
  | (k', v') :: d' => if String.eqb k k' then Some v' else od_get k d'
  end.

End PyDict.
Import PyDict.

(** ** [ai_service.py]: class [AIWeatherService] *)

Module AIService.

(** [self.prediction_models], set by [_initialize_prediction_models]. *)
Module prediction_models.
Module flood.
Definition threshold_precipitation : Q := 50.
Definition threshold_river_level : Q := 5.
Definition soil_saturation_factor : Q := 0.8.
End flood.
Module drought.
Definition threshold_precipitation : Q := 5.
Definition threshold_temperature : Q := 35.
Definition humidity_threshold : Q := 30.
End drought.
Module storm.
Definition threshold_wind_speed : Q := 60.
Definition threshold_pressure_drop : Q := 20.
Definition temperature_gradient : Q := 10.
End storm.
Module extreme_temperature.
Definition heat_threshold : Q := 40.
Definition cold_threshold : Q := -20.
Definition duration_hours : nat := 6.
End extreme_temperature.
End prediction_models.

Definition numerical_columns : list string :=
  ["temperature"; "humidity"; "pressure"; "wind_speed"; "precipitation"]%string.

(** A function that returns either [{"error": msg}] or its result dict. *)
Inductive response (A : Type) : Type :=
| Error (msg : string)
| Result (a : A).
Arguments Error {A} msg.
Arguments Result {A} a.

(** [r.get(key, default)] on what such a function returned: the error
    dict has no key but ["error"]. *)
Definition get_or {A B : Type} (key : A -> B) (dflt : B) (r : response A) : B :=
  match r with
  | Result a => key a
  | Error _ => dflt
  end.

(** *** [_analyze_trends] *)

Record Trend : Type := {
  direction : string;
  rate : fl;
  significance : string
}.

Definition trend_of (slope : fl) (limit : Q) : Trend :=
  {| direction := if fgt slope (Num 0) then "increasing" else "decreasing";
     rate := slope;
     significance := if fgt (fabs slope) (Num limit) then "high" else "low" |}.

Definition _analyze_trends (df : DataFrame) : gmap string Trend :=
  let trends : gmap string Trend := ∅ in
  if has_column "timestamp" df && (1 <? length df)%nat then
    let df_sorted := sort_values_timestamp df in
    let trends :=
      if has_column "temperature" df then
        let temp_trend := polyfit_slope (series "temperature" df_sorted) in
        <["temperature" := trend_of temp_trend 0.5]> trends
      else trends in
    let trends :=
      if has_column "precipitation" df then
        let precip_trend := polyfit_slope (series "precipitation" df_sorted) in
        <["precipitation" := trend_of precip_trend 1]> trends
      else trends in
    trends
  else trends.

(** *** [_detect_anomalies] *)

Record Anomaly : Type := {
  anomaly_type : string;
  anomaly_value : fl;
  expected_range : fl * fl;
  anomaly_severity : string;
  anomaly_timestamp : option string;
  anomaly_location : option string
}.

(** The IQR fences of one column: [(lower_bound, upper_bound, IQR)]. *)
Definition iqr_bounds (s : list fl) : fl * fl * fl :=
  let Q1 := series_quantile 0.25 s in
  let Q3 := series_quantile 0.75 s in
  let IQR := fsub Q3 Q1 in
  let lower_bound := fsub Q1 (fmul (Num 1.5) IQR) in
  let upper_bound := fadd Q3 (fmul (Num 1.5) IQR) in
  (lower_bound, upper_bound, IQR).

Definition column_anomalies (df : DataFrame) (col : string) : list Anomaly :=
  if has_column col df then
    let '(lower_bound, upper_bound, IQR) := iqr_bounds (series col df) in
    let anomaly_rows :=
      List.filter (fun m => flt (to_fl (num_cell col m)) lower_bound
                            || fgt (to_fl (num_cell col m)) upper_bound) df in
    map (fun m =>
           let v := to_fl (num_cell col m) in
           {| anomaly_type := col +:+ "_anomaly";
              anomaly_value := v;
              expected_range := (lower_bound, upper_bound);
              anomaly_severity :=
                if flt v (fsub lower_bound IQR) || fgt v (fadd upper_bound IQR)
                then "high" else "medium";
              anomaly_timestamp :=
                if has_column "timestamp" df then to_opt (timestamp m) else None;
              anomaly_location :=
                if has_column "location" df then to_opt (location m) else None |})
        anomaly_rows
  else [].

Definition _detect_anomalies (df : DataFrame) : list Anomaly :=
  flat_map (column_anomalies df) numerical_columns.

(** *** [_assess_risks] *)

Definition _assess_risks (df : DataFrame) : odict fl :=
  let risks : odict fl :=
    [("flood_risk", Num 0); ("drought_risk", Num 0);
     ("storm_risk", Num 0); ("extreme_temperature_risk", Num 0)]%string in
  if (length df =? 0)%nat then risks else
  let risks :=
    if has_column "precipitation" df then
      let recent_precip := series_sum (tail 24 (series "precipitation" df)) in
      let flood_threshold := Num prediction_models.flood.threshold_precipitation in
      od_set "flood_risk" (py_min (Num 1) (fdiv recent_precip flood_threshold)) risks
    else risks in
  let risks :=
    if has_column "precipitation" df && has_column "temperature" df then
      let avg_precip := series_mean (tail 720 (series "precipitation" df)) in
      let avg_temp := series_mean (tail 720 (series "temperature" df)) in
      let drought_precip_threshold := Num prediction_models.drought.threshold_precipitation in
      let drought_temp_threshold := Num prediction_models.drought.threshold_temperature in
      let precip_risk :=
        fsub (Num 1) (py_min (Num 1) (fdiv avg_precip drought_precip_threshold)) in
      let temp_risk :=
        py_min (Num 1)
               (fdiv (py_max (Num 0) (fsub avg_temp (Num 25)))
                     (fsub drought_temp_threshold (Num 25))) in
      od_set "drought_risk" (fdiv (fadd precip_risk temp_risk) (Num 2)) risks
    else risks in
  let risks :=
    if has_column "wind_speed" df && has_column "pressure" df then
      let max_wind := series_max (tail 6 (series "wind_speed" df)) in
      let pressure_drop :=
        fsub (iloc_first (tail 3 (series "pressure" df)))
             (iloc_last (tail 3 (series "pressure" df))) in
      let wind_risk :=
        py_min (Num 1) (fdiv max_wind (Num prediction_models.storm.threshold_wind_speed)) in
      let pressure_risk :=
        py_min (Num 1)
               (fdiv (py_max (Num 0) pressure_drop)
                     (Num prediction_models.storm.threshold_pressure_drop)) in
      od_set "storm_risk" (py_max wind_risk pressure_risk) risks
    else risks in
  let risks :=
    if has_column "temperature" df then
      let recent_temps := tail 6 (series "temperature" df) in
      let heat_threshold := prediction_models.extreme_temperature.heat_threshold in
      let cold_threshold := prediction_models.extreme_temperature.cold_threshold in
      let heat_risk :=
        Num (of_nat (count_gt heat_threshold recent_temps) / of_nat (length recent_temps)) in
      let cold_risk :=
        Num (of_nat (count_lt cold_threshold recent_temps) / of_nat (length recent_temps)) in
      od_set "extreme_temperature_risk" (py_max heat_risk cold_risk) risks
    else risks in
  risks.

(** *** [analyze_weather_patterns] *)

Record FieldStatistics : Type := {
  stat_mean : fl;
  stat_median : fl;
  stat_std : flR;
  stat_min : fl;
  stat_max : fl
}.

Record Summary : Type := {
  total_records : nat;
  date_range : option string * option string;
  locations : list (option string)
}.

Record Analysis : Type := {
  summary : Summary;
  statistics : gmap string FieldStatistics;
  trends : gmap string Trend;
  anomalies : list Anomaly;
  risk_assessment : odict fl
}.

(** [s.min()] and [s.max()] of a string column: missing values are
    skipped, nothing left gives a missing value. *)
Definition str_least (le : string -> string -> bool) (s : list (option string)) : option string :=
  fold_left (fun acc x =>
               match acc, x with
               | Some a, Some b => Some (if le a b then a else b)
               | None, _ => x
               | _, None => acc
               end) s None.

(** [s.unique().tolist()]: the first occurrences, in order. *)
Fixpoint unique (seen : list (option string)) (s : list (option string)) : list (option string) :=
  match s with
  | [] => []
  | x :: s' =>
      if bool_decide (x ∈ seen) then unique seen s' else x :: unique (x :: seen) s'
  end.

Definition field_statistics (s : list fl) : FieldStatistics :=
  {| stat_mean := series_mean s;
     stat_median := series_median s;
     stat_std := series_std s;
     stat_min := series_min s;
     stat_max := series_max s |}.

Definition analyze_weather_patterns (weather_data : list Measurement) : response Analysis :=
  match weather_data with
  | [] => Error "No weather data provided"
  | _ =>
      let df : DataFrame := weather_data in
      let summary :=
        {| total_records := length df;
           date_range :=
             (if has_column "timestamp" df
              then str_least String.leb (str_series "timestamp" df) else None,
              if has_column "timestamp" df
              then str_least (fun a b => String.leb b a) (str_series "timestamp" df) else None);
           locations :=
             if has_column "location" df then unique [] (str_series "location" df) else [] |} in
      let statistics :=
        fold_left (fun (acc : gmap string FieldStatistics) col =>
                     if has_column col df
                     then <[col := field_statistics (series col df)]> acc
                     else acc)
                  numerical_columns ∅ in
      Result {| summary := summary;
                statistics := statistics;
                trends := _analyze_trends df;
                anomalies := _detect_anomalies df;
                risk_assessment := _assess_risks df |}
  end.

(** *** [generate_weather_prediction] *)

Record FieldPrediction : Type := {
  value : fl;
  trend : string;
  field_confidence : flR
}.

Record Prediction : Type := {
  prediction_location : string;
  forecast_hours : nat;
  predictions : gmap string FieldPrediction;
  confidence : Q;
  model_version : string;
  prediction_risk_assessment : odict fl
}.

(** [0.7 + 0.2 * (1 - abs(trend) / (np.std(recent_values) + 1e-6))] *)
Definition confidence_of (trend : fl) (sd : flR) : flR :=
  match trend, sd with
  | Num t, NumR s => NumR (0.7 + 0.2 * (1 - Q2R (Qabs t) / (s + / 1000000)))%R
  | _, _ => NaNR
  end.

Definition predict_field (recent_values : list fl) : FieldPrediction :=
  let trend :=
    fdiv (fsub (iloc_last recent_values) (iloc_first recent_values))
         (Num (of_nat (length recent_values))) in
  let predicted_value := fadd (iloc_last recent_values) trend in
  {| value := predicted_value;
     trend := if fgt trend (Num 0) then "increasing" else "decreasing";
     field_confidence := confidence_of trend (np_std recent_values) |}.

Definition generate_weather_prediction (location : string) (historical_data : list Measurement)
  : response Prediction :=
  match historical_data with
  | [] => Error "No historical data provided"
  | _ =>
      let df : DataFrame := historical_data in
      let predictions : gmap string FieldPrediction :=
        if (3 <=? length df)%nat then
          fold_left (fun (acc : gmap string FieldPrediction) param =>
                       if has_column param df
                       then <[param := predict_field (tail 3 (series param df))]> acc
                       else acc)
                    numerical_columns ∅
        else ∅ in
      Result {| prediction_location := location;
                forecast_hours := 24;
                predictions := predictions;
                confidence := 0.75;
                model_version := "v1.0";
                prediction_risk_assessment := _assess_risks df |}
  end.

(** *** [_generate_template_alert] and [generate_weather_alert] *)

(** The [alert_data] dict: a key may be missing, which is what [.get]
    with a default is for. *)
Record AlertData : Type := {
  alert_type : option string;
  severity : option string;
  alert_location : option string;
  conditions : odict fl;
  risk_level : option fl
}.

Definition _generate_template_alert (alert_data : AlertData) : gmap string string :=
  let alert_type := lower (default "weather" (alert_type alert_data)) in
  let severity := lower (default "medium" (severity alert_data)) in
  let location := default "the area" (alert_location alert_data) in
  let templates : gmap string (gmap string string) :=
    {[ "flood" :=
         {[ "title" := "Flood " +:+ title severity +:+ " Alert for " +:+ location;
            "description" := "Heavy rainfall and rising water levels pose a flood risk in " +:+ location +:+ ". Monitor local conditions and be prepared to evacuate if necessary.";
            "instructions" := "Move to higher ground, avoid flooded roads, and stay informed through official channels.";
            "duration" := "Alert remains in effect until water levels recede." ]};
       "drought" :=
         {[ "title" := "Drought " +:+ title severity +:+ " Alert for " +:+ location;
            "description" := "Extended dry conditions and high temperatures are creating drought conditions in " +:+ location +:+ ". Water conservation measures are recommended.";
            "instructions" := "Conserve water, avoid outdoor burning, and monitor local water restrictions.";
            "duration" := "Alert continues until significant precipitation occurs." ]};
       "storm" :=
         {[ "title" := "Severe Storm " +:+ title severity +:+ " Alert for " +:+ location;
            "description" := "Dangerous weather conditions including high winds and heavy precipitation are expected in " +:+ location +:+ ".";
            "instructions" := "Secure outdoor objects, avoid travel if possible, and stay indoors during the storm.";
            "duration" := "Storm conditions expected for the next 6-12 hours." ]} ]} in
  default (templates !!! "storm") (templates !! alert_type).

(** The loop of [generate_weather_alert] that picks the four fields out of
    the text the model returned. *)
Definition parse_line (result : gmap string string) (il : nat * string) : gmap string string :=
  let '(i, line) := il in
  if contains "title" (lower line) || (i =? 0)%nat then
    <["title" := strip (replace "1." "" (replace "Title:" "" (strip line)))]> result
  else if contains "description" (lower line) || contains "threat" (lower line) then
    <["description" := strip (replace "2." "" (replace "Description:" "" (strip line)))]> result
  else if contains "instruction" (lower line) || contains "safety" (lower line) then
    <["instructions" := strip (replace "3." "" (replace "Instructions:" "" (strip line)))]> result
  else if contains "duration" (lower line) || contains "timeline" (lower line) then
    <["duration" := strip (replace "4." "" (replace "Duration:" "" (strip line)))]> result
  else result.

Definition parse_alert_text (alert_text : string) : gmap string string :=
  let lines := split_lines (strip alert_text) in
  let result : gmap string string :=
    {[ "title" := "Weather Alert";
       "description" := alert_text;
       "instructions" := "Follow local emergency guidelines.";
       "duration" := "Monitor conditions closely." ]} in
  fold_left parse_line (combine (seq 0 (length lines)) lines) result.

Section TextFormatter.

(** The chat-completion request of the [try] block, from building the
    prompt to reading [response.choices[0].message.content]: the text, or
    [None] when any step of it raises. *)
Variable completion : AlertData -> option string.

Definition generate_weather_alert (alert_data : AlertData) : gmap string string :=
  match completion alert_data with
  | Some alert_text => parse_alert_text alert_text
  | None => _generate_template_alert alert_data
  end.

End TextFormatter.

End AIService.
Import AIService.

(** ** [scheduler.py]: class [WeatherScheduler] *)

Module Scheduler.

(** A row of the [weather_data] table; the measurement columns are not
    nullable. *)
Record WeatherData : Type := {
  wd_location : string;
  wd_temperature : Q;
  wd_humidity : Q;
  wd_pressure : Q;
  wd_wind_speed : Q;
  wd_precipitation : Q;
  wd_weather_type : string;
  wd_timestamp : string
}.

(** A row of the [weather_alerts] table, with the columns the sweep sets
    (the clock value [start_time] apart). *)
Record WeatherAlert : Type := {
  wa_alert_type : string;
  wa_severity : string;
  wa_location : string;
  wa_title : string;
  wa_description : string;
  wa_instructions : string;
  wa_is_active : bool;
  wa_ai_confidence : fl
}.

(** The session: the alerts added and committed so far, oldest first. *)
Definition Session : Type := list WeatherAlert.

Definition to_dict (w : WeatherData) : Measurement :=
  {| location := Val (wd_location w);
     timestamp := Val (wd_timestamp w);
     temperature := Val (wd_temperature w);
     humidity := Val (wd_humidity w);
     pressure := Val (wd_pressure w);
     wind_speed := Val (wd_wind_speed w);
     precipitation := Val (wd_precipitation w);
     weather_type := Val (wd_weather_type w) |}.

Section Sweep.

Variable completion : AlertData -> option string.

(** The body of the loop of [_check_risk_thresholds], for one item of
    [risk_assessment.items()]. *)
Definition create_alert (db : Session) (item : string * fl) : Session :=
  let '(risk_type, risk_value) := item in
  let high_risk_threshold := Num 0.7 in
  if fgt risk_value high_risk_threshold then
    let alert_type_value := replace "_risk" "" risk_type in
    let severity_value := (if fgt risk_value (Num 0.8) then "high" else "medium")%string in
    let location_value := "Multiple Areas"%string in
    let alert_data :=
      {| alert_type := Some alert_type_value;
         severity := Some severity_value;
         alert_location := Some location_value;
         conditions := [("risk_score"%string, risk_value)];
         risk_level := Some risk_value |} in
    let alert_content := generate_weather_alert completion alert_data in
    let new_alert :=
      {| wa_alert_type := alert_type_value;
         wa_severity := severity_value;
         wa_location := location_value;
         wa_title :=
           default (title alert_type_value +:+ " Alert") (alert_content !! "title");
         wa_description :=
           default "High risk conditions detected" (alert_content !! "description");
         wa_instructions :=
           default "Monitor conditions closely" (alert_content !! "instructions");
         wa_is_active := true;
         wa_ai_confidence := risk_value |} in
    db ++ [new_alert]
  else db.

(** [_check_risk_thresholds]: the session after the loop over
    [risk_assessment.items()].  Nothing in the body raises here (the
    session takes every row), so the [except] branch is not entered. *)
Definition _check_risk_thresholds (risk_assessment : odict fl) (db : Session) : Session :=
  fold_left create_alert risk_assessment db.

(** [_perform_pattern_analysis], from the rows the query returned. *)
Definition _perform_pattern_analysis (recent_data : list WeatherData) (db : Session) : Session :=
  if (10 <? length recent_data)%nat then
    let data_list := map to_dict recent_data in
    let analysis := analyze_weather_patterns data_list in
    let risk_assessment := get_or risk_assessment [] analysis in
    _check_risk_thresholds risk_assessment db
  else db.

End Sweep.

End Scheduler.
Import Scheduler.

(** ** [ai_service.py]: [analyze_social_sentiment] *)

Module SocialSentiment.

(** [result[0]] of the sentiment pipeline for one post. *)
Record Sentiment : Type := {
  label : string;
  score : Q
}.

(** The dict [analyze_social_sentiment] returns; the three counts of its
    ["sentiment_distribution"] are fields of the record. *)
Record SentimentReport : Type := {
  total_posts : nat;
  positive_count : Z;
  negative_count : Z;
  neutral_count : Z;
  average_confidence : Q;
  overall_sentiment : string
}.

(** The loop over the posts, each cut to its first 512 characters; a call
    of the pipeline that raises ends it. *)
Fixpoint classify (analyzer : string -> response Sentiment) (social_posts : list string)
  : response (list Sentiment) :=
  match social_posts with
  | [] => Result []
  | post :: rest =>
      match analyzer (substring 0 512 post) with
      | Error msg => Error msg
      | Result s =>
          match classify analyzer rest with
          | Error msg => Error msg
          | Result sentiments => Result (s :: sentiments)
          end
      end
  end.

(** [sum(1 for s in sentiments if s['label'] == name)] *)
Definition count_label (name : string) (sentiments : list Sentiment) : Z :=
  Z.of_nat (length (List.filter (fun s => String.eqb (label s) name) sentiments)).

Section Analyzer.

(** [self.sentiment_analyzer]: [None] when the models could not be loaded;
    a call gives the first result of the pipeline, or raises an exception
    ([Error] with its text). *)
Variable sentiment_analyzer : option (string -> response Sentiment).

Definition analyze_social_sentiment (social_posts : list string) : response SentimentReport :=
  match sentiment_analyzer, social_posts with
  | None, _ | _, [] => Error "Sentiment analyzer not available or no posts provided"
  | Some analyzer, _ =>
      match classify analyzer social_posts with
      | Error msg => Error msg
      | Result sentiments =>
          let positive_count := count_label "POSITIVE" sentiments in
          let negative_count := count_label "NEGATIVE" sentiments in
          let neutral_count :=
            (Z.of_nat (length sentiments) - positive_count - negative_count)%Z in
          let avg_confidence :=
            Qsum (map score sentiments) / of_nat (length sentiments) in
          Result {| total_posts := length social_posts;
                    positive_count := positive_count;
                    negative_count := negative_count;
                    neutral_count := neutral_count;
                    average_confidence := avg_confidence;
                    overall_sentiment :=
                      if (negative_count <? positive_count)%Z then "positive"
                      else if (positive_count <? negative_count)%Z then "negative"
                      else "neutral" |}
      end
  end.

End Analyzer.

End SocialSentiment.
Import SocialSentiment.

(** ** [routers/weather.py]: the analysis and prediction handlers *)

Module WeatherRouter.

(** What a handler does: it returns a body, or raises an [HTTPException]. *)
Inductive reply (A : Type) : Type :=
| Body (a : A)
| HTTPException (status_code : nat) (detail : string).
Arguments Body {A} a.
Arguments HTTPException {A} status_code detail.

(** The body of [get_weather_analysis]. *)
Record AnalysisBody : Type := {
  analysis_location : string;
  data_points : nat;
  analysis : response Analysis
}.

(** A row of the [weather_predictions] table, with the columns the handler
    sets (the clock value [prediction_date] apart). *)
Record WeatherPrediction : Type := {
  wp_location : string;
  wp_forecast_hours : nat;
  predicted_temperature : option fl;
  predicted_humidity : option fl;
  predicted_pressure : option fl;
  predicted_wind_speed : option fl;
  predicted_precipitation : option fl;
  flood_risk : fl;
  drought_risk : fl;
  storm_risk : fl;
  extreme_temp_risk : fl;
  model_name : string;
  wp_model_version : string;
  confidence_score : Q
}.

(** [prediction.get("predictions", {}).get(param, {}).get("value")] *)
Definition predicted_value (prediction : response Prediction) (param : string) : option fl :=
  option_map value (get_or predictions ∅ prediction !! param).

(** [prediction.get("risk_assessment", {}).get(key, 0.0)] *)
Definition predicted_risk (prediction : response Prediction) (key : string) : fl :=
  default (Num 0) (od_get key (get_or prediction_risk_assessment [] prediction)).

Section Handlers.

(** [str(e)] of an [HTTPException] with a status code and a detail. *)
Variable str : nat -> string -> string.

(** [try: ... except Exception as e: raise HTTPException(500, prefix + str(e))]
    around a handler: an [HTTPException] the handler raises itself is an
    [Exception] too. *)
Definition except_Exception {A} (prefix : string) (r : reply A) : reply A :=
  match r with
  | Body a => Body a
  | HTTPException status_code detail =>
      HTTPException 500 (prefix +:+ str status_code detail)
  end.

(** [get_weather_analysis], from the rows the query returned (those of the
    last seven days for the location, newest first). *)
Definition get_weather_analysis (location : string) (weather_data : list WeatherData)
  : reply AnalysisBody :=
  except_Exception "Error performing weather analysis: "
    (match weather_data with
     | [] => HTTPException 404 "No weather data found for analysis"
     | _ =>
         let data_list := map to_dict weather_data in
         let analysis := analyze_weather_patterns data_list in
         Body {| analysis_location := location;
                 data_points := length data_list;
                 analysis := analysis |}
     end).

(** [get_weather_prediction], from the rows the query returned (those of
    the last thirty days for the location, newest first) and the rows of
    [weather_predictions] committed so far. *)
Definition get_weather_prediction (location : string) (historical_data : list WeatherData)
    (db : list WeatherPrediction)
  : reply (response Prediction) * list WeatherPrediction :=
  if (length historical_data <? 10)%nat then
    (except_Exception "Error generating weather prediction: "
       (HTTPException 400 "Insufficient historical data for prediction"), db)
  else
    let data_list := map to_dict historical_data in
    let prediction := generate_weather_prediction location data_list in
    let new_prediction :=
      {| wp_location := location;
         wp_forecast_hours := 24;
         predicted_temperature := predicted_value prediction "temperature";
         predicted_humidity := predicted_value prediction "humidity";
         predicted_pressure := predicted_value prediction "pressure";
         predicted_wind_speed := predicted_value prediction "wind_speed";
         predicted_precipitation := predicted_value prediction "precipitation";
         flood_risk := predicted_risk prediction "flood_risk";
         drought_risk := predicted_risk prediction "drought_risk";
         storm_risk := predicted_risk prediction "storm_risk";
         extreme_temp_risk := predicted_risk prediction "extreme_temperature_risk";
         model_name := "WeatherGuard AI";
         wp_model_version := get_or model_version "v1.0" prediction;
         confidence_score := get_or confidence 0.75 prediction |} in
    (except_Exception "Error generating weather prediction: " (Body prediction),
     db ++ [new_prediction]).

End Handlers.

End WeatherRouter.
Import WeatherRouter.

(** ** [blockchain_service.py]: the registry encoding of a reading *)

Module BlockchainService.

(** [int(x)] of a float: the fraction is dropped, towards zero. *)
Definition py_int (x : Q) : Z := Z.quot (Qnum x) (Z.pos (Qden x)).

(** The arguments [submit_weather_data] passes to [submitWeatherData]. *)
Record Submission : Type := {
  sub_location : string;
  temp_int : Z;
  humidity_int : Z;
  pressure_int : Z;
  wind_int : Z;
  precip_int : Z;
  sub_weather_type : string;
  sub_ipfs_hash : string
}.

(** The fields [get_weather_data] reads from what [getWeatherData]
    returned, [result[1]] to [result[7]]. *)
Record RegistryEntry : Type := {
  entry_location : string;
  entry_temperature : Z;
  entry_humidity : Z;
  entry_pressure : Z;
  entry_wind_speed : Z;
  entry_precipitation : Z;
  entry_weather_type : string
}.

(** The dict [get_weather_data] returns, for the same fields. *)
Record Reading : Type := {
  rd_location : string;
  rd_temperature : Q;
  rd_humidity : Z;
  rd_pressure : Z;
  rd_wind_speed : Q;
  rd_precipitation : Q;
  rd_weather_type : string
}.

(** What a method that may raise [ValueError] does. *)
Inductive outcome (A : Type) : Type :=
| ValueError (msg : string)
| Returns (a : A).
Arguments ValueError {A} msg.
Arguments Returns {A} a.

Section Contract.

(** ["WeatherDataRegistry" in self.contracts], and [self.send_transaction]
    on [submitWeatherData]: the transaction hash, or [None]. *)
Variable registry_loaded : bool.
Variable send_transaction : Submission -> option string.

Definition submit_weather_data (location : string)
    (temperature humidity pressure wind_speed precipitation : Q)
    (weather_type ipfs_hash : string) : outcome (option string) :=
  if negb registry_loaded then ValueError "WeatherDataRegistry contract not loaded"
  else
    let temp_int := py_int (temperature * 100) in
    let humidity_int := py_int humidity in
    let pressure_int := py_int pressure in
    let wind_int := py_int (wind_speed * 100) in
    let precip_int := py_int (precipitation * 100) in
    Returns (send_transaction
               {| sub_location := location;
                  temp_int := temp_int;
                  humidity_int := humidity_int;
                  pressure_int := pressure_int;
                  wind_int := wind_int;
                  precip_int := precip_int;
                  sub_weather_type := weather_type;
                  sub_ipfs_hash := ipfs_hash |}).

(** [get_weather_data], from what the call of [getWeatherData] gave
    ([None] when it raised). *)
Definition get_weather_data (result : option RegistryEntry) : option Reading :=
  if negb registry_loaded then None
  else
    match result with
    | None => None
    | Some result =>
        Some {| rd_location := entry_location result;
                rd_temperature := inject_Z (entry_temperature result) / 100;
                rd_humidity := entry_humidity result;
                rd_pressure := entry_pressure result;
                rd_wind_speed := inject_Z (entry_wind_speed result) / 100;
                rd_precipitation := inject_Z (entry_precipitation result) / 100;
                rd_weather_type := entry_weather_type result |}
    end.

End Contract.

End BlockchainService.
Import BlockchainService.

(** ** Batches of Python numbers, in binary64

    The batches posted to [/analyze/patterns] and [/predict/weather] are
    JSON: a cell holds a Python int, a Python float or [None].  This
    module follows the parts of the service whose outcome depends on how
    pandas types such a column and on the rounding of binary64:
    [_detect_anomalies], [_analyze_trends], the storm block of
    [_assess_risks] and the prediction loop of
    [generate_weather_prediction].  Floats are the primitive binary64
    numbers, with round-to-nearest-even as in numpy. *)

Module Binary64.

Local Open Scope float_scope.

(** A Python int that fits int64; pandas keeps a larger one as a Python
    object, which is left out. *)
Definition in_int64 (n : Z) : bool := (- 2 ^ 63 <=? n)%Z && (n <? 2 ^ 63)%Z.

Record int64 : Type := {
  to_Z : Z;
  fits : in_int64 to_Z = true
}.

(** A number of a row dict. *)
Inductive number : Type :=
| PyInt (n : int64)
| PyFloat (x : float).

(** One row of the batch, with the keys the service reads. *)
Record Row : Type := {
  row_location : cell string;
  row_timestamp : cell string;
  row_temperature : cell number;
  row_humidity : cell number;
  row_pressure : cell number;
  row_wind_speed : cell number;
  row_precipitation : cell number
}.

Definition number_cell (col : string) (r : Row) : cell number :=
  if String.eqb col "temperature" then row_temperature r
  else if String.eqb col "humidity" then row_humidity r
  else if String.eqb col "pressure" then row_pressure r
  else if String.eqb col "wind_speed" then row_wind_speed r
  else if String.eqb col "precipitation" then row_precipitation r
  else Absent.

(** What a statement does: it raises the named exception, or gives a
    value. *)
Inductive raising (A : Type) : Type :=
| Raised (exception : string)
| Returned (a : A).
Arguments Raised {A} exception.
Arguments Returned {A} a.

Definition bind {A B} (r : raising A) (f : A -> raising B) : raising B :=
  match r with
  | Raised exception => Raised exception
  | Returned a => f a
  end.

(** *** Conversions *)

(** [float(n)] and the cast of an int64 to float64: the nearest float,
    ties to even. *)
Definition of_int (n : Z) : float :=
  SF2Prim (binary_normalize prec emax n 0 false).

Definition of_nat (n : nat) : float := of_int (Z.of_nat n).

(** Arithmetic on int64 wraps around. *)
Definition wrap64 (n : Z) : Z := ((n + 2 ^ 63) mod 2 ^ 64 - 2 ^ 63)%Z.

(** [floor(x)] as an index, for a float that is not negative. *)
Definition floor_index (x : float) : nat :=
  match Prim2SF x with
  | S754_finite false m e => Z.to_nat (Z.shiftl (Z.pos m) e)
  | _ => O
  end.

(** The builtins [min(a, b)] and [max(a, b)]: the first argument is kept
    unless the second one compares strictly below (above) it. *)
Definition py_min (a b : float) : float := if b <? a then b else a.
Definition py_max (a b : float) : float := if a <? b then b else a.

(** *** [pd.DataFrame(rows)]: the type of a column *)

(** A column in which every row holds an int is an int64 column; a column
    in which every row holds [None] stays a column of Python objects; any
    other column is a float64 column, where ints are cast and [None] and a
    missing key read NaN. *)
Inductive column : Type :=
| Int64 (values : list Z)
| Float64 (values : list float)
| Object (values : list unit).

Definition is_int (c : cell number) : bool :=
  match c with Val (PyInt _) => true | _ => false end.

Definition is_none (c : cell number) : bool :=
  match c with Null => true | _ => false end.

Definition int_value (c : cell number) : Z :=
  match c with Val (PyInt n) => to_Z n | _ => 0%Z end.

Definition to_float (c : cell number) : float :=
  match c with
  | Val (PyFloat x) => x
  | Val (PyInt n) => of_int (to_Z n)
  | _ => nan
  end.

(** [col in df.columns]: some row has the key. *)
Definition in_columns (col : string) (df : list Row) : bool :=
  existsb (fun r => is_present (number_cell col r)) df.

(** [df[col]] *)
Definition get_column (col : string) (df : list Row) : column :=
  let cells := map (number_cell col) df in
  if forallb is_int cells then Int64 (map int_value cells)
  else if forallb is_none cells then Object (map (fun _ => tt) cells)
  else Float64 (map to_float cells).

(** [s.tail(n)] *)
Definition column_tail (n : nat) (s : column) : column :=
  match s with
  | Int64 values => Int64 (tail n values)
  | Float64 values => Float64 (tail n values)
  | Object values => Object (tail n values)
  end.

(** The column as floats, one per row: what a comparison with a float and
    [float(df.loc[idx, col])] read. *)
Definition as_floats (s : column) : list float :=
  match s with
  | Int64 values => map of_int values
  | Float64 values => values
  | Object values => map (fun _ => nan) values
  end.

(** *** Reductions *)

Definition not_nan (x : float) : bool := negb (PrimFloat.is_nan x).

Definition float_max (a b : float) : float := if a <? b then b else a.

(** [s.max()]: NaN and [None] are skipped, nothing left gives NaN. *)
Definition series_max (s : column) : float :=
  match s with
  | Int64 [] => nan
  | Int64 (n :: values) => of_int (fold_left Z.max values n)
  | Float64 values =>
      match List.filter not_nan values with
      | [] => nan
      | x :: l => fold_left float_max l x
      end
  | Object _ => nan
  end.

(** [s.iloc[0] - s.iloc[-1]] of a series that is not empty: [None - None]
    raises. *)
Definition first_minus_last (s : column) : raising float :=
  match s with
  | Int64 values => Returned (of_int (wrap64 (hd 0%Z values - List.last values 0%Z)))
  | Float64 values => Returned (hd nan values - List.last values nan)
  | Object _ => Raised "TypeError"
  end.

(** *** [Series.quantile]

    pandas hands the values that are not NaN to [np.percentile], which
    interpolates between the two neighbours of the position [(n-1)*q] in
    the sorted values. *)

Fixpoint insert_float (x : float) (l : list float) : list float :=
  match l with
  | [] => [x]
  | y :: l' => if x <=? y then x :: l else y :: insert_float x l'
  end.

Fixpoint insert_int (x : Z) (l : list Z) : list Z :=
  match l with
  | [] => [x]
  | y :: l' => if (x <=? y)%Z then x :: l else y :: insert_int x l'
  end.

(** numpy's [_lerp(a, b, t)], given [b - a], [a] and [b] as floats. *)
Definition _lerp (diff_b_a a b t : float) : float :=
  if 0.5 <=? t then b - diff_b_a * (1 - t) else a + diff_b_a * t.

Section Percentile.

Context {A : Type}.
(** The cast of a value and the difference of two values, as floats. *)
Variable cast : A -> float.
Variable subtract : A -> A -> float.

(** [np.percentile(arr, q * 100)] on sorted values, none of them NaN. *)
Definition percentile (arr : list A) (q : float) : float :=
  match arr with
  | [] => nan
  | x :: _ =>
      let values_count := length arr in
      let virtual_index := of_nat (values_count - 1) * q in
      if of_nat (values_count - 1) <=? virtual_index then
        let previous := List.last arr x in
        let gamma := virtual_index - (-1) in
        _lerp (subtract previous previous) (cast previous) (cast previous) gamma
      else
        let previous_index := floor_index virtual_index in
        let previous := nth previous_index arr x in
        let next := nth (previous_index + 1) arr x in
        let gamma := virtual_index - of_nat previous_index in
        _lerp (subtract next previous) (cast previous) (cast next) gamma
  end.

End Percentile.

Definition quantile (q : float) (s : column) : float :=
  match s with
  | Int64 values =>
      percentile of_int (fun b a => of_int (wrap64 (b - a)))
                 (fold_right insert_int [] values) q
  | Float64 values =>
      percentile (fun x => x) (fun b a => b - a)
                 (fold_right insert_float [] (List.filter not_nan values)) q
  | Object _ => nan
  end.

(** *** [_detect_anomalies] *)

Record Anomaly : Type := {
  anomaly_type : string;
  anomaly_value : float;
  expected_range : float * float;
  anomaly_severity : string;
  anomaly_timestamp : option string;
  anomaly_location : option string
}.

Definition has_timestamp (df : list Row) : bool :=
  existsb (fun r => is_present (row_timestamp r)) df.

Definition has_location (df : list Row) : bool :=
  existsb (fun r => is_present (row_location r)) df.

(** The IQR fences of one column: [(lower_bound, upper_bound, IQR)]. *)
Definition iqr_bounds (s : column) : float * float * float :=
  let Q1 := quantile 0.25 s in
  let Q3 := quantile 0.75 s in
  let IQR := Q3 - Q1 in
  let lower_bound := Q1 - 1.5 * IQR in
  let upper_bound := Q3 + 1.5 * IQR in
  (lower_bound, upper_bound, IQR).

Definition column_anomalies (df : list Row) (col : string) : list Anomaly :=
  if in_columns col df then
    let '(lower_bound, upper_bound, IQR) := iqr_bounds (get_column col df) in
    let anomaly_rows :=
      List.filter (fun r => (to_float (number_cell col r) <? lower_bound)
                            || (upper_bound <? to_float (number_cell col r))) df in
    map (fun r =>
           let v := to_float (number_cell col r) in
           {| anomaly_type := col +:+ "_anomaly";
              anomaly_value := v;
              expected_range := (lower_bound, upper_bound);
              anomaly_severity :=
                if (v <? lower_bound - IQR) || (upper_bound + IQR <? v)
                then "high" else "medium";
              anomaly_timestamp :=
                if has_timestamp df then to_opt (row_timestamp r) else None;
              anomaly_location :=
                if has_location df then to_opt (row_location r) else None |})
        anomaly_rows
  else [].

Definition _detect_anomalies (df : list Row) : list Anomaly :=
  flat_map (column_anomalies df) numerical_columns.

(** *** [_analyze_trends] *)

Record Trend : Type := {
  direction : string;
  rate : float;
  significance : string
}.

Definition trend_of (slope limit : float) : Trend :=
  {| direction := if 0 <? slope then "increasing" else "decreasing";
     rate := slope;
     significance := if limit <? PrimFloat.abs slope then "high" else "low" |}.

Definition row_le (a b : Row) : bool :=
  match to_opt (row_timestamp a), to_opt (row_timestamp b) with
  | Some x, Some y => String.leb x y
  | Some _, None => true
  | None, Some _ => false
  | None, None => true
  end.

Fixpoint insert_row (r : Row) (l : list Row) : list Row :=
  match l with
  | [] => [r]
  | r' :: l' => if row_le r r' then r :: l else r' :: insert_row r l'
  end.

(** [df.sort_values('timestamp')] *)
Definition sort_values_timestamp (df : list Row) : list Row :=
  fold_right insert_row [] df.

Section Trends.

(** The least-squares fit of [np.polyfit(range(len(y)), y, 1)[0]] on a
    column of floats: the slope, or the exception of the solver. *)
Variable lstsq : list float -> raising float.

(** [np.polyfit] starts with [asarray(y) + 0.0], which raises on a column
    of [None]. *)
Definition polyfit_slope (y : column) : raising float :=
  match y with
  | Object _ => Raised "TypeError"
  | _ => lstsq (as_floats y)
  end.

Definition _analyze_trends (df : list Row) : raising (gmap string Trend) :=
  let trends : gmap string Trend := ∅ in
  if has_timestamp df && (1 <? length df)%nat then
    let df_sorted := sort_values_timestamp df in
    bind (if in_columns "temperature" df then
            bind (polyfit_slope (get_column "temperature" df_sorted))
                 (fun temp_trend =>
                    Returned (<["temperature" := trend_of temp_trend 0.5]> trends))
          else Returned trends)
      (fun trends =>
         if in_columns "precipitation" df then
           bind (polyfit_slope (get_column "precipitation" df_sorted))
                (fun precip_trend =>
                   Returned (<["precipitation" := trend_of precip_trend 1]> trends))
         else Returned trends)
  else Returned trends.

End Trends.

(** *** The storm block of [_assess_risks] *)

(** [risks["storm_risk"]] after the block, for a batch that is not
    empty. *)
Definition storm_risk (df : list Row) : raising float :=
  if in_columns "wind_speed" df && in_columns "pressure" df then
    let max_wind := series_max (column_tail 6 (get_column "wind_speed" df)) in
    bind (first_minus_last (column_tail 3 (get_column "pressure" df)))
      (fun pressure_drop =>
         let wind_risk := py_min 1 (max_wind / 60) in
         let pressure_risk := py_min 1 (py_max 0 pressure_drop / 20) in
         Returned (py_max wind_risk pressure_risk))
  else Returned 0.

(** *** The prediction loop of [generate_weather_prediction] *)

Record FieldPrediction : Type := {
  value : float;
  trend : string;
  field_confidence : float
}.

(** [a.sum()] of a short array: numpy adds fewer than eight values from
    left to right. *)
Definition np_sum (a : list float) : float := fold_left PrimFloat.add a 0.

(** [np.std(a)]: the values are cast to float64 first. *)
Definition np_std (a : list float) : float :=
  let n := of_nat (length a) in
  let arrmean := np_sum a / n in
  let x := map (fun v => v - arrmean) a in
  let x := map (fun v => v * v) x in
  PrimFloat.sqrt (np_sum x / n).

(** The body of the loop for one column: [recent_values] are the last
    three values. *)
Definition predict_field (s : column) : raising FieldPrediction :=
  let recent_values := column_tail 3 s in
  bind (match recent_values with
        | Int64 values =>
            Returned (of_int (wrap64 (List.last values 0%Z - hd 0%Z values))
                      / of_nat (length values))
        | Float64 values =>
            Returned ((List.last values nan - hd nan values) / of_nat (length values))
        | Object _ => Raised "TypeError"
        end)
    (fun trend =>
       let predicted_value := List.last (as_floats recent_values) nan + trend in
       Returned
         {| value := predicted_value;
            trend := if 0 <? trend then "increasing" else "decreasing";
            field_confidence :=
              0.7 + 0.2 * (1 - PrimFloat.abs trend / (np_std (as_floats recent_values) + 1e-6)) |}).

(** The [predictions] dict after the loop. *)
Definition predictions (df : list Row) : raising (gmap string FieldPrediction) :=
  if (3 <=? length df)%nat then
    fold_left (fun (acc : raising (gmap string FieldPrediction)) param =>
                 bind acc (fun predictions =>
                   if in_columns param df
                   then bind (predict_field (get_column param df))
                             (fun p => Returned (<[param := p]> predictions))
                   else Returned predictions))
              numerical_columns (Returned ∅)
  else Returned ∅.

End Binary64.


(** ** Derived notions used in the statements *)

(** The four entries of the dict [_assess_risks] returns. *)
Definition flood_score (df : DataFrame) : fl :=
  if has_column "precipitation" df then
    py_min (Num 1) (fdiv (series_sum (tail 24 (series "precipitation" df))) (Num 50))
  else Num 0.

Definition drought_score (df : DataFrame) : fl :=
  if has_column "precipitation" df && has_column "temperature" df then
    fdiv (fadd (fsub (Num 1)
                     (py_min (Num 1) (fdiv (series_mean (tail 720 (series "precipitation" df))) (Num 5))))
               (py_min (Num 1)
                       (fdiv (py_max (Num 0) (fsub (series_mean (tail 720 (series "temperature" df))) (Num 25)))
                             (fsub (Num 35) (Num 25)))))
         (Num 2)
  else Num 0.

Definition storm_score (df : DataFrame) : fl :=
  if has_column "wind_speed" df && has_column "pressure" df then
    py_max (py_min (Num 1) (fdiv (series_max (tail 6 (series "wind_speed" df))) (Num 60)))
           (py_min (Num 1)
                   (fdiv (py_max (Num 0)
                                 (fsub (iloc_first (tail 3 (series "pressure" df)))
                                       (iloc_last (tail 3 (series "pressure" df)))))
                         (Num 20)))
  else Num 0.

Definition extreme_temperature_score (df : DataFrame) : fl :=
  if has_column "temperature" df then
    let recent_temps := tail 6 (series "temperature" df) in
    py_max (Num (of_nat (count_gt 40 recent_temps) / of_nat (length recent_temps)))
           (Num (of_nat (count_lt (-20) recent_temps) / of_nat (length recent_temps)))
  else Num 0.

Definition nonneg_precipitation (df : DataFrame) : Prop :=
  Forall (fun m => forall q, precipitation m = Val q -> 0 <= q) df.

(** A row with the five measurements and nothing else. *)
Definition sample (t h p w r : cell Q) : Measurement :=
  {| location := Absent; timestamp := Absent;
     temperature := t; humidity := h; pressure := p; wind_speed := w;
     precipitation := r; weather_type := Absent |}.

Definition negative_rain : DataFrame :=
  [sample (Val 20) (Val 50) (Val 1000) (Val 10) (Val (-10))].

(** The row [m] with its wind speed set to [w]. *)
Definition with_wind_speed (w : Q) (m : Measurement) : Measurement :=
  {| location := location m; timestamp := timestamp m;
     temperature := temperature m; humidity := humidity m;
     pressure := pressure m; wind_speed := Val w;
     precipitation := precipitation m; weather_type := weather_type m |}.

(** The three entries of the [templates] dict of
    [_generate_template_alert], for a lowered severity and a location. *)
Definition flood_template (severity location : string) : gmap string string :=
  {[ "title" := "Flood " +:+ title severity +:+ " Alert for " +:+ location;
     "description" := "Heavy rainfall and rising water levels pose a flood risk in " +:+ location +:+ ". Monitor local conditions and be prepared to evacuate if necessary.";
     "instructions" := "Move to higher ground, avoid flooded roads, and stay informed through official channels.";
     "duration" := "Alert remains in effect until water levels recede." ]}.

Definition drought_template (severity location : string) : gmap string string :=
  {[ "title" := "Drought " +:+ title severity +:+ " Alert for " +:+ location;
     "description" := "Extended dry conditions and high temperatures are creating drought conditions in " +:+ location +:+ ". Water conservation measures are recommended.";
     "instructions" := "Conserve water, avoid outdoor burning, and monitor local water restrictions.";
     "duration" := "Alert continues until significant precipitation occurs." ]}.

Definition storm_template (severity location : string) : gmap string string :=
  {[ "title" := "Severe Storm " +:+ title severity +:+ " Alert for " +:+ location;
     "description" := "Dangerous weather conditions including high winds and heavy precipitation are expected in " +:+ location +:+ ".";
     "instructions" := "Secure outdoor objects, avoid travel if possible, and stay indoors during the storm.";
     "duration" := "Storm conditions expected for the next 6-12 hours." ]}.

(** The rows [_check_risk_thresholds] adds for one item of the dict. *)
Definition alerts_of (completion : AlertData -> option string) (item : string * fl) : Session :=
  create_alert completion [] item.

(** A text-formatter that is out of reach. *)
Definition unreachable : AlertData -> option string := fun _ => None.

(** A content dict that has the four fields, none of them empty. *)
Definition complete (content : gmap string string) : Prop :=
  forall key, In key ["title"; "description"; "instructions"; "duration"]%string ->
              exists text, content !! key = Some text /\ text <> ""%string.

Definition hazards_with_template : list string := ["flood"; "drought"; "storm"]%string.

Definition upper_case_flood : AlertData :=
  {| alert_type := Some "FLOOD"%string; severity := Some "high"%string;
     alert_location := Some "Houston, US"%string;
     conditions := [("risk_score"%string, Num 0.9)]; risk_level := Some (Num 0.9) |}.

Definition extreme_temperature_alert : AlertData :=
  {| alert_type := Some "extreme_temperature"%string; severity := Some "high"%string;
     alert_location := Some "Multiple Areas"%string;
     conditions := [("risk_score"%string, Num 1)]; risk_level := Some (Num 1) |}.


(** The scenario of the design document: 24 hourly rows for Houston with
    3.0 mm of precipitation each. *)
Definition houston_row : WeatherData :=
  {| wd_location := "Houston, US"; wd_temperature := 20; wd_humidity := 50;
     wd_pressure := 1000; wd_wind_speed := 10; wd_precipitation := 3;
     wd_weather_type := "rain"; wd_timestamp := "2024-05-01T00:00:00" |}.

Definition houston : list WeatherData := repeat houston_row 24.

Definition null_temperature : DataFrame :=
  [sample Null (Val 50) (Val 1000) (Val 10) (Val 0)].

Definition three_points : DataFrame :=
  [sample (Val 20) Absent Absent Absent Absent;
   sample (Val 22) Absent Absent Absent Absent;
   sample (Val 25) Absent Absent Absent Absent].


Definition outlier : Anomaly :=
  {| anomaly_type := "temperature_anomaly";
     anomaly_value := Num 100;
     expected_range := (Num (-37.5000000), Num 62.5000000);
     anomaly_severity := "high";
     anomaly_timestamp := None;
     anomaly_location := None |}.

(** Lookups in a dict written as a literal. *)
Ltac lookup_template :=
  repeat first [ rewrite lookup_insert_eq
               | rewrite lookup_insert_ne by discriminate
               | rewrite lookup_singleton_eq ].

Ltac template_complete :=
  intros key [<-|[<-|[<-|[<-|[]]]]];
  (eexists; split; [lookup_template; reflexivity | discriminate]).

(** ** Further notions: the sweep, the scores and the analysis *)

(** The items of a risk dict that are above the alert threshold. *)
Definition breaches (risk_assessment : odict fl) : odict fl :=
  List.filter (fun item => fgt (snd item) (Num 0.7)) risk_assessment.

(** The four keys of an alert content dict. *)
Definition content_keys : gset string :=
  {[ "title"; "description"; "instructions"; "duration" ]}%string.

(** ["High"] or ["Medium"], as the templates print the severity of a score. *)
Definition severity_word (score : Q) : string :=
  if Qltb 0.8 score then "High" else "Medium".

(** The precipitation of the last 24 rows the query returned. *)
Definition recent_precipitation (recent_data : list WeatherData) : Q :=
  Qsum (map wd_precipitation (tail 24 recent_data)).


(** A reading with wind, then six readings whose wind speed is [None]. *)
Definition wind_sensor_down : DataFrame :=
  sample (Val 20) (Val 50) (Val 1000) (Val 10) (Val 0)
  :: repeat (sample (Val 20) (Val 50) (Val 1000) Null (Val 0)) 6.

(** How many of the last six stored rows are above 40 degrees, and how
    many are below -20 degrees. *)
Definition hot_readings (recent_data : list WeatherData) : nat :=
  length (List.filter (fun w => Qltb 40 (wd_temperature w)) (tail 6 recent_data)).

Definition cold_readings (recent_data : list WeatherData) : nat :=
  length (List.filter (fun w => Qltb (wd_temperature w) (-20)) (tail 6 recent_data)).

(** Eleven rows, the last five of them at 45 degrees. *)
Definition heat_wave : list WeatherData :=
  repeat houston_row 6 ++
  repeat {| wd_location := "Houston, US"; wd_temperature := 45; wd_humidity := 20;
            wd_pressure := 1000; wd_wind_speed := 10; wd_precipitation := 0;
            wd_weather_type := "clear"; wd_timestamp := "2024-08-01T00:00:00" |} 5.

(** Five rows that all read 21 degrees. *)
Definition steady_temperature : DataFrame :=
  repeat (sample (Val 21) Absent Absent Absent Absent) 5.

(** A row with a timestamp and a temperature, and two of them, the newer
    one first. *)
Definition stamped (t : string) (temp : Q) : Measurement :=
  {| location := Absent; timestamp := Val t;
     temperature := Val temp; humidity := Absent; pressure := Absent;
     wind_speed := Absent; precipitation := Absent; weather_type := Absent |}.

Definition newest_first : DataFrame :=
  [stamped "2024-05-02T00:00:00" 22; stamped "2024-05-01T00:00:00" 20].

(** A pipeline that finds every post positive, and one that answers with
    lower-case labels. *)
Definition always_positive : string -> response Sentiment :=
  fun _ => Result {| label := "POSITIVE"; score := 0.9 |}.

Definition lower_case_labels : string -> response Sentiment :=
  fun _ => Result {| label := "positive"; score := 0.9 |}.






(** Ten calm rows, then one with a wind of 70 km/h. *)
Definition gale_row : WeatherData :=
  {| wd_location := "Houston, US"; wd_temperature := 20; wd_humidity := 50;
     wd_pressure := 1000; wd_wind_speed := 70; wd_precipitation := 0;
     wd_weather_type := "wind"; wd_timestamp := "2024-05-02T00:00:00" |}.

Definition gale : list WeatherData := repeat houston_row 10 ++ [gale_row].

(** The mean of a field over the last 720 stored rows. *)
Definition recent_mean (field : WeatherData -> Q) (recent_data : list WeatherData) : Q :=
  Qsum (map field (tail 720 recent_data)) / of_nat (length (tail 720 recent_data)).

(** Eleven dry rows at 32 degrees. *)
Definition dry_spell : list WeatherData :=
  repeat {| wd_location := "Houston, US"; wd_temperature := 32; wd_humidity := 20;
            wd_pressure := 1000; wd_wind_speed := 10; wd_precipitation := 0;
            wd_weather_type := "clear"; wd_timestamp := "2024-08-01T00:00:00" |} 11.

(** ** Further notions: readings as they are posted *)

(** Some row of the batch holds a number under the key. *)
Definition holds_number (col : string) (df : DataFrame) : Prop :=
  exists m x, In m df /\ num_cell col m = Val x.

(** The keys of the dict [analyze_weather_patterns] returns. *)
Definition analysis_keys (r : response Analysis) : list string :=
  match r with
  | Error _ => ["error"]
  | Result _ => ["summary"; "statistics"; "trends"; "anomalies"; "risk_assessment"]
  end%string.

(** The alert data with its type set to ["storm"]. *)
Definition as_storm (alert_data : AlertData) : AlertData :=
  {| alert_type := Some "storm"%string;
     severity := severity alert_data;
     alert_location := alert_location alert_data;
     conditions := conditions alert_data;
     risk_level := risk_level alert_data |}.

(** The Python int [n], for an [n] that fits int64. *)
Definition py_int64 (n : Z) (fits : Binary64.in_int64 n = true) : Binary64.number :=
  Binary64.PyInt {| Binary64.to_Z := n; Binary64.fits := fits |}.

(** The row dict [{"temperature": t}], and the same with a timestamp. *)
Definition reading (t : cell Binary64.number) : Binary64.Row :=
  {| Binary64.row_location := Absent; Binary64.row_timestamp := Absent;
     Binary64.row_temperature := t; Binary64.row_humidity := Absent;
     Binary64.row_pressure := Absent; Binary64.row_wind_speed := Absent;
     Binary64.row_precipitation := Absent |}.

Definition reading_at (time : string) (t : cell Binary64.number) : Binary64.Row :=
  {| Binary64.row_location := Absent; Binary64.row_timestamp := Val time;
     Binary64.row_temperature := t; Binary64.row_humidity := Absent;
     Binary64.row_pressure := Absent; Binary64.row_wind_speed := Absent;
     Binary64.row_precipitation := Absent |}.

(** The float that follows 1.0: 1.0000000000000002. *)
Definition next_after_one : float := 0x1.0000000000001p+0%float.

(** Three temperatures, 1.0, 1.0 and 1.0000000000000002. *)
Definition close_readings : list Binary64.Row :=
  [reading (Val (Binary64.PyFloat 1)); reading (Val (Binary64.PyFloat 1));
   reading (Val (Binary64.PyFloat next_after_one))].

(** Three temperatures sent as JSON integers: 2^60, 2^60 and 2^60 + 3. *)
Definition big_integers : list Binary64.Row :=
  [reading (Val (py_int64 1152921504606846976 eq_refl));
   reading (Val (py_int64 1152921504606846976 eq_refl));
   reading (Val (py_int64 1152921504606846979 eq_refl))].

(** Three rows [{"temperature": None}]. *)
Definition null_temperatures : list Binary64.Row :=
  [reading Null; reading Null; reading Null].

(** Two rows with a timestamp and the temperature [None]. *)
Definition null_temperatures_at : list Binary64.Row :=
  [reading_at "2024-05-01T00:00:00" Null; reading_at "2024-05-01T01:00:00" Null].

(** The batch of one row [{"wind_speed": w, "pressure": None}]. *)
Definition null_pressure (w : Binary64.number) : list Binary64.Row :=
  [{| Binary64.row_location := Absent; Binary64.row_timestamp := Absent;
      Binary64.row_temperature := Absent; Binary64.row_humidity := Absent;
      Binary64.row_pressure := Null;
      Binary64.row_wind_speed := Val w;
      Binary64.row_precipitation := Absent |}].

(** The three temperatures of the design document, as floats. *)
Definition three_floats : list Binary64.Row :=
  [reading (Val (Binary64.PyFloat 20)); reading (Val (Binary64.PyFloat 22));
   reading (Val (Binary64.PyFloat 25))].

(** A node that takes every transaction. *)
Definition accepting : Submission -> option string := fun _ => Some "0x5e1f"%string.

(** ** Checks of the string functions *)

Example title_high : title "high" = "High"%string.
Proof. reflexivity. Qed.

Example title_mixed : title "vERY high-risk 2x" = "Very High-Risk 2X"%string.
Proof. reflexivity. Qed.

Example replace_risk : replace "_risk" "" "extreme_temperature_risk" = "extreme_temperature"%string.
Proof. reflexivity. Qed.

Example replace_twice : replace "ab" "x" "abab-aab" = "xx-ax"%string.
Proof. reflexivity. Qed.

Example strip_both : strip ("  a b " +:+ String newline " ") = "a b"%string.
Proof. reflexivity. Qed.

Example split_three :
  split_lines ("a" +:+ String newline ("b" +:+ String newline ""))
  = ["a"; "b"; ""]%string.
Proof. reflexivity. Qed.

(** ** Checks of the series operations *)

Example quantile_of_four :
  series_quantile 0.25 [Num 1; Num 2; Num 3; Num 4; NaN] = Num 1.75 /\
  series_quantile 0.75 [Num 4; NaN; Num 3; Num 2; Num 1] = Num 3.25.
Proof. split; reflexivity. Qed.

Example median_of_four : series_median [Num 4; Num 1; NaN; Num 3; Num 2] = Num (5 # 2).
Proof. reflexivity. Qed.

Example tail_of_short : tail 24 [1; 2; 3]%nat = [1; 2; 3]%nat /\ tail 2 [1; 2; 3]%nat = [2; 3]%nat.
Proof. split; reflexivity. Qed.

Example sum_skips_nan : series_sum [Num 1; NaN; Num 2] = Num 3 /\ series_sum [NaN] = Num 0.
Proof. split; reflexivity. Qed.

Example mean_of_nothing : series_mean [NaN; NaN] = NaN /\ series_max [] = NaN.
Proof. split; reflexivity. Qed.

Example slope_of_line :
  exists q, polyfit_slope [Num 1; Num 3; Num 5] = Num q /\ q == 2.
Proof. eexists. split; reflexivity. Qed.

(** [sort] returns the same values in ascending order. *)
Lemma insert_sorted_In (x v : Q) (l : list Q) :
  In v (insert_sorted x l) <-> v = x \/ In v l.
Proof.
  induction l as [|y l IH]; simpl.
  - intuition.
  - destruct (Qle_bool x y); simpl; rewrite ?IH; intuition.
Qed.

Lemma sort_In (v : Q) (l : list Q) : In v (sort l) <-> In v l.
Proof.
  induction l as [|x l IH]; simpl; [tauto|].
  rewrite insert_sorted_In, IH. intuition.
Qed.

Lemma insert_sorted_length (x : Q) (l : list Q) :
  length (insert_sorted x l) = S (length l).
Proof.
  induction l as [|y l IH]; simpl; [reflexivity|].
  destruct (Qle_bool x y); simpl; now rewrite ?IH.
Qed.

Lemma sort_length (l : list Q) : length (sort l) = length l.
Proof.
  induction l as [|x l IH]; simpl; [reflexivity|].
  now rewrite insert_sorted_length, IH.
Qed.

Lemma insert_sorted_sorted (x : Q) (l : list Q) :
  Sorted Qle l -> Sorted Qle (insert_sorted x l).
Proof.
  induction 1 as [|y l Hl IH Hhd]; simpl.
  - repeat constructor.
  - destruct (Qle_bool x y) eqn:Hxy.
    + apply Qle_bool_iff in Hxy. repeat constructor; assumption.
    + constructor; [exact IH|].
      assert (y <= x) as Hyx.
      { apply Qlt_le_weak, Qnot_le_lt. intro H. apply Qle_bool_iff in H. congruence. }
      destruct Hhd as [|z l' Hyz]; simpl.
      * now constructor.
      * destruct (Qle_bool x z); now constructor.
Qed.

Lemma sort_sorted (l : list Q) : Sorted Qle (sort l).
Proof.
  induction l as [|x l IH]; simpl; [constructor|].
  now apply insert_sorted_sorted.
Qed.

(** ** Floats *)

Lemma Qltb_lt (a b : Q) : Qltb a b = true <-> a < b.
Proof.
  unfold Qltb. rewrite Qlt_alt.
  destruct (a ?= b); split; intro H; congruence.
Qed.

Lemma Qltb_ge (a b : Q) : Qltb a b = false <-> b <= a.
Proof.
  split; intro H.
  - apply Qnot_lt_le. intro Hlt. apply Qltb_lt in Hlt. congruence.
  - destruct (Qltb a b) eqn:E; [|reflexivity].
    apply Qltb_lt in E. exfalso. apply (Qlt_not_le _ _ E H).
Qed.

(** [min(1.0, x)] is a number that is at most 1; it is not negative when
    [x] is NaN or not negative. *)
Lemma py_min_one (x : fl) :
  exists q, py_min (Num 1) x = Num q /\ q <= 1 /\
            ((forall v, x = Num v -> 0 <= v) -> 0 <= q).
Proof.
  destruct x as [v|]; unfold py_min; simpl.
  - destruct (Qltb v 1) eqn:E.
    + exists v. apply Qltb_lt in E.
      split; [reflexivity|]. split; [lra|]. intros H. now apply H.
    + exists 1. split; [reflexivity|]. split; [lra|]. intros _. lra.
  - exists 1. split; [reflexivity|]. split; [lra|]. intros _. lra.
Qed.

(** [max(0.0, x)] is a number that is not negative. *)
Lemma py_max_zero (x : fl) :
  exists q, py_max (Num 0) x = Num q /\ 0 <= q.
Proof.
  destruct x as [v|]; unfold py_max, fgt; simpl.
  - destruct (Qltb 0 v) eqn:E.
    + exists v. apply Qltb_lt in E. split; [reflexivity|lra].
    + exists 0. split; [reflexivity|lra].
  - exists 0. split; [reflexivity|lra].
Qed.

(** [max(a, b)] of two numbers of the unit interval is in the unit interval. *)
Lemma py_max_unit (a b : fl) : in_unit a -> in_unit b -> in_unit (py_max a b).
Proof.
  intros Ha Hb. unfold py_max. destruct (fgt b a); assumption.
Qed.

(** [max(a, b)] is in the unit interval as soon as [b] is and [a] is a
    number that is at most 1: only a larger [b] replaces [a]. *)
Lemma py_max_unit_r (a b : fl) (x : Q) :
  a = Num x -> x <= 1 -> in_unit b -> in_unit (py_max a b).
Proof.
  intros -> Hx Hb. unfold py_max, fgt.
  destruct (flt (Num x) b) eqn:E; [assumption|].
  destruct b as [y|]; [|destruct Hb as [[] _]].
  simpl in E. apply Qltb_ge in E. destruct Hb as [H0 H1]. simpl in *.
  split; simpl; lra.
Qed.

(** ** Series *)

Lemma Qsum_nonneg (l : list Q) : Forall (fun x => 0 <= x) l -> 0 <= Qsum l.
Proof.
  induction 1 as [|x l Hx _ IH].
  - apply Qle_refl.
  - change (Qsum (x :: l)) with (x + Qsum l). lra.
Qed.

Lemma In_dropna (q : Q) (s : list fl) : In q (dropna s) <-> In (Num q) s.
Proof.
  induction s as [|[x|] s IH]; simpl.
  - tauto.
  - rewrite IH. split.
    + intros [H|H]; [left; now rewrite H|now right].
    + intros [H|H]; [left; now injection H|now right].
  - rewrite IH. split; [auto|]. intros [H|H]; [discriminate|assumption].
Qed.

Lemma In_tail {A} (n : nat) (x : A) (s : list A) : In x (tail n s) -> In x s.
Proof.
  unfold tail. generalize (length s - n)%nat as k.
  intros k. revert s. induction k as [|k IH]; intros [|y s]; simpl; auto.
Qed.

Lemma length_tail {A} (n : nat) (s : list A) :
  length (tail n s) = Nat.min n (length s).
Proof. unfold tail. rewrite length_skipn. lia. Qed.

Lemma In_series (col : string) (q : Q) (df : DataFrame) :
  In (Num q) (series col df) -> exists m, In m df /\ num_cell col m = Val q.
Proof.
  unfold series. rewrite in_map_iff. intros (m & Hm & Hin).
  exists m. split; [assumption|].
  destruct (num_cell col m); simpl in Hm; congruence.
Qed.

Lemma of_nat_pos (n : nat) : (0 < n)%nat -> 0 < of_nat n.
Proof.
  intro H. unfold of_nat. rewrite <- (Zlt_Qlt 0). lia.
Qed.

Lemma of_nat_le (n m : nat) : (n <= m)%nat -> of_nat n <= of_nat m.
Proof.
  intro H. unfold of_nat. rewrite <- Zle_Qle. lia.
Qed.

(** A count over a window divided by the length of the window. *)
Lemma fraction_unit (c n : nat) :
  (c <= n)%nat -> (0 < n)%nat -> 0 <= of_nat c / of_nat n <= 1.
Proof.
  intros Hc Hn.
  pose proof (of_nat_pos n Hn) as Hpos.
  pose proof (of_nat_le c n Hc) as Hle.
  pose proof (of_nat_le 0 c ltac:(lia)) as H0. change (of_nat 0) with 0 in H0.
  split.
  - apply Qle_shift_div_l; [assumption|]. lra.
  - apply Qle_shift_div_r; [assumption|]. lra.
Qed.

Lemma has_column_nonempty (col : string) (df : DataFrame) :
  has_column col df = true -> (0 < length df)%nat.
Proof. destruct df; simpl; [discriminate|lia]. Qed.

(** [s.sum()] and [s.mean()] of values that are not negative. *)
Lemma series_sum_nonneg (s : list fl) :
  (forall q, In (Num q) s -> 0 <= q) ->
  exists v, series_sum s = Num v /\ 0 <= v.
Proof.
  intro H. exists (Qsum (dropna s)). split; [reflexivity|].
  apply Qsum_nonneg, List.Forall_forall. intros q Hq. now apply H, In_dropna.
Qed.

Lemma series_mean_nonneg (s : list fl) :
  (forall q, In (Num q) s -> 0 <= q) ->
  forall v, series_mean s = Num v -> 0 <= v.
Proof.
  intros H v. unfold series_mean.
  destruct (dropna s) as [|x l] eqn:E; [discriminate|].
  intros [= <-].
  apply Qle_shift_div_l; [apply of_nat_pos; simpl; lia|].
  rewrite Qmult_0_l.
  apply (Qsum_nonneg (x :: l)), List.Forall_forall. intros q Hq.
  apply H, In_dropna. now rewrite E.
Qed.

(** ** The dict [_assess_risks] returns *)

Lemma assess_risks_items (df : DataFrame) :
  _assess_risks df =
  [("flood_risk", flood_score df); ("drought_risk", drought_score df);
   ("storm_risk", storm_score df);
   ("extreme_temperature_risk", extreme_temperature_score df)]%string.
Proof.
  destruct df as [|m df]; [reflexivity|].
  unfold _assess_risks, flood_score, drought_score, storm_score,
    extreme_temperature_score.
  change (length (m :: df) =? 0)%nat with false. cbv iota.
  destruct (has_column "precipitation" (m :: df)),
    (has_column "temperature" (m :: df)),
    (has_column "wind_speed" (m :: df)),
    (has_column "pressure" (m :: df)); reflexivity.
Qed.

(** ** Bounds on the four scores *)

Lemma flood_score_le_1 (df : DataFrame) :
  exists q, flood_score df = Num q /\ q <= 1.
Proof.
  unfold flood_score. destruct (has_column "precipitation" df).
  - destruct (py_min_one (fdiv (series_sum (tail 24 (series "precipitation" df))) (Num 50)))
      as (q & Hq & Hle & _).
    exists q. now split.
  - exists 0. split; [reflexivity|lra].
Qed.

Lemma flood_score_unit (df : DataFrame) :
  nonneg_precipitation df -> in_unit (flood_score df).
Proof.
  intro Hpos. unfold flood_score. destruct (has_column "precipitation" df).
  - destruct (series_sum_nonneg (tail 24 (series "precipitation" df))) as (v & Hv & Hv0).
    { intros q Hq. apply In_tail, In_series in Hq. destruct Hq as (m & Hm & Hc).
      unfold nonneg_precipitation in Hpos. rewrite List.Forall_forall in Hpos.
      exact (Hpos m Hm q Hc). }
    rewrite Hv.
    destruct (py_min_one (fdiv (Num v) (Num 50))) as (q & Hq & Hle & H0).
    rewrite Hq. split; simpl; [|assumption].
    apply H0. intros w [= <-]. apply Qle_shift_div_l; lra.
  - split; simpl; lra.
Qed.

Lemma drought_score_unit (df : DataFrame) :
  nonneg_precipitation df -> in_unit (drought_score df).
Proof.
  intro Hpos. unfold drought_score.
  destruct (has_column "precipitation" df && has_column "temperature" df);
    [|split; simpl; lra].
  set (avg_precip := series_mean (tail 720 (series "precipitation" df))).
  set (avg_temp := series_mean (tail 720 (series "temperature" df))).
  destruct (py_min_one (fdiv avg_precip (Num 5))) as (p & Hp & Hp1 & Hp0).
  destruct (py_max_zero (fsub avg_temp (Num 25))) as (t & Ht & Ht0).
  rewrite Hp, Ht.
  destruct (py_min_one (fdiv (Num t) (fsub (Num 35) (Num 25)))) as (u & Hu & Hu1 & Hu0).
  rewrite Hu.
  assert (0 <= p) as Hp0'.
  { apply Hp0. intros w Hw. destruct avg_precip as [a|] eqn:Ea; [|discriminate].
    injection Hw as <-.
    assert (0 <= a).
    { apply (series_mean_nonneg (tail 720 (series "precipitation" df))); [|exact Ea].
      intros q Hq. apply In_tail, In_series in Hq. destruct Hq as (m & Hm & Hc).
      unfold nonneg_precipitation in Hpos. rewrite List.Forall_forall in Hpos.
      exact (Hpos m Hm q Hc). }
    apply Qle_shift_div_l; lra. }
  assert (0 <= u) as Hu0'.
  { apply Hu0. intros w [= <-]. apply Qle_shift_div_l; lra. }
  split; simpl.
  - apply Qle_shift_div_l; lra.
  - apply Qle_shift_div_r; lra.
Qed.

Lemma storm_score_unit (df : DataFrame) : in_unit (storm_score df).
Proof.
  unfold storm_score.
  destruct (has_column "wind_speed" df && has_column "pressure" df);
    [|split; simpl; lra].
  destruct (py_min_one (fdiv (series_max (tail 6 (series "wind_speed" df))) (Num 60)))
    as (w & Hw & Hw1 & _).
  destruct (py_max_zero (fsub (iloc_first (tail 3 (series "pressure" df)))
                              (iloc_last (tail 3 (series "pressure" df)))))
    as (d & Hd & Hd0).
  rewrite Hd.
  destruct (py_min_one (fdiv (Num d) (Num 20))) as (p & Hp & Hp1 & Hp0).
  rewrite Hp. apply (py_max_unit_r _ _ w Hw Hw1).
  split; simpl; [|assumption].
  apply Hp0. intros v [= <-]. apply Qle_shift_div_l; lra.
Qed.

Lemma count_le_length (f : fl -> bool) (s : list fl) :
  (length (List.filter f s) <= length s)%nat.
Proof.
  induction s as [|x s IH]; simpl; [lia|]. destruct (f x); simpl; lia.
Qed.

Lemma extreme_temperature_score_unit (df : DataFrame) :
  in_unit (extreme_temperature_score df).
Proof.
  unfold extreme_temperature_score.
  destruct (has_column "temperature" df) eqn:Hc; [|split; simpl; lra].
  apply has_column_nonempty in Hc.
  assert (0 < length (tail 6 (series "temperature" df)))%nat as Hlen.
  { rewrite length_tail. unfold series. rewrite length_map. lia. }
  cbv zeta. apply py_max_unit; split; simpl;
    apply fraction_unit; auto; apply count_le_length.
Qed.

(** C2 (the code departs from the claim): one sample with a precipitation
    of -10 has a flood score of -10/50, below the unit interval; the score
    is clamped from above only. *)
Lemma C2_negative_precipitation :
  od_get "flood_risk" (_assess_risks negative_rain) = Some (Num (-10 # 50)) /\
  ~ in_unit (Num (-10 # 50)).
Proof.
  split; [reflexivity|].
  intros [H _]. simpl in H. lra.
Qed.

(** ** Recency of the storm score *)

Lemma fold_Qmax2_ge (l : list Q) (x : Q) :
  x <= fold_left Qmax2 l x /\ forall y, In y l -> y <= fold_left Qmax2 l x.
Proof.
  revert x. induction l as [|z l IH]; intro x; simpl.
  - split; [lra|tauto].
  - destruct (IH (Qmax2 x z)) as [H1 H2].
    assert (x <= Qmax2 x z /\ z <= Qmax2 x z) as [Hx Hz].
    { unfold Qmax2. destruct (Qltb x z) eqn:E.
      - apply Qltb_lt in E. lra.
      - apply Qltb_ge in E. lra. }
    split; [lra|]. intros y [<-|Hy]; [lra|]. now apply H2.
Qed.

Lemma series_max_ge (s : list fl) (y : Q) :
  In (Num y) s -> exists x, series_max s = Num x /\ y <= x.
Proof.
  intro H. apply In_dropna in H. unfold series_max.
  destruct (dropna s) as [|z l]; [destruct H|].
  exists (fold_left Qmax2 l z). split; [reflexivity|].
  destruct (fold_Qmax2_ge l z) as [H1 H2].
  destruct H as [<-|H]; [assumption|]. now apply H2.
Qed.

Lemma In_tail_last {A} (n : nat) (l : list A) (a : A) :
  (0 < n)%nat -> In a (tail n (l ++ [a])).
Proof.
  intro Hn. unfold tail. rewrite length_app. simpl.
  replace (length l + 1 - n)%nat with (length l - (n - 1))%nat by lia.
  rewrite skipn_app. apply in_or_app. right.
  replace (length l - (n - 1) - length l)%nat with 0%nat by lia.
  now left.
Qed.

Lemma has_column_app (col : string) (a b : DataFrame) :
  has_column col (a ++ b) = has_column col a || has_column col b.
Proof. apply existsb_app. Qed.

Lemma series_app (col : string) (a b : DataFrame) :
  series col (a ++ b) = series col a ++ series col b.
Proof. apply map_app. Qed.

(** With a wind speed of 100 among the last six samples the storm score,
    when it is computed at all, is 1. *)
Lemma storm_score_strong_wind (df : DataFrame) :
  In (Num 100) (tail 6 (series "wind_speed" df)) ->
  has_column "wind_speed" df && has_column "pressure" df = true ->
  storm_score df = Num 1.
Proof.
  intros Hin Hcols. unfold storm_score. rewrite Hcols.
  destruct (series_max_ge _ 100 Hin) as (x & Hx & Hx100).
  rewrite Hx.
  assert (py_min (Num 1) (fdiv (Num x) (Num 60)) = Num 1) as ->.
  { unfold py_min. simpl. destruct (Qltb (x / 60) 1) eqn:E; [|reflexivity].
    apply Qltb_lt in E. exfalso.
    assert (1 <= x / 60) by (apply Qle_shift_div_l; lra). lra. }
  destruct (py_max_zero (fsub (iloc_first (tail 3 (series "pressure" df)))
                              (iloc_last (tail 3 (series "pressure" df)))))
    as (d & Hd & _).
  rewrite Hd.
  destruct (py_min_one (fdiv (Num d) (Num 20))) as (p & Hp & Hp1 & _).
  rewrite Hp. unfold py_max, fgt. simpl.
  destruct (Qltb 1 p) eqn:E; [|reflexivity].
  apply Qltb_lt in E. lra.
Qed.

(** In a float column, raising the wind speed of the last sample from 10
    to 100 does not lower the storm score. *)
Lemma storm_score_recency (earlier : DataFrame) (m : Measurement) :
  exists r1 r2,
    od_get "storm_risk" (_assess_risks (earlier ++ [with_wind_speed 10 m])) = Some r1 /\
    od_get "storm_risk" (_assess_risks (earlier ++ [with_wind_speed 100 m])) = Some r2 /\
    fle r1 r2.
Proof.
  rewrite !assess_risks_items.
  exists (storm_score (earlier ++ [with_wind_speed 10 m])),
         (storm_score (earlier ++ [with_wind_speed 100 m])).
  split; [reflexivity|]. split; [reflexivity|].
  assert (has_column "wind_speed" (earlier ++ [with_wind_speed 10 m])
          && has_column "pressure" (earlier ++ [with_wind_speed 10 m])
          = has_column "wind_speed" (earlier ++ [with_wind_speed 100 m])
            && has_column "pressure" (earlier ++ [with_wind_speed 100 m])) as Hcols.
  { rewrite !has_column_app. reflexivity. }
  destruct (has_column "wind_speed" (earlier ++ [with_wind_speed 100 m])
            && has_column "pressure" (earlier ++ [with_wind_speed 100 m])) eqn:E.
  - rewrite (storm_score_strong_wind (earlier ++ [with_wind_speed 100 m])); [|
      rewrite series_app; apply In_tail_last; lia | exact E].
    apply storm_score_unit.
  - unfold storm_score. rewrite Hcols, E. apply Qle_refl.
Qed.

(** C8 (the code departs from the claim): for the batch of one row with a
    wind speed of 10 and the pressure [None], and for the same batch with
    the wind speed raised to 100, the storm block raises [TypeError] on
    [None - None]: no storm score is computed for either. *)
Theorem C8_null_pressure_raises :
  Binary64.storm_risk (null_pressure (py_int64 10 eq_refl))
  = Binary64.Raised "TypeError" /\
  Binary64.storm_risk (null_pressure (py_int64 100 eq_refl))
  = Binary64.Raised "TypeError".
Proof. split; reflexivity. Qed.

(** ** The template fallback *)

Lemma template_alert_cases (alert_data : AlertData) :
  let kind := lower (default "weather"%string (alert_type alert_data)) in
  let sev := lower (default "medium"%string (severity alert_data)) in
  let loc := default "the area"%string (alert_location alert_data) in
  _generate_template_alert alert_data =
  if decide (kind = "flood"%string) then flood_template sev loc
  else if decide (kind = "drought"%string) then drought_template sev loc
  else storm_template sev loc.
Proof.
  intros kind sev loc. unfold _generate_template_alert.
  fold kind sev loc. fold (flood_template sev loc) (drought_template sev loc)
    (storm_template sev loc).
  rewrite lookup_total_insert_ne by discriminate.
  rewrite lookup_total_insert_ne by discriminate.
  rewrite lookup_total_singleton_eq.
  destruct (decide (kind = "flood"%string)) as [->|Hf].
  { now rewrite lookup_insert_eq. }
  rewrite lookup_insert_ne by congruence.
  destruct (decide (kind = "drought"%string)) as [->|Hd].
  { now rewrite lookup_insert_eq. }
  rewrite lookup_insert_ne by congruence.
  destruct (decide (kind = "storm"%string)) as [->|Hs].
  { now rewrite lookup_singleton_eq. }
  now rewrite lookup_singleton_ne by congruence.
Qed.

Lemma flood_template_complete (sev loc : string) : complete (flood_template sev loc).
Proof. unfold flood_template. template_complete. Qed.

Lemma drought_template_complete (sev loc : string) : complete (drought_template sev loc).
Proof. unfold drought_template. template_complete. Qed.

Lemma storm_template_complete (sev loc : string) : complete (storm_template sev loc).
Proof. unfold storm_template. template_complete. Qed.

Lemma template_alert_complete (alert_data : AlertData) :
  complete (_generate_template_alert alert_data).
Proof.
  rewrite template_alert_cases. cbv zeta.
  repeat case_decide;
    auto using flood_template_complete, drought_template_complete,
      storm_template_complete.
Qed.

(** C3: when the completion request fails, [generate_weather_alert] returns
    the template of the hazard (flood, drought, or the storm template for
    anything else), which has a title and a description that are not
    empty. *)
Theorem C3_template_fallback (completion : AlertData -> option string)
    (alert_data : AlertData) :
  completion alert_data = None ->
  let kind := lower (default "weather"%string (alert_type alert_data)) in
  let sev := lower (default "medium"%string (severity alert_data)) in
  let loc := default "the area"%string (alert_location alert_data) in
  generate_weather_alert completion alert_data =
    (if decide (kind = "flood"%string) then flood_template sev loc
     else if decide (kind = "drought"%string) then drought_template sev loc
     else storm_template sev loc) /\
  (exists t d,
      generate_weather_alert completion alert_data !! "title"%string = Some t /\
      t <> ""%string /\
      generate_weather_alert completion alert_data !! "description"%string = Some d /\
      d <> ""%string).
Proof.
  intros Hfail kind sev loc.
  assert (generate_weather_alert completion alert_data
          = _generate_template_alert alert_data) as Hgen.
  { unfold generate_weather_alert. now rewrite Hfail. }
  rewrite Hgen. split; [apply template_alert_cases|].
  destruct (template_alert_complete alert_data "title"%string) as (t & Ht & Ht');
    [simpl; tauto|].
  destruct (template_alert_complete alert_data "description"%string) as (d & Hd & Hd');
    [simpl; tauto|].
  exists t, d. auto.
Qed.

Lemma C3_template_fallback_witness :
  unreachable extreme_temperature_alert = None /\
  exists t d,
    generate_weather_alert unreachable extreme_temperature_alert !! "title"%string = Some t /\
    t <> ""%string /\
    generate_weather_alert unreachable extreme_temperature_alert !! "description"%string = Some d /\
    d <> ""%string.
Proof.
  split; [reflexivity|].
  exact (proj2 (C3_template_fallback unreachable extreme_temperature_alert eq_refl)).
Defined.

(** C10, as stated, fails: the type is lowered before the lookup, so
    ["FLOOD"], which is none of the three keys, still gets the flood
    template. *)
Lemma C10_upper_case_flood :
  ~ In "FLOOD"%string hazards_with_template /\
  _generate_template_alert upper_case_flood !! "title"%string
  = Some "Flood High Alert for Houston, US"%string /\
  _generate_template_alert upper_case_flood <> storm_template "high" "Houston, US".
Proof.
  assert (_generate_template_alert upper_case_flood !! "title"%string
          = Some "Flood High Alert for Houston, US"%string) as Htitle.
  { rewrite template_alert_cases. reflexivity. }
  split; [|split; [exact Htitle|]].
  - unfold hazards_with_template. simpl. intros [H|[H|[H|[]]]]; discriminate.
  - intro H. rewrite H in Htitle. discriminate.
Qed.

(** C10 (amended): for every alert type whose lower-cased form is none of
    flood, drought and storm, ["extreme_temperature"] among them, the
    fallback returns the storm template: the alert is the one a storm of
    the same severity and location gets, whatever the type says, its title
    reads "Severe Storm ... Alert for ...", and the four fields are not
    empty. *)
Theorem C10_storm_template_by_default (alert_data : AlertData) :
  ~ In (lower (default "weather"%string (alert_type alert_data))) hazards_with_template ->
  let sev := lower (default "medium"%string (severity alert_data)) in
  let loc := default "the area"%string (alert_location alert_data) in
  _generate_template_alert alert_data = storm_template sev loc /\
  _generate_template_alert alert_data = _generate_template_alert (as_storm alert_data) /\
  _generate_template_alert alert_data !! "title"%string
  = Some ("Severe Storm " +:+ title sev +:+ " Alert for " +:+ loc) /\
  complete (_generate_template_alert alert_data).
Proof.
  intros Hkind sev loc.
  assert (_generate_template_alert alert_data = storm_template sev loc) as H.
  { rewrite template_alert_cases. cbv zeta. fold sev loc.
    unfold hazards_with_template in Hkind. simpl in Hkind.
    repeat case_decide; try reflexivity; exfalso; apply Hkind; auto. }
  rewrite H. split; [reflexivity|]. split; [|split].
  - rewrite (template_alert_cases (as_storm alert_data)). reflexivity.
  - unfold storm_template. now lookup_template.
  - apply storm_template_complete.
Qed.

Lemma C10_storm_template_by_default_witness :
  ~ In (lower (default "weather"%string (alert_type extreme_temperature_alert)))
       hazards_with_template /\
  _generate_template_alert extreme_temperature_alert
  = _generate_template_alert (as_storm extreme_temperature_alert) /\
  _generate_template_alert extreme_temperature_alert !! "title"%string
  = Some "Severe Storm High Alert for Multiple Areas"%string.
Proof.
  assert (~ In (lower (default "weather"%string (alert_type extreme_temperature_alert)))
               hazards_with_template) as H.
  { unfold hazards_with_template. simpl. intros [H|[H|[H|[]]]]; discriminate. }
  split; [exact H|].
  destruct (C10_storm_template_by_default extreme_temperature_alert H)
    as (_ & Hsame & Htitle & _).
  split; [exact Hsame|exact Htitle].
Defined.

(** The type "severe storm" is none of the three keys either: its alert is
    the storm alert, which names the hazard that triggered it. *)
Example severe_storm_reads_storm :
  ~ In "severe storm"%string hazards_with_template /\
  _generate_template_alert
    {| alert_type := Some "severe storm"%string; severity := Some "high"%string;
       alert_location := Some "Houston, US"%string;
       conditions := []; risk_level := None |} !! "title"%string
  = Some "Severe Storm High Alert for Houston, US"%string.
Proof.
  split.
  - unfold hazards_with_template. simpl. intros [H|[H|[H|[]]]]; discriminate.
  - rewrite template_alert_cases. reflexivity.
Qed.

(** ** The alert sweep *)

Lemma create_alert_app (completion : AlertData -> option string)
    (db : Session) (item : string * fl) :
  create_alert completion db item = db ++ alerts_of completion item.
Proof.
  unfold alerts_of, create_alert. destruct item as [risk_type risk_value].
  destruct (fgt risk_value (Num 0.7)); [reflexivity|].
  now rewrite app_nil_r.
Qed.

Lemma check_risk_thresholds_flat_map (completion : AlertData -> option string)
    (risk_assessment : odict fl) (db : Session) :
  _check_risk_thresholds completion risk_assessment db
  = db ++ flat_map (alerts_of completion) risk_assessment.
Proof.
  unfold _check_risk_thresholds. revert db.
  induction risk_assessment as [|item items IH]; intro db; simpl.
  - now rewrite app_nil_r.
  - rewrite IH, create_alert_app. now rewrite <- app_assoc.
Qed.


Lemma of_nat_S (n : nat) : of_nat (S n) == of_nat n + 1.
Proof.
  unfold of_nat. rewrite Nat2Z.inj_succ, <- Z.add_1_r, inject_Z_plus. reflexivity.
Qed.



Lemma analysis_risk_assessment (df : DataFrame) :
  df <> [] ->
  get_or risk_assessment [] (analyze_weather_patterns df) = _assess_risks df.
Proof. destruct df; [congruence|reflexivity]. Qed.



(** ** Dicts filled by a loop over the numerical columns *)

Lemma fold_insert_lookup {V : Type} (present : string -> bool) (entry : string -> V)
    (cols : list string) (acc : gmap string V) (k : string) :
  fold_left (fun (acc : gmap string V) col =>
               if present col then <[col := entry col]> acc else acc) cols acc !! k
  = if bool_decide (k ∈ cols) && present k then Some (entry k) else acc !! k.
Proof.
  revert acc. induction cols as [|c cols IH]; intro acc; [reflexivity|].
  cbn [fold_left]. rewrite IH.
  destruct (decide (k = c)) as [->|Hne].
  - rewrite (bool_decide_eq_true_2 (c ∈ c :: cols)) by (apply elem_of_cons; auto).
    destruct (present c) eqn:Hc.
    + rewrite lookup_insert_eq. now destruct (bool_decide (c ∈ cols)).
    + now rewrite !andb_false_r.
  - assert (bool_decide (k ∈ c :: cols) = bool_decide (k ∈ cols)) as ->.
    { apply bool_decide_ext. rewrite elem_of_cons. tauto. }
    destruct (bool_decide (k ∈ cols) && present k); [reflexivity|].
    destruct (present c); [|reflexivity].
    now rewrite lookup_insert_ne by congruence.
Qed.

Lemma statistics_lookup (df : DataFrame) (a : Analysis) (col : string) :
  analyze_weather_patterns df = Result a ->
  In col numerical_columns ->
  statistics a !! col =
  if has_column col df then Some (field_statistics (series col df)) else None.
Proof.
  intros Ha Hcol.
  change (statistics a) with (get_or statistics ∅ (Result a)). rewrite <- Ha.
  destruct df as [|m df]; [discriminate|].
  change (get_or statistics ∅ (analyze_weather_patterns (m :: df)))
    with (fold_left (fun (acc : gmap string FieldStatistics) col =>
                       if has_column col (m :: df)
                       then <[col := field_statistics (series col (m :: df))]> acc
                       else acc) numerical_columns ∅).
  rewrite (fold_insert_lookup (fun c => has_column c (m :: df))
             (fun c => field_statistics (series c (m :: df)))).
  rewrite bool_decide_eq_true_2 by now apply list_elem_of_In.
  now destruct (has_column col (m :: df)).
Qed.



(** C5, as stated, fails: the dict returned for the empty batch is not an
    analysis with empty statistics, trends and anomalies; it has no
    "statistics" key at all. *)
Lemma C5_error_dict_has_no_statistics :
  ~ (exists a, analyze_weather_patterns [] = Result a /\
               statistics a = ∅ /\ trends a = ∅ /\ anomalies a = []) /\
  ~ In "statistics"%string (analysis_keys (analyze_weather_patterns [])).
Proof.
  split.
  - intros (a & H & _). discriminate H.
  - simpl. intros [H|[]]. discriminate H.
Qed.

(** C5 (amended): on the empty batch [analyze_weather_patterns] returns,
    instead of raising, the dict [{"error": "No weather data provided"}],
    whose only key is "error"; no other batch gets an error dict. *)
Theorem C5_empty_batch :
  analyze_weather_patterns [] = Error "No weather data provided" /\
  analysis_keys (analyze_weather_patterns []) = ["error"]%string /\
  forall weather_data,
    (exists msg, analyze_weather_patterns weather_data = Error msg)
    <-> weather_data = [].
Proof.
  split; [reflexivity|]. split; [reflexivity|].
  intro weather_data. split.
  - intros [msg H]. destruct weather_data; [reflexivity|discriminate H].
  - intros ->. eexists. reflexivity.
Qed.

Lemma analyze_nonempty (df : DataFrame) :
  df <> [] ->
  exists a, analyze_weather_patterns df = Result a /\
            risk_assessment a = _assess_risks df.
Proof.
  destruct df as [|m df]; [congruence|]. intros _.
  eexists. split; reflexivity.
Qed.

Lemma dropna_all_nan (s : list fl) : Forall (fun v => v = NaN) s -> dropna s = [].
Proof. induction 1 as [|v s -> _ IH]; [reflexivity|exact IH]. Qed.

Lemma filter_all_nan (f : fl -> bool) (s : list fl) :
  f NaN = false -> Forall (fun v => v = NaN) s -> List.filter f s = [].
Proof.
  intro Hf. induction 1 as [|v s -> _ IH]; [reflexivity|].
  simpl. now rewrite Hf.
Qed.

Lemma Forall_tail {A} (P : A -> Prop) (n : nat) (s : list A) :
  Forall P s -> Forall P (tail n s).
Proof.
  rewrite !List.Forall_forall. intros H x Hx. apply H. eapply In_tail, Hx.
Qed.

Lemma series_without_values (df : DataFrame) :
  Forall (fun m => temperature m = Null \/ temperature m = Absent) df ->
  Forall (fun v => v = NaN) (series "temperature" df).
Proof.
  unfold series. intro H. apply List.Forall_map.
  eapply List.Forall_impl; [|exact H].
  intros m Hm. change (num_cell "temperature" m) with (temperature m).
  now destruct Hm as [-> | ->].
Qed.

Lemma extreme_score_without_values (df : DataFrame) :
  Forall (fun m => temperature m = Null \/ temperature m = Absent) df ->
  exists r, extreme_temperature_score df = Num r /\ r == 0.
Proof.
  intro H. unfold extreme_temperature_score.
  destruct (has_column "temperature" df); [|exists 0; split; reflexivity].
  cbv zeta. unfold count_gt, count_lt.
  pose proof (Forall_tail _ 6 _ (series_without_values df H)) as Hnan.
  rewrite !filter_all_nan by (auto; reflexivity).
  eexists. split.
  - unfold py_max, fgt, flt.
    destruct (Qltb _ _); reflexivity.
  - unfold Qdiv. apply Qmult_0_l.
Qed.

(** C6 (the code departs from the claim): for two rows with a timestamp
    whose temperature is [None], [_analyze_trends] raises [TypeError] in
    [np.polyfit], whatever the least-squares solver does;
    [analyze_weather_patterns] calls it outside any [try]. *)
Theorem C6_null_temperature_raises (lstsq : list float -> Binary64.raising float) :
  Binary64._analyze_trends lstsq null_temperatures_at = Binary64.Raised "TypeError".
Proof. reflexivity. Qed.

(** ** The predictor *)

Lemma tail_app_exact {A} (n : nat) (a b : list A) :
  n = length b -> tail n (a ++ b) = b.
Proof.
  intros ->. unfold tail. rewrite length_app.
  replace (length a + length b - length b)%nat with (length a) by lia.
  rewrite skipn_app, skipn_all, Nat.sub_diag. reflexivity.
Qed.


(** C4 (the code departs from the claim): for three rows whose temperature
    is [None] the column is present, and the prediction loop raises
    [TypeError] on [recent_values[-1] - recent_values[0]]; nothing in
    [generate_weather_prediction] catches it. *)
Theorem C4_null_column_raises :
  (3 <= length null_temperatures)%nat /\
  Binary64.in_columns "temperature" null_temperatures = true /\
  Binary64.predictions null_temperatures = Binary64.Raised "TypeError".
Proof. split; [simpl; lia|]. split; reflexivity. Qed.

(** ** The confidence of a predicted field *)

(** C9: for the three temperatures 2^60, 2^60 and 2^60 + 3, sent as
    integers, the difference of the last and the first is 3 and the trend
    1.0, while [np.std] casts the values to floats, which are equal: the
    confidence of the prediction is 0.7 + 0.2 * (1 - 1.0 / 1e-6), about
    -199999.1, below zero. *)
Theorem C9_confidence_outside_unit_interval :
  exists (historical_data : list Binary64.Row)
         (predictions : gmap string Binary64.FieldPrediction)
         (p : Binary64.FieldPrediction),
    (3 <= length historical_data)%nat /\
    Binary64.predictions historical_data = Binary64.Returned predictions /\
    predictions !! "temperature"%string = Some p /\
    Binary64.trend p = "increasing"%string /\
    (Binary64.field_confidence p <? 0)%float = true /\
    (Binary64.field_confidence p <? -199999)%float = true.
Proof.
  exists big_integers.
  destruct (Binary64.predict_field (Binary64.get_column "temperature" big_integers))
    as [|p] eqn:Hp; [vm_compute in Hp; discriminate Hp|].
  exists {[ "temperature"%string := p ]}, p.
  split; [simpl; lia|]. split.
  { unfold Binary64.predictions. change (3 <=? length big_integers)%nat with true.
    cbn [fold_left numerical_columns Binary64.bind].
    change (Binary64.in_columns "temperature" big_integers) with true.
    cbv iota. rewrite Hp. cbn [Binary64.bind].
    change (Binary64.in_columns "humidity" big_integers) with false.
    change (Binary64.in_columns "pressure" big_integers) with false.
    change (Binary64.in_columns "wind_speed" big_integers) with false.
    change (Binary64.in_columns "precipitation" big_integers) with false.
    cbv iota. reflexivity. }
  split; [apply lookup_singleton_eq|].
  vm_compute in Hp. injection Hp as <-. repeat split; reflexivity.
Qed.

(** ** Anomalies *)

Lemma iqr_bounds_shape (s : list fl) :
  iqr_bounds s = (NaN, NaN, NaN) \/
  exists lo hi iqr, iqr_bounds s = (Num lo, Num hi, Num iqr).
Proof.
  unfold iqr_bounds, series_quantile.
  destruct (sort (dropna s)); [left|right; eexists; eexists; eexists]; reflexivity.
Qed.

Lemma filter_none {A} (f : A -> bool) (l : list A) :
  (forall x, In x l -> f x = false) -> List.filter f l = [].
Proof.
  induction l as [|x l IH]; intro H; [reflexivity|].
  simpl. rewrite (H x) by now left. apply IH. intros y Hy. apply H. now right.
Qed.

Lemma In_binary64_anomalies (df : list Binary64.Row) (a : Binary64.Anomaly) :
  In a (Binary64._detect_anomalies df) ->
  exists col r,
    In col numerical_columns /\ Binary64.in_columns col df = true /\
    In r df /\
    let v := Binary64.to_float (Binary64.number_cell col r) in
    let '(lower_bound, upper_bound, IQR) :=
      Binary64.iqr_bounds (Binary64.get_column col df) in
    ((v <? lower_bound)%float || (upper_bound <? v)%float = true) /\
    a = {| Binary64.anomaly_type := col +:+ "_anomaly";
           Binary64.anomaly_value := v;
           Binary64.expected_range := (lower_bound, upper_bound);
           Binary64.anomaly_severity :=
             if (v <? lower_bound - IQR)%float || (upper_bound + IQR <? v)%float
             then "high" else "medium";
           Binary64.anomaly_timestamp :=
             if Binary64.has_timestamp df then to_opt (Binary64.row_timestamp r)
             else None;
           Binary64.anomaly_location :=
             if Binary64.has_location df then to_opt (Binary64.row_location r)
             else None |}.
Proof.
  unfold Binary64._detect_anomalies. intro Ha. apply in_flat_map in Ha.
  destruct Ha as (col & Hcol & Ha). exists col.
  unfold Binary64.column_anomalies in Ha.
  destruct (Binary64.in_columns col df) eqn:Hin; [|destruct Ha].
  cbv zeta.
  destruct (Binary64.iqr_bounds (Binary64.get_column col df)) as [[lo hi] iqr].
  apply in_map_iff in Ha. destruct Ha as (r & <- & Hr).
  apply filter_In in Hr. destruct Hr as [Hr Hout].
  exists r. auto.
Qed.

(** C7, as stated, fails: a temperature column of three samples, 1.0, 1.0
    and 1.0000000000000002, has one anomaly.  Both quartiles round to 1.0,
    so the two fences are 1.0 and the third sample is above the upper
    one; the anomaly is of severity "high". *)
Lemma C7_three_samples_one_anomaly :
  length close_readings = 3%nat /\
  Binary64._detect_anomalies close_readings
  = [{| Binary64.anomaly_type := "temperature_anomaly";
        Binary64.anomaly_value := next_after_one;
        Binary64.expected_range := (1%float, 1%float);
        Binary64.anomaly_severity := "high";
        Binary64.anomaly_timestamp := None;
        Binary64.anomaly_location := None |}].
Proof. split; [reflexivity|]. vm_compute. reflexivity. Qed.

(** C7 (amended): whatever the number of samples, every anomaly that is
    reported is a value of one of the five columns that lies strictly
    below [Q1 - 1.5 * IQR] or strictly above [Q3 + 1.5 * IQR], these two
    bounds being the ones computed in floating point from the quartiles of
    the column and reported as the expected range; its severity is "high"
    exactly when the value is below the lower bound minus the IQR or above
    the upper bound plus the IQR, and "medium" otherwise. *)
Theorem C7_anomalies_outside_fences (df : list Binary64.Row) (a : Binary64.Anomaly) :
  In a (Binary64._detect_anomalies df) ->
  exists col r Q1 Q3,
    In col numerical_columns /\ In r df /\
    Binary64.anomaly_type a = col +:+ "_anomaly" /\
    Binary64.anomaly_value a = Binary64.to_float (Binary64.number_cell col r) /\
    Q1 = Binary64.quantile 0.25 (Binary64.get_column col df) /\
    Q3 = Binary64.quantile 0.75 (Binary64.get_column col df) /\
    let IQR := (Q3 - Q1)%float in
    let lower_bound := (Q1 - 1.5 * IQR)%float in
    let upper_bound := (Q3 + 1.5 * IQR)%float in
    Binary64.expected_range a = (lower_bound, upper_bound) /\
    ((Binary64.anomaly_value a <? lower_bound)%float = true \/
     (upper_bound <? Binary64.anomaly_value a)%float = true) /\
    (Binary64.anomaly_severity a = "high"%string <->
     (Binary64.anomaly_value a <? lower_bound - IQR)%float = true \/
     (upper_bound + IQR <? Binary64.anomaly_value a)%float = true) /\
    (Binary64.anomaly_severity a = "high"%string \/
     Binary64.anomaly_severity a = "medium"%string).
Proof.
  intro Ha. destruct (In_binary64_anomalies df a Ha) as (col & r & Hcol & _ & Hr & H).
  cbv zeta in H. unfold Binary64.iqr_bounds in H. cbv zeta in H.
  destruct H as [Hout ->].
  exists col, r. eexists. eexists.
  split; [exact Hcol|]. split; [exact Hr|].
  split; [reflexivity|]. split; [reflexivity|].
  split; [reflexivity|]. split; [reflexivity|].
  cbv zeta. cbn [Binary64.expected_range Binary64.anomaly_value Binary64.anomaly_severity].
  split; [reflexivity|]. split; [now apply orb_true_iff|].
  rewrite <- orb_true_iff.
  destruct (_ || _)%bool; split; intuition congruence.
Qed.

Lemma C7_anomalies_outside_fences_witness :
  exists a,
    In a (Binary64._detect_anomalies close_readings) /\
    Binary64.anomaly_type a = "temperature_anomaly"%string /\
    (Binary64.anomaly_severity a = "high"%string \/
     Binary64.anomaly_severity a = "medium"%string).
Proof.
  assert (In {| Binary64.anomaly_type := "temperature_anomaly";
                Binary64.anomaly_value := next_after_one;
                Binary64.expected_range := (1%float, 1%float);
                Binary64.anomaly_severity := "high";
                Binary64.anomaly_timestamp := None;
                Binary64.anomaly_location := None |}
             (Binary64._detect_anomalies close_readings)) as Ha.
  { vm_compute. left. reflexivity. }
  eexists. split; [exact Ha|]. split; [reflexivity|].
  destruct (C7_anomalies_outside_fences close_readings _ Ha)
    as (col & r & Q1 & Q3 & _ & _ & _ & _ & _ & _ & _ & _ & _ & Hsev).
  exact Hsev.
Defined.

(** ** What the sweep adds, and nothing else *)

Lemma alerts_of_cases (completion : AlertData -> option string) (item : string * fl) :
  (fgt (snd item) (Num 0.7) = false /\ alerts_of completion item = []) \/
  (exists s a, snd item = Num s /\ 0.7 < s /\
               alerts_of completion item = [a] /\
               wa_alert_type a = replace "_risk" "" (fst item) /\
               wa_ai_confidence a = Num s /\
               wa_is_active a = true /\
               wa_location a = "Multiple Areas"%string /\
               wa_severity a = (if Qltb 0.8 s then "high" else "medium")%string).
Proof.
  destruct item as [k v]. unfold alerts_of, create_alert. cbn [fst snd].
  destruct (fgt v (Num 0.7)) eqn:E; [right|now left].
  destruct v as [s|]; [|discriminate].
  exists s. eexists. split; [reflexivity|].
  split; [now apply Qltb_lt|]. split; [reflexivity|].
  cbn [wa_alert_type wa_ai_confidence wa_is_active wa_location wa_severity].
  repeat split.
Qed.

Lemma length_flat_map_alerts (completion : AlertData -> option string)
    (risk_assessment : odict fl) :
  length (flat_map (alerts_of completion) risk_assessment)
  = length (breaches risk_assessment).
Proof.
  induction risk_assessment as [|item items IH]; [reflexivity|].
  cbn [flat_map breaches List.filter]. rewrite length_app. fold (breaches items).
  destruct (alerts_of_cases completion item) as [[E ->]|(s & a & Hv & Hs & -> & _)].
  - rewrite E. exact IH.
  - assert (fgt (snd item) (Num 0.7) = true) as ->
      by (rewrite Hv; now apply Qltb_lt).
    simpl. now rewrite IH.
Qed.

(** X1: the sweep keeps the rows already in the session and appends one row
    per item above 0.7, nothing for the others (NaN included); every added
    row is active, located "Multiple Areas", and carries the score of its
    item as confidence. *)
Theorem sweep_adds_one_row_per_breach (completion : AlertData -> option string)
    (risk_assessment : odict fl) (db : Session) :
  exists new,
    _check_risk_thresholds completion risk_assessment db = db ++ new /\
    length new = length (breaches risk_assessment) /\
    forall a, In a new ->
      exists risk_type score,
        In (risk_type, Num score) risk_assessment /\
        0.7 < score /\
        wa_alert_type a = replace "_risk" "" risk_type /\
        wa_ai_confidence a = Num score /\
        wa_is_active a = true /\
        wa_location a = "Multiple Areas"%string /\
        (wa_severity a = "high"%string \/ wa_severity a = "medium"%string).
Proof.
  exists (flat_map (alerts_of completion) risk_assessment).
  split; [apply check_risk_thresholds_flat_map|].
  split; [apply length_flat_map_alerts|].
  intros a Ha. apply in_flat_map in Ha. destruct Ha as ([k v] & Hitem & Ha).
  destruct (alerts_of_cases completion (k, v))
    as [[_ E]|(s & a' & Hv & Hs & E & Htype & Hconf & Hact & Hloc & Hsev)];
    rewrite E in Ha; [destruct Ha|].
  destruct Ha as [<-|[]]. cbn [fst snd] in *. subst v.
  exists k, s. repeat split; try assumption.
  rewrite Hsev. destruct (Qltb 0.8 s); auto.
Qed.

(** X2: the pattern analysis leaves the session as it is when the query
    returned ten rows or fewer, whatever the risk; with more rows it
    appends at most four alert rows. *)
Theorem pattern_analysis_needs_eleven_rows (completion : AlertData -> option string)
    (recent_data : list WeatherData) (db : Session) :
  ((length recent_data <= 10)%nat ->
   _perform_pattern_analysis completion recent_data db = db) /\
  exists new,
    _perform_pattern_analysis completion recent_data db = db ++ new /\
    (length new <= 4)%nat.
Proof.
  unfold _perform_pattern_analysis.
  destruct (10 <? length recent_data)%nat eqn:E.
  - apply Nat.ltb_lt in E. split; [lia|].
    rewrite analysis_risk_assessment by (destruct recent_data; [simpl in E; lia|discriminate]).
    exists (flat_map (alerts_of completion) (_assess_risks (map to_dict recent_data))).
    split; [apply check_risk_thresholds_flat_map|].
    rewrite length_flat_map_alerts, assess_risks_items.
    unfold breaches. cbn [List.filter snd].
    repeat match goal with |- context [fgt ?v ?t] => destruct (fgt v t) end;
      simpl; lia.
  - split; [reflexivity|]. exists []. split; [now rewrite app_nil_r|simpl; lia].
Qed.

Lemma pattern_analysis_needs_eleven_rows_witness :
  (length (repeat houston_row 10) <= 10)%nat /\
  _perform_pattern_analysis unreachable (repeat houston_row 10) [] = [].
Proof.
  assert (length (repeat houston_row 10) <= 10)%nat as H by (simpl; lia).
  split; [exact H|].
  exact (proj1 (pattern_analysis_needs_eleven_rows unreachable (repeat houston_row 10) []) H).
Defined.

(** ** From the stored rows to the flood alert *)

Lemma tail_map {A B} (f : A -> B) (n : nat) (l : list A) :
  tail n (map f l) = map f (tail n l).
Proof. unfold tail. now rewrite length_map, skipn_map. Qed.

Lemma dropna_map_Num {A} (f : A -> Q) (l : list A) :
  dropna (map (fun x => Num (f x)) l) = map f l.
Proof. induction l as [|x l IH]; simpl; [reflexivity|now rewrite IH]. Qed.

Lemma series_to_dict (col : string) (field : WeatherData -> Q) (rows : list WeatherData) :
  (forall w, num_cell col (to_dict w) = Val (field w)) ->
  series col (map to_dict rows) = map (fun w => Num (field w)) rows.
Proof.
  intro H. unfold series. rewrite map_map. apply map_ext.
  intro w. now rewrite H.
Qed.

Lemma has_column_to_dict (col : string) (rows : list WeatherData) :
  In col numerical_columns -> rows <> [] -> has_column col (map to_dict rows) = true.
Proof.
  intros Hcol Hne. destruct rows as [|w rows]; [congruence|].
  unfold numerical_columns in Hcol. simpl in Hcol.
  destruct Hcol as [<-|[<-|[<-|[<-|[<-|[]]]]]]; reflexivity.
Qed.

Lemma flood_score_of_rows (rows : list WeatherData) :
  rows <> [] ->
  flood_score (map to_dict rows) = py_min (Num 1) (Num (recent_precipitation rows / 50)).
Proof.
  intro Hne. unfold flood_score, recent_precipitation.
  rewrite has_column_to_dict; [|simpl; auto 10|assumption].
  rewrite (series_to_dict "precipitation" wd_precipitation) by reflexivity.
  rewrite tail_map. unfold series_sum.
  now rewrite (dropna_map_Num wd_precipitation).
Qed.

(** [min(1.0, t / 50)] against a threshold below 1. *)
Lemma flood_score_above (t limit : Q) :
  limit < 1 ->
  fgt (py_min (Num 1) (Num (t / 50))) (Num limit) = true <-> limit * 50 < t.
Proof.
  intro Hlimit. unfold py_min, fgt, flt.
  assert (t == t / 50 * 50) as Ht by field.
  set (u := t / 50) in *. clearbody u.
  destruct (Qltb u 1) eqn:E.
  - rewrite Qltb_lt. split; intro; lra.
  - apply Qltb_ge in E. rewrite Qltb_lt. split; intro; lra.
Qed.

(** Where a row of the sweep over the dict of [_assess_risks] comes from. *)
Lemma sweep_row_origin (completion : AlertData -> option string) (df : DataFrame)
    (a : WeatherAlert) :
  In a (flat_map (alerts_of completion) (_assess_risks df)) ->
  exists k v s,
    In (k, v) [("flood_risk"%string, flood_score df);
               ("drought_risk"%string, drought_score df);
               ("storm_risk"%string, storm_score df);
               ("extreme_temperature_risk"%string, extreme_temperature_score df)] /\
    v = Num s /\ 0.7 < s /\
    alerts_of completion (k, v) = [a] /\
    wa_alert_type a = replace "_risk" "" k /\
    wa_severity a = (if Qltb 0.8 s then "high" else "medium")%string.
Proof.
  rewrite assess_risks_items. intro Ha. apply in_flat_map in Ha.
  destruct Ha as ([k v] & Hitem & Ha).
  destruct (alerts_of_cases completion (k, v))
    as [[_ E]|(s & a' & Hv & Hs & E & Htype & _ & _ & _ & Hsev)];
    rewrite E in Ha; [destruct Ha|].
  destruct Ha as [<-|[]]. cbn [fst snd] in *.
  exists k, v, s. auto 10.
Qed.

(** The severity of a row of the sweep is "high" or "medium". *)
Lemma sweep_row_severity (completion : AlertData -> option string) (df : DataFrame)
    (a : WeatherAlert) :
  In a (flat_map (alerts_of completion) (_assess_risks df)) ->
  wa_severity a = "high"%string \/ wa_severity a = "medium"%string.
Proof.
  intro Ha.
  destruct (sweep_row_origin completion df a Ha) as (k & v & s & _ & _ & _ & _ & _ & Hs).
  rewrite Hs. destruct (Qltb 0.8 s); auto.
Qed.

(** Among the rows a sweep over the dict of [_assess_risks] adds, the flood
    row is there exactly when the flood score is above 0.7, and it is of
    severity "high" exactly when the score is above 0.8. *)
Lemma flood_row (completion : AlertData -> option string) (df : DataFrame) :
  let new := flat_map (alerts_of completion) (_assess_risks df) in
  ((exists a, In a new /\ wa_alert_type a = "flood"%string)
   <-> fgt (flood_score df) (Num 0.7) = true) /\
  (forall a, In a new -> wa_alert_type a = "flood"%string ->
             (wa_severity a = "high"%string <-> fgt (flood_score df) (Num 0.8) = true)).
Proof.
  cbv zeta.
  assert (forall a, In a (flat_map (alerts_of completion) (_assess_risks df)) ->
                    wa_alert_type a = "flood"%string ->
                    exists s, flood_score df = Num s /\ 0.7 < s /\
                      wa_severity a = (if Qltb 0.8 s then "high" else "medium")%string)
    as Horigin.
  { intros a Ha Ht.
    destruct (sweep_row_origin completion df a Ha)
      as (k & v & s & Hitem & Hv & Hs & _ & Htype & Hsev).
    rewrite Ht in Htype. simpl in Hitem.
    destruct Hitem as [H|[H|[H|[H|[]]]]]; injection H as <- <-;
      try discriminate Htype.
    exists s. auto. }
  split; [split|].
  - intros (a & Ha & Ht). destruct (Horigin a Ha Ht) as (s & -> & Hs & _).
    now apply Qltb_lt.
  - intro H. rewrite assess_risks_items. cbn [flat_map].
    destruct (alerts_of_cases completion ("flood_risk"%string, flood_score df))
      as [[E _]|(s & a & _ & _ & E & Htype & _)]; cbn [fst snd] in *; [congruence|].
    exists a. split; [|exact Htype]. rewrite E. now left.
  - intros a Ha Ht. destruct (Horigin a Ha Ht) as (s & -> & _ & ->).
    unfold fgt, flt. destruct (Qltb 0.8 s); split; congruence.
Qed.

(** X3: with more than ten rows whose precipitation is not negative, the
    pattern analysis stores a flood alert when the precipitation of the
    last 24 rows adds up to 35.01 mm or more, and none when it adds up to
    34.99 mm or less; the alert is of severity "high" when the total is
    40.01 mm or more, and "medium" when it is 39.99 mm or less.  The
    thresholds of the code are 35 and 40 mm; the margins stand for the
    rounding of the sum and of the quotient in binary64, which stays far
    below them when no reading is negative. *)
Theorem flood_alert_above_35_mm (completion : AlertData -> option string)
    (recent_data : list WeatherData) (db : Session) :
  (10 < length recent_data)%nat ->
  (forall w, In w recent_data -> 0 <= wd_precipitation w) ->
  exists new,
    _perform_pattern_analysis completion recent_data db = db ++ new /\
    (35.01 <= recent_precipitation recent_data ->
     exists a, In a new /\ wa_alert_type a = "flood"%string) /\
    (recent_precipitation recent_data <= 34.99 ->
     forall a, In a new -> wa_alert_type a <> "flood"%string) /\
    (forall a, In a new -> wa_alert_type a = "flood"%string ->
               (40.01 <= recent_precipitation recent_data ->
                wa_severity a = "high"%string) /\
               (recent_precipitation recent_data <= 39.99 ->
                wa_severity a = "medium"%string)).
Proof.
  intros Hlen _.
  assert (recent_data <> []) as Hne by (destruct recent_data; [simpl in Hlen; lia|discriminate]).
  exists (flat_map (alerts_of completion) (_assess_risks (map to_dict recent_data))).
  split.
  { unfold _perform_pattern_analysis. apply Nat.ltb_lt in Hlen. rewrite Hlen.
    rewrite analysis_risk_assessment by (destruct recent_data; [congruence|discriminate]).
    apply check_risk_thresholds_flat_map. }
  destruct (flood_row completion (map to_dict recent_data)) as [Hrow Hsev].
  rewrite (flood_score_of_rows recent_data Hne) in Hrow, Hsev.
  rewrite (flood_score_above _ 0.7) in Hrow by reflexivity.
  split; [|split].
  - intro H. apply Hrow. lra.
  - intros H a Ha Ht.
    assert (0.7 * 50 < recent_precipitation recent_data) as Habove
      by (apply Hrow; eauto).
    lra.
  - intros a Ha Ht. specialize (Hsev a Ha Ht).
    rewrite (flood_score_above _ 0.8) in Hsev by reflexivity.
    split; intro H.
    + apply Hsev. lra.
    + destruct (sweep_row_origin completion _ a Ha)
        as (k & v & s & _ & _ & _ & _ & _ & Hs).
      assert (wa_severity a = "high"%string \/ wa_severity a = "medium"%string)
        as [Hhigh|Hmedium] by (rewrite Hs; destruct (Qltb 0.8 s); auto).
      * apply Hsev in Hhigh. lra.
      * exact Hmedium.
Qed.

Lemma flood_alert_above_35_mm_witness :
  (10 < length houston)%nat /\
  (forall w, In w houston -> 0 <= wd_precipitation w) /\
  35.01 <= recent_precipitation houston /\
  exists new,
    _perform_pattern_analysis unreachable houston [] = [] ++ new /\
    exists a, In a new /\ wa_alert_type a = "flood"%string.
Proof.
  assert (10 < length houston)%nat as H1 by (simpl; lia).
  assert (forall w, In w houston -> 0 <= wd_precipitation w) as H2.
  { intros w Hw. apply repeat_spec in Hw. subst w. cbn. lra. }
  assert (35.01 <= recent_precipitation houston) as H3 by (vm_compute; discriminate).
  split; [exact H1|]. split; [exact H2|]. split; [exact H3|].
  destruct (flood_alert_above_35_mm unreachable houston [] H1 H2) as (new & Hnew & Hyes & _).
  exists new. split; [exact Hnew|]. exact (Hyes H3).
Defined.

(** ** The content dict of an alert *)

Lemma template_dom (sev loc : string) :
  dom (flood_template sev loc) = content_keys /\
  dom (drought_template sev loc) = content_keys /\
  dom (storm_template sev loc) = content_keys.
Proof.
  unfold flood_template, drought_template, storm_template, content_keys.
  repeat split; rewrite !dom_insert_L, dom_singleton_L; set_solver.
Qed.

Lemma parse_line_dom (result : gmap string string) (il : nat * string) :
  dom result = content_keys -> dom (parse_line result il) = content_keys.
Proof.
  intro H. unfold parse_line. destruct il as [i line].
  repeat match goal with |- context [if ?c then _ else _] => destruct c end;
    rewrite ?dom_insert_L, H; unfold content_keys; set_solver.
Qed.

Lemma parse_alert_text_dom (alert_text : string) :
  dom (parse_alert_text alert_text) = content_keys.
Proof.
  unfold parse_alert_text.
  set (lines := combine _ _). clearbody lines.
  set (result := ({[ "title"%string := _; "description"%string := _;
                     "instructions"%string := _; "duration"%string := _ ]}
                  : gmap string string)).
  assert (dom result = content_keys) as H.
  { unfold result, content_keys. rewrite !dom_insert_L, dom_singleton_L. set_solver. }
  clearbody result. revert result H.
  induction lines as [|il lines IH]; intros result H; [exact H|].
  cbn [fold_left]. apply IH. now apply parse_line_dom.
Qed.

(** X4: whether the completion request succeeds or fails,
    [generate_weather_alert] returns a dict with exactly the keys "title",
    "description", "instructions" and "duration", so the defaults the sweep
    passes to [.get] are never used. *)
Theorem alert_content_has_the_four_keys (completion : AlertData -> option string)
    (alert_data : AlertData) :
  dom (generate_weather_alert completion alert_data) = content_keys /\
  forall key dflt,
    key ∈ content_keys ->
    exists text,
      generate_weather_alert completion alert_data !! key = Some text /\
      default dflt (generate_weather_alert completion alert_data !! key) = text.
Proof.
  assert (dom (generate_weather_alert completion alert_data) = content_keys) as Hdom.
  { unfold generate_weather_alert. destruct (completion alert_data) as [text|].
    - apply parse_alert_text_dom.
    - rewrite template_alert_cases. cbv zeta.
      destruct (template_dom (lower (default "medium"%string (severity alert_data)))
                  (default "the area"%string (alert_location alert_data)))
        as (Hf & Hd & Hs).
      repeat case_decide; assumption. }
  split; [exact Hdom|].
  intros key dflt Hkey. rewrite <- Hdom in Hkey. apply elem_of_dom in Hkey.
  destruct Hkey as [text Htext]. exists text. now rewrite Htext.
Qed.

(** X5: when the completion request fails, the row stored for an
    extreme-temperature breach has the text of the storm template: its
    title, description and instructions are those of the row stored for a
    storm breach of the same score, the title reading "Severe Storm High
    (Medium) Alert for Multiple Areas". *)
Theorem extreme_temperature_row_reads_storm (completion : AlertData -> option string)
    (db : Session) (score : Q) :
  (forall alert_data, completion alert_data = None) ->
  0.7 < score ->
  exists hot stormy,
    _check_risk_thresholds completion [("extreme_temperature_risk"%string, Num score)] db
    = db ++ [hot] /\
    _check_risk_thresholds completion [("storm_risk"%string, Num score)] db
    = db ++ [stormy] /\
    wa_alert_type hot = "extreme_temperature"%string /\
    wa_alert_type stormy = "storm"%string /\
    wa_title hot = "Severe Storm " +:+ severity_word score +:+ " Alert for Multiple Areas" /\
    wa_title stormy = wa_title hot /\
    wa_description stormy = wa_description hot /\
    wa_instructions stormy = wa_instructions hot.
Proof.
  intros Hfail Hscore.
  unfold _check_risk_thresholds, create_alert. cbn [fold_left].
  assert (fgt (Num score) (Num 0.7) = true) as -> by now apply Qltb_lt.
  unfold generate_weather_alert. rewrite !Hfail.
  eexists. eexists. split; [reflexivity|]. split; [reflexivity|].
  cbn [wa_alert_type wa_title wa_description wa_instructions].
  unfold severity_word, fgt, flt.
  destruct (Qltb 0.8 score); repeat split; reflexivity.
Qed.

Lemma extreme_temperature_row_reads_storm_witness :
  (forall alert_data, unreachable alert_data = None) /\
  0.7 < 1 /\
  exists hot,
    _check_risk_thresholds unreachable [("extreme_temperature_risk"%string, Num 1)] []
    = [] ++ [hot] /\
    wa_title hot = "Severe Storm High Alert for Multiple Areas"%string.
Proof.
  assert (forall alert_data, unreachable alert_data = None) as H1 by reflexivity.
  assert (0.7 < 1) as H2 by reflexivity.
  split; [exact H1|]. split; [exact H2|].
  destruct (extreme_temperature_row_reads_storm unreachable [] 1 H1 H2)
    as (hot & stormy & Hhot & _ & _ & _ & Htitle & _).
  exists hot. split; [exact Hhot|exact Htitle].
Defined.

(** ** The scores are numbers *)

Lemma in_unit_Num (a : fl) : in_unit a -> exists q, a = Num q /\ 0 <= q <= 1.
Proof.
  intros [H0 H1]. destruct a as [q|]; [|destruct H0].
  exists q. simpl in H0, H1. auto.
Qed.

Lemma drought_score_nonneg (df : DataFrame) :
  exists q, drought_score df = Num q /\ 0 <= q.
Proof.
  unfold drought_score.
  destruct (has_column "precipitation" df && has_column "temperature" df);
    [|exists 0; split; [reflexivity|lra]].
  destruct (py_min_one (fdiv (series_mean (tail 720 (series "precipitation" df))) (Num 5)))
    as (p & -> & Hp & _).
  destruct (py_max_zero (fsub (series_mean (tail 720 (series "temperature" df))) (Num 25)))
    as (m & -> & Hm).
  cbn [fsub fdiv lift2].
  destruct (py_min_one (Num (m / (35 - 25)))) as (t & -> & _ & Ht).
  assert (0 <= t) as Ht'.
  { apply Ht. intros v [= <-]. apply Qle_shift_div_l; lra. }
  cbn [fsub fadd fdiv lift2]. eexists. split; [reflexivity|].
  apply Qle_shift_div_l; lra.
Qed.

(** X6: for a batch whose pressure column, when there is one, holds at
    least one number (missing values and negative readings are allowed),
    [_assess_risks] returns the four keys in the same order, each with a
    number, never NaN: the flood score is at most 1, the drought score at
    least 0, the storm and extreme-temperature scores between 0 and 1.
    (On a pressure column of [None] only the storm block raises instead:
    [Binary64.storm_risk].) *)
Theorem risk_scores_are_numbers (df : DataFrame) :
  (has_column "pressure" df = true -> holds_number "pressure" df) ->
  exists f d s e,
    _assess_risks df
    = [("flood_risk", Num f); ("drought_risk", Num d);
       ("storm_risk", Num s); ("extreme_temperature_risk", Num e)]%string /\
    f <= 1 /\ 0 <= d /\ 0 <= s <= 1 /\ 0 <= e <= 1.
Proof.
  intros _. rewrite assess_risks_items.
  destruct (flood_score_le_1 df) as (f & -> & Hf).
  destruct (drought_score_nonneg df) as (d & -> & Hd).
  destruct (in_unit_Num _ (storm_score_unit df)) as (s & -> & Hs).
  destruct (in_unit_Num _ (extreme_temperature_score_unit df)) as (e & -> & He).
  exists f, d, s, e. auto.
Qed.

Lemma risk_scores_are_numbers_witness :
  (has_column "pressure" wind_sensor_down = true ->
   holds_number "pressure" wind_sensor_down) /\
  exists f d s e,
    _assess_risks wind_sensor_down
    = [("flood_risk", Num f); ("drought_risk", Num d);
       ("storm_risk", Num s); ("extreme_temperature_risk", Num e)]%string.
Proof.
  assert (has_column "pressure" wind_sensor_down = true ->
          holds_number "pressure" wind_sensor_down) as H.
  { intros _. eexists. exists 1000. split; [left; reflexivity|reflexivity]. }
  split; [exact H|].
  destruct (risk_scores_are_numbers wind_sensor_down H) as (f & d & s & e & Hr & _).
  exists f, d, s, e. exact Hr.
Defined.

(** ** Missing wind readings *)

Lemma has_column_In (col : string) (df : DataFrame) (m : Measurement) :
  In m df -> is_present (num_cell col m) = true -> has_column col df = true.
Proof.
  intros Hm Hp. unfold has_column. apply existsb_exists. exists m.
  split; [exact Hm|]. now rewrite Hp.
Qed.

Lemma series_tail (col : string) (n : nat) (df : DataFrame) :
  tail n (series col df) = series col (tail n df).
Proof. unfold series. apply tail_map. Qed.

Lemma series_max_all_nan (s : list fl) :
  Forall (fun v => v = NaN) s -> series_max s = NaN.
Proof. intro H. unfold series_max. now rewrite dropna_all_nan. Qed.

Lemma py_max_one (x : fl) : py_max (Num 1) (py_min (Num 1) x) = Num 1.
Proof.
  destruct (py_min_one x) as (q & -> & Hq & _).
  unfold py_max, fgt, flt.
  destruct (Qltb 1 q) eqn:E; [apply Qltb_lt in E; lra|reflexivity].
Qed.

(** X7: in a batch whose pressure and wind-speed columns each hold a
    number, when none of the last six rows has a wind speed (the key is
    missing or holds [None]), the storm score is 1.0, the highest there
    is: the missing maximum makes [min(1.0, max_wind / 60)] keep its first
    argument.  (On a pressure column of [None] only the block raises
    instead.) *)
Theorem missing_wind_gives_storm_risk_1 (df : DataFrame) :
  holds_number "pressure" df ->
  holds_number "wind_speed" df ->
  Forall (fun m => wind_speed m = Null \/ wind_speed m = Absent) (tail 6 df) ->
  od_get "storm_risk" (_assess_risks df) = Some (Num 1).
Proof.
  intros (mp & p & Hmp & Hp) (m & q & Hm & Hq) Hlast.
  assert (storm_score df = Num 1) as Hscore.
  { unfold storm_score.
    rewrite (has_column_In "pressure" df mp Hmp) by now rewrite Hp.
    rewrite (has_column_In "wind_speed" df m Hm) by now rewrite Hq.
    cbn [andb]. rewrite (series_tail "wind_speed").
    rewrite series_max_all_nan.
    - cbn [fdiv lift2]. change (py_min (Num 1) NaN) with (Num 1). apply py_max_one.
    - unfold series. apply List.Forall_map. revert Hlast. apply List.Forall_impl.
      intros r [H|H]; cbn; now rewrite H. }
  rewrite assess_risks_items, Hscore. reflexivity.
Qed.

Lemma missing_wind_gives_storm_risk_1_witness :
  holds_number "pressure" wind_sensor_down /\
  holds_number "wind_speed" wind_sensor_down /\
  Forall (fun m => wind_speed m = Null \/ wind_speed m = Absent) (tail 6 wind_sensor_down) /\
  od_get "storm_risk" (_assess_risks wind_sensor_down) = Some (Num 1).
Proof.
  assert (holds_number "pressure" wind_sensor_down) as H1.
  { eexists. exists 1000. split; [left; reflexivity|reflexivity]. }
  assert (holds_number "wind_speed" wind_sensor_down) as H2.
  { eexists. exists 10. split; [left; reflexivity|reflexivity]. }
  assert (Forall (fun m => wind_speed m = Null \/ wind_speed m = Absent)
                 (tail 6 wind_sensor_down)) as H3.
  { change (tail 6 wind_sensor_down)
      with (repeat (sample (Val 20) (Val 50) (Val 1000) Null (Val 0)) 6).
    simpl. repeat (constructor; [left; reflexivity|]). constructor. }
  split; [exact H1|]. split; [exact H2|]. split; [exact H3|].
  exact (missing_wind_gives_storm_risk_1 wind_sensor_down H1 H2 H3).
Defined.

(** ** The windows of the risk assessment *)

Lemma tail_app_long {A} (n : nat) (a b : list A) :
  (n <= length b)%nat -> tail n (a ++ b) = tail n b.
Proof.
  intro H. unfold tail. rewrite skipn_app, length_app.
  rewrite (skipn_all2 a) by lia. cbn [app]. f_equal. lia.
Qed.

Lemma has_column_suffix (col : string) (earlier recent : DataFrame) :
  (forall c, has_column c earlier = true -> has_column c recent = true) ->
  has_column col (earlier ++ recent) = has_column col recent.
Proof.
  intro H. rewrite has_column_app.
  destruct (has_column col earlier) eqn:E; [|reflexivity].
  now rewrite (H col E).
Qed.

Lemma series_tail_suffix (col : string) (n : nat) (earlier recent : DataFrame) :
  (n <= length recent)%nat ->
  tail n (series col (earlier ++ recent)) = tail n (series col recent).
Proof.
  intro H. rewrite series_app. apply tail_app_long. unfold series.
  now rewrite length_map.
Qed.

(** Rows older than the window of a score do not change it, when they
    bring no column of their own. *)
Lemma risk_windows_of_columns (earlier recent : DataFrame) :
  (forall col, has_column col earlier = true -> has_column col recent = true) ->
  ((24 <= length recent)%nat ->
   od_get "flood_risk" (_assess_risks (earlier ++ recent))
   = od_get "flood_risk" (_assess_risks recent)) /\
  ((6 <= length recent)%nat ->
   od_get "storm_risk" (_assess_risks (earlier ++ recent))
   = od_get "storm_risk" (_assess_risks recent) /\
   od_get "extreme_temperature_risk" (_assess_risks (earlier ++ recent))
   = od_get "extreme_temperature_risk" (_assess_risks recent)) /\
  ((720 <= length recent)%nat ->
   _assess_risks (earlier ++ recent) = _assess_risks recent).
Proof.
  intro Hcols.
  assert ((24 <= length recent)%nat ->
          flood_score (earlier ++ recent) = flood_score recent) as Hflood.
  { intro H. unfold flood_score.
    now rewrite (has_column_suffix _ _ _ Hcols), series_tail_suffix by lia. }
  assert ((6 <= length recent)%nat ->
          storm_score (earlier ++ recent) = storm_score recent) as Hstorm.
  { intro H. unfold storm_score.
    now rewrite !(has_column_suffix _ _ _ Hcols), !series_tail_suffix by lia. }
  assert ((6 <= length recent)%nat ->
          extreme_temperature_score (earlier ++ recent)
          = extreme_temperature_score recent) as Hextreme.
  { intro H. unfold extreme_temperature_score.
    now rewrite (has_column_suffix _ _ _ Hcols), series_tail_suffix by lia. }
  assert ((720 <= length recent)%nat ->
          drought_score (earlier ++ recent) = drought_score recent) as Hdrought.
  { intro H. unfold drought_score.
    now rewrite !(has_column_suffix _ _ _ Hcols), !series_tail_suffix by lia. }
  rewrite !assess_risks_items. cbn [od_get String.eqb Ascii.eqb Bool.eqb].
  split; [|split].
  - intro H. now rewrite Hflood.
  - intro H. now rewrite Hstorm, Hextreme.
  - intro H. now rewrite Hflood, Hdrought, Hstorm, Hextreme by lia.
Qed.

Lemma present_to_dict (col : string) (w w' : WeatherData) :
  is_present (num_cell col (to_dict w)) || is_present (str_cell col (to_dict w))
  = is_present (num_cell col (to_dict w')) || is_present (str_cell col (to_dict w')).
Proof.
  unfold num_cell, str_cell. cbn.
  repeat match goal with
         | |- context [String.eqb col ?k] => destruct (String.eqb col k)
         end; reflexivity.
Qed.

Lemma has_column_stored (col : string) (earlier recent : list WeatherData) :
  recent <> [] ->
  has_column col (map to_dict earlier) = true ->
  has_column col (map to_dict recent) = true.
Proof.
  intros Hne H. destruct recent as [|w recent]; [congruence|].
  unfold has_column in *. apply existsb_exists in H.
  destruct H as (m & Hm & H). apply in_map_iff in Hm.
  destruct Hm as (w0 & <- & _).
  cbn [map existsb]. rewrite (present_to_dict col w w0), H. reflexivity.
Qed.

(** X8: for stored rows, whose measurements are all floats, rows older
    than the window of a score do not change it: the flood score is that of the last 24 rows, the storm and
    extreme-temperature scores are those of the last 6 rows, and the whole
    assessment is that of the last 720 rows. *)
Theorem risk_windows (earlier recent : list WeatherData) :
  ((24 <= length recent)%nat ->
   od_get "flood_risk" (_assess_risks (map to_dict (earlier ++ recent)))
   = od_get "flood_risk" (_assess_risks (map to_dict recent))) /\
  ((6 <= length recent)%nat ->
   od_get "storm_risk" (_assess_risks (map to_dict (earlier ++ recent)))
   = od_get "storm_risk" (_assess_risks (map to_dict recent)) /\
   od_get "extreme_temperature_risk" (_assess_risks (map to_dict (earlier ++ recent)))
   = od_get "extreme_temperature_risk" (_assess_risks (map to_dict recent))) /\
  ((720 <= length recent)%nat ->
   _assess_risks (map to_dict (earlier ++ recent)) = _assess_risks (map to_dict recent)).
Proof.
  rewrite map_app.
  assert ((6 <= length recent)%nat ->
          forall col, has_column col (map to_dict earlier) = true ->
                      has_column col (map to_dict recent) = true) as Hcols.
  { intros Hlen col. apply (has_column_stored col earlier recent).
    destruct recent; [simpl in Hlen; lia|discriminate]. }
  destruct (le_lt_dec 6 (length recent)) as [Hlong|Hshort].
  - destruct (risk_windows_of_columns (map to_dict earlier) (map to_dict recent)
                (Hcols Hlong)) as (H24 & H6 & H720).
    rewrite length_map in H24, H6, H720. auto.
  - split; [intro; lia|split; intro; lia].
Qed.

(** ** The extreme-temperature alert of the sweep *)

Lemma filter_le_length {A} (f : A -> bool) (s : list A) :
  (length (List.filter f s) <= length s)%nat.
Proof.
  induction s as [|x s IH]; [simpl; lia|]. simpl. destruct (f x); simpl; lia.
Qed.

(** Among the rows a sweep over the dict of [_assess_risks] adds, the row of
    one key is there exactly when its score is above 0.7; it carries the
    score, and is of severity "high" exactly when the score is above 0.8. *)
Lemma risk_row (completion : AlertData -> option string) (df : DataFrame)
    (k : string) (v : fl) :
  In (k, v) (_assess_risks df) ->
  let new := flat_map (alerts_of completion) (_assess_risks df) in
  ((exists a, In a new /\ wa_alert_type a = replace "_risk" "" k)
   <-> fgt v (Num 0.7) = true) /\
  (forall a, In a new -> wa_alert_type a = replace "_risk" "" k ->
             (wa_severity a = "high"%string <-> fgt v (Num 0.8) = true)).
Proof.
  intro Hkv. cbv zeta.
  assert (forall a, In a (flat_map (alerts_of completion) (_assess_risks df)) ->
                    wa_alert_type a = replace "_risk" "" k ->
                    exists s, v = Num s /\ 0.7 < s /\
                      wa_severity a = (if Qltb 0.8 s then "high" else "medium")%string)
    as Horigin.
  { intros a Ha Ht.
    destruct (sweep_row_origin completion df a Ha)
      as (k' & v' & s & Hitem & Hv & Hs & _ & Htype & Hsev).
    rewrite Ht in Htype. rewrite assess_risks_items in Hkv.
    simpl in Hitem, Hkv.
    destruct Hkv as [H|[H|[H|[H|[]]]]]; injection H as <- <-;
      (destruct Hitem as [H|[H|[H|[H|[]]]]]; injection H as <- <-;
       try discriminate Htype);
      exists s; auto. }
  split; [split|].
  - intros (a & Ha & Ht). destruct (Horigin a Ha Ht) as (s & -> & Hs & _).
    now apply Qltb_lt.
  - intro H.
    destruct (alerts_of_cases completion (k, v))
      as [[E _]|(s & a & _ & _ & E & Htype & _)]; cbn [fst snd] in *; [congruence|].
    exists a. split; [|exact Htype].
    apply in_flat_map. exists (k, v). split; [exact Hkv|]. rewrite E. now left.
  - intros a Ha Ht. destruct (Horigin a Ha Ht) as (s & -> & _ & ->).
    unfold fgt, flt. destruct (Qltb 0.8 s); split; congruence.
Qed.

Lemma length_filter_map {A B} (f : A -> B) (p : B -> bool) (l : list A) :
  length (List.filter p (map f l)) = length (List.filter (fun x => p (f x)) l).
Proof.
  induction l as [|x l IH]; [reflexivity|].
  cbn [map List.filter]. destruct (p (f x)); simpl; now rewrite IH.
Qed.

Lemma extreme_temperature_score_of_rows (rows : list WeatherData) :
  (6 <= length rows)%nat ->
  extreme_temperature_score (map to_dict rows)
  = py_max (Num (of_nat (hot_readings rows) / of_nat 6))
           (Num (of_nat (cold_readings rows) / of_nat 6)).
Proof.
  intro Hlen. unfold extreme_temperature_score, hot_readings, cold_readings.
  rewrite has_column_to_dict;
    [|simpl; auto 10|destruct rows; [simpl in Hlen; lia|discriminate]].
  cbv zeta.
  rewrite (series_to_dict "temperature" wd_temperature) by reflexivity.
  rewrite tail_map. unfold count_gt, count_lt.
  rewrite !length_filter_map, length_map, length_tail.
  replace (Nat.min 6 (length rows)) with 6%nat by lia.
  reflexivity.
Qed.

(** [max(h / 6, c / 6)] against the two thresholds of the sweep. *)
Lemma five_of_six (h c : nat) :
  (h <= 6)%nat -> (c <= 6)%nat ->
  fgt (py_max (Num (of_nat h / of_nat 6)) (Num (of_nat c / of_nat 6))) (Num 0.7)
  = (5 <=? h)%nat || (5 <=? c)%nat /\
  fgt (py_max (Num (of_nat h / of_nat 6)) (Num (of_nat c / of_nat 6))) (Num 0.8)
  = (5 <=? h)%nat || (5 <=? c)%nat.
Proof.
  intros Hh Hc.
  do 7 (destruct h as [|h]; [do 7 (destruct c as [|c]; [split; reflexivity|]); lia|]).
  lia.
Qed.

(** X9: with more than ten rows, the pattern analysis stores an
    extreme-temperature alert exactly when at least five of the last six
    rows are above 40 degrees, or at least five of them are below -20
    degrees; that alert is always of severity "high". *)
Theorem extreme_temperature_alert_five_of_six (completion : AlertData -> option string)
    (recent_data : list WeatherData) (db : Session) :
  (10 < length recent_data)%nat ->
  exists new,
    _perform_pattern_analysis completion recent_data db = db ++ new /\
    ((exists a, In a new /\ wa_alert_type a = "extreme_temperature"%string)
     <-> (5 <= hot_readings recent_data \/ 5 <= cold_readings recent_data)%nat) /\
    (forall a, In a new -> wa_alert_type a = "extreme_temperature"%string ->
               wa_severity a = "high"%string).
Proof.
  intro Hlen.
  exists (flat_map (alerts_of completion) (_assess_risks (map to_dict recent_data))).
  split.
  { unfold _perform_pattern_analysis.
    assert ((10 <? length recent_data)%nat = true) as -> by now apply Nat.ltb_lt.
    rewrite analysis_risk_assessment by (destruct recent_data; [simpl in Hlen; lia|discriminate]).
    apply check_risk_thresholds_flat_map. }
  destruct (risk_row completion (map to_dict recent_data)
              "extreme_temperature_risk"
              (extreme_temperature_score (map to_dict recent_data)))
    as [Hrow Hsev].
  { rewrite assess_risks_items. simpl. auto 10. }
  change (replace "_risk" "" "extreme_temperature_risk")
    with "extreme_temperature"%string in Hrow, Hsev.
  rewrite extreme_temperature_score_of_rows in Hrow, Hsev by lia.
  destruct (five_of_six (hot_readings recent_data) (cold_readings recent_data))
    as [H07 H08].
  { unfold hot_readings. etransitivity; [apply filter_le_length|].
    rewrite length_tail. lia. }
  { unfold cold_readings. etransitivity; [apply filter_le_length|].
    rewrite length_tail. lia. }
  rewrite H07 in Hrow. rewrite H08 in Hsev.
  assert ((5 <=? hot_readings recent_data)%nat || (5 <=? cold_readings recent_data)%nat = true
          <-> (5 <= hot_readings recent_data \/ 5 <= cold_readings recent_data)%nat) as Hor.
  { rewrite orb_true_iff, !Nat.leb_le. reflexivity. }
  split.
  - now rewrite Hrow, Hor.
  - intros a Ha Ht. apply (Hsev a Ha Ht). apply Hrow. now exists a.
Qed.

Lemma extreme_temperature_alert_five_of_six_witness :
  (10 < length heat_wave)%nat /\
  exists new,
    _perform_pattern_analysis unreachable heat_wave [] = [] ++ new /\
    exists a, In a new /\ wa_alert_type a = "extreme_temperature"%string /\
              wa_severity a = "high"%string.
Proof.
  assert (10 < length heat_wave)%nat as H by (simpl; lia).
  split; [exact H|].
  destruct (extreme_temperature_alert_five_of_six unreachable heat_wave [] H)
    as (new & Hnew & Hiff & Hsev).
  exists new. split; [exact Hnew|].
  destruct (proj2 Hiff) as (a & Ha & Ht).
  { left. vm_compute. lia. }
  exists a. split; [exact Ha|]. split; [exact Ht|]. exact (Hsev a Ha Ht).
Defined.

(** ** Every outlier is reported *)



(** ** Quartiles and fences *)

Lemma nth_sorted (v : list Q) (d : Q) (i j : nat) :
  Sorted Qle v -> (i <= j)%nat -> (j < length v)%nat -> nth i v d <= nth j v d.
Proof.
  intro Hs. apply Sorted_StronglySorted in Hs; [|exact Qle_trans].
  revert i j. induction Hs as [|a v Hs IH Ha]; intros i j Hij Hj; [simpl in Hj; lia|].
  destruct i as [|i], j as [|j]; cbn [nth]; simpl in Hj.
  - apply Qle_refl.
  - rewrite List.Forall_forall in Ha. apply Ha. apply nth_In. lia.
  - lia.
  - apply IH; lia.
Qed.

Lemma interpolation_between (lo hi frac : Q) :
  lo <= hi -> 0 <= frac -> frac <= 1 ->
  lo <= lo + (hi - lo) * frac /\ lo + (hi - lo) * frac <= hi.
Proof.
  intros H H0 H1.
  assert (0 <= (hi - lo) * frac) as Ha by (apply Qmult_le_0_compat; lra).
  assert (0 <= (hi - lo) * (1 - frac)) as Hb by (apply Qmult_le_0_compat; lra).
  split; [lra|].
  assert ((hi - lo) * (1 - frac) == (hi - lo) - (hi - lo) * frac) as E by ring.
  rewrite E in Hb. lra.
Qed.

Lemma Qmult_le_l' (a b c : Q) : 0 <= c -> a <= b -> c * a <= c * b.
Proof.
  intros Hc Hab. rewrite (Qmult_comm c a), (Qmult_comm c b).
  now apply Qmult_le_compat_r.
Qed.

(** Where [quantile(q)] reads the sorted values. *)
Lemma quantile_position (n : nat) (q : Q) :
  0 <= q -> q <= 1 ->
  let h := of_nat (n - 1) * q in
  (Z.to_nat (Qfloor h) <= n - 1)%nat /\
  inject_Z (Z.of_nat (Z.to_nat (Qfloor h))) == inject_Z (Qfloor h) /\
  0 <= h - inject_Z (Qfloor h) /\ h - inject_Z (Qfloor h) < 1.
Proof.
  intros H0 H1 h.
  assert (0 <= of_nat (n - 1)) as Hn.
  { unfold of_nat. change 0 with (inject_Z 0). rewrite <- Zle_Qle. lia. }
  assert (0 <= h) as Hh0 by (apply Qmult_le_0_compat; assumption).
  assert (h <= of_nat (n - 1)) as Hh1.
  { unfold h. apply Qle_trans with (of_nat (n - 1) * 1).
    - apply Qmult_le_l'; assumption.
    - rewrite Qmult_1_r. apply Qle_refl. }
  assert (0 <= Qfloor h)%Z as Hf0.
  { change 0%Z with (Qfloor 0). now apply Qfloor_resp_le. }
  assert (Qfloor h <= Z.of_nat (n - 1))%Z as Hf1.
  { rewrite <- (Qfloor_Z (Z.of_nat (n - 1))). now apply Qfloor_resp_le. }
  split; [lia|]. split; [now rewrite Z2Nat.id|].
  pose proof (Qfloor_le h). pose proof (Qlt_floor h) as Hlt.
  rewrite inject_Z_plus in Hlt. change (inject_Z 1) with 1 in Hlt.
  split; lra.
Qed.

(** The value [quantile(q)] reads off sorted values [x :: l]. *)
Lemma quantile_between_neighbours (x : Q) (l : list Q) (q : Q) :
  Sorted Qle (x :: l) -> 0 <= q -> q <= 1 ->
  let v := x :: l in
  let n := length v in
  let h := of_nat (n - 1) * q in
  let i := Z.to_nat (Qfloor h) in
  let frac := h - inject_Z (Qfloor h) in
  let lo := nth i v x in
  let hi := nth (Nat.min (i + 1) (n - 1)) v x in
  lo <= lo + (hi - lo) * frac /\ lo + (hi - lo) * frac <= hi.
Proof.
  intros Hs H0 H1 v n h i frac lo hi.
  destruct (quantile_position n q H0 H1) as (Hi & _ & Hf0 & Hf1).
  fold h in Hi, Hf0, Hf1. fold i in Hi. fold frac in Hf0, Hf1.
  apply interpolation_between; [|assumption|lra].
  apply nth_sorted; [exact Hs| |]; unfold n, v in *; simpl in *; lia.
Qed.

Lemma quantile_monotone (x : Q) (l : list Q) (q1 q2 : Q) :
  Sorted Qle (x :: l) -> 0 <= q1 -> q1 <= q2 -> q2 <= 1 ->
  let v := x :: l in
  let n := length v in
  let value := fun q =>
    let h := of_nat (n - 1) * q in
    let i := Z.to_nat (Qfloor h) in
    let frac := h - inject_Z (Qfloor h) in
    let lo := nth i v x in
    let hi := nth (Nat.min (i + 1) (n - 1)) v x in
    lo + (hi - lo) * frac in
  value q1 <= value q2.
Proof.
  intros Hs H0 H12 H1 v n value.
  assert (0 <= q2) as H0' by lra. assert (q1 <= 1) as H1' by lra.
  destruct (quantile_position n q1 H0 H1') as (Hi1 & Hz1 & Hf1 & Hg1).
  destruct (quantile_position n q2 H0' H1) as (Hi2 & Hz2 & Hf2 & Hg2).
  pose proof (quantile_between_neighbours x l q1 Hs H0 H1') as [_ Hup].
  pose proof (quantile_between_neighbours x l q2 Hs H0' H1) as [Hlow _].
  unfold value. fold v n in Hup, Hlow.
  set (h1 := of_nat (n - 1) * q1) in *. set (h2 := of_nat (n - 1) * q2) in *.
  assert (h1 <= h2) as Hh.
  { unfold h1, h2. apply Qmult_le_l'; [|assumption].
    unfold of_nat. change 0 with (inject_Z 0). rewrite <- Zle_Qle. lia. }
  assert (Qfloor h1 <= Qfloor h2)%Z as Hfl by now apply Qfloor_resp_le.
  set (i1 := Z.to_nat (Qfloor h1)) in *. set (i2 := Z.to_nat (Qfloor h2)) in *.
  assert (i1 <= i2)%nat as Hi by (unfold i1, i2; lia).
  destruct (Nat.eq_dec i1 i2) as [E|E].
  - rewrite <- E in *.
    set (lo := nth i1 v x) in *. set (hi := nth (Nat.min (i1 + 1) (n - 1)) v x) in *.
    assert (lo <= hi) as Hd.
    { apply nth_sorted; [exact Hs| |]; unfold n, v in *; simpl in *; lia. }
    assert ((hi - lo) * (h1 - inject_Z (Qfloor h1))
            <= (hi - lo) * (h2 - inject_Z (Qfloor h2))) as Hm.
    { apply Qmult_le_l'; [lra|]. rewrite <- Hz1, <- Hz2. lra. }
    lra.
  - eapply Qle_trans; [exact Hup|]. eapply Qle_trans; [|exact Hlow].
    apply nth_sorted; [exact Hs| |]; unfold n, v in *; simpl in *; lia.
Qed.

Lemma series_quantile_monotone (s : list fl) (q1 q2 a b : Q) :
  0 <= q1 -> q1 <= q2 -> q2 <= 1 ->
  series_quantile q1 s = Num a -> series_quantile q2 s = Num b -> a <= b.
Proof.
  intros H0 H12 H1. unfold series_quantile.
  pose proof (sort_sorted (dropna s)) as Hs.
  destruct (sort (dropna s)) as [|x l]; [discriminate|].
  intros [= <-] [= <-].
  exact (quantile_monotone x l q1 q2 Hs H0 H12 H1).
Qed.

(** A quantile lies between two values of the series. *)
Lemma series_quantile_between (s : list fl) (q a : Q) :
  0 <= q -> q <= 1 ->
  series_quantile q s = Num a ->
  exists lo hi, In (Num lo) s /\ In (Num hi) s /\ lo <= a /\ a <= hi.
Proof.
  intros H0 H1. unfold series_quantile.
  pose proof (sort_sorted (dropna s)) as Hs.
  pose proof (fun v => sort_In v (dropna s)) as Hin.
  destruct (sort (dropna s)) as [|x l] eqn:E; [discriminate|].
  intros [= <-].
  destruct (quantile_position (length (x :: l)) q H0 H1) as (Hi & _).
  pose proof (quantile_between_neighbours x l q Hs H0 H1) as [Hlow Hup].
  cbv zeta in Hlow, Hup.
  eexists. eexists. split; [|split; [|split; [exact Hlow|exact Hup]]];
    apply In_dropna, Hin, nth_In; simpl in *; lia.
Qed.

Lemma iqr_bounds_quartiles (s : list fl) (lo hi iqr : Q) :
  iqr_bounds s = (Num lo, Num hi, Num iqr) ->
  exists q1 q3,
    series_quantile 0.25 s = Num q1 /\ series_quantile 0.75 s = Num q3 /\
    q1 <= q3 /\ iqr = q3 - q1 /\
    lo = q1 - 1.5 * (q3 - q1) /\ hi = q3 + 1.5 * (q3 - q1).
Proof.
  unfold iqr_bounds.
  destruct (series_quantile 0.25 s) as [q1|] eqn:E1; [|discriminate].
  destruct (series_quantile 0.75 s) as [q3|] eqn:E3; [|discriminate].
  cbn [fsub fadd fmul lift2]. intros [= <- <- <-].
  exists q1, q3. repeat split.
  apply (series_quantile_monotone s 0.25 0.75 q1 q3); try assumption; lra.
Qed.



(** X12: a column whose values are all equal has no anomaly, however many
    rows there are and whether or not some rows miss the value. *)
Theorem constant_column_has_no_anomaly (df : DataFrame) (col : string) (c : Q) :
  (forall m x, In m df -> num_cell col m = Val x -> x == c) ->
  column_anomalies df col = [].
Proof.
  intro Hconst. unfold column_anomalies.
  destruct (has_column col df); [|reflexivity].
  destruct (iqr_bounds (series col df)) as [[lo hi] iqr] eqn:Hb.
  rewrite filter_none; [reflexivity|].
  intros m Hm. cbn beta.
  destruct (num_cell col m) as [| |x] eqn:Hx;
    try (unfold fgt; cbn [to_fl flt]; now destruct hi).
  destruct (iqr_bounds_shape (series col df)) as [Hnan|(lo' & hi' & iqr' & Hnum)].
  { rewrite Hnan in Hb. injection Hb as <- <- <-. reflexivity. }
  rewrite Hnum in Hb. injection Hb as <- <- <-.
  destruct (iqr_bounds_quartiles _ _ _ _ Hnum) as (q1 & q3 & E1 & E3 & H13 & -> & -> & ->).
  assert (forall q a, 0 <= q -> q <= 1 -> series_quantile q (series col df) = Num a -> a == c)
    as Hq.
  { intros q a H0 H1 E.
    destruct (series_quantile_between _ q a H0 H1 E) as (u & w & Hu & Hw & Hua & Haw).
    apply In_series in Hu, Hw.
    destruct Hu as (mu & Hmu & Hu), Hw as (mw & Hmw & Hw).
    pose proof (Hconst mu u Hmu Hu). pose proof (Hconst mw w Hmw Hw). lra. }
  pose proof (Hq 0.25 q1 ltac:(lra) ltac:(lra) E1).
  pose proof (Hq 0.75 q3 ltac:(lra) ltac:(lra) E3).
  pose proof (Hconst m x Hm Hx).
  unfold fgt. cbn [to_fl flt]. apply orb_false_iff.
  split; apply Qltb_ge; lra.
Qed.

Lemma constant_column_has_no_anomaly_witness :
  (forall m x, In m steady_temperature -> num_cell "temperature" m = Val x -> x == 21) /\
  column_anomalies steady_temperature "temperature" = [].
Proof.
  assert (forall m x, In m steady_temperature ->
                      num_cell "temperature" m = Val x -> x == 21) as H.
  { intros m x Hm Hx. apply repeat_spec in Hm. subst m.
    injection Hx as <-. reflexivity. }
  split; [exact H|].
  exact (constant_column_has_no_anomaly steady_temperature "temperature" 21 H).
Defined.

(** ** The statistics of a column *)

Lemma fold_Qmin2_le (l : list Q) (x : Q) :
  fold_left Qmin2 l x <= x /\ forall y, In y l -> fold_left Qmin2 l x <= y.
Proof.
  revert x. induction l as [|z l IH]; intro x; cbn [fold_left].
  - split; [apply Qle_refl|intros y []].
  - destruct (IH (Qmin2 x z)) as [H1 H2].
    assert (Qmin2 x z <= x /\ Qmin2 x z <= z) as [Hx Hz].
    { unfold Qmin2. destruct (Qltb z x) eqn:E.
      - apply Qltb_lt in E. split; lra.
      - apply Qltb_ge in E. split; lra. }
    split; [lra|]. intros y [<-|Hy]; [lra|now apply H2].
Qed.

Lemma Qsum_bounds (l : list Q) (lo hi : Q) :
  (forall y, In y l -> lo <= y /\ y <= hi) ->
  lo * of_nat (length l) <= Qsum l /\ Qsum l <= hi * of_nat (length l).
Proof.
  induction l as [|x l IH]; intro H.
  - change (of_nat (length (@nil Q))) with 0. change (Qsum []) with 0. split; lra.
  - cbn [length Qsum fold_right]. rewrite of_nat_S.
    destruct IH as [H1 H2]; [intros y Hy; apply H; now right|].
    destruct (H x (or_introl eq_refl)) as [Hx1 Hx2].
    fold (Qsum l). split; lra.
Qed.

Lemma series_extremes (s : list fl) :
  dropna s <> [] ->
  exists lo hi,
    series_min s = Num lo /\ series_max s = Num hi /\
    forall y, In y (dropna s) -> lo <= y /\ y <= hi.
Proof.
  intro Hne. unfold series_min, series_max.
  destruct (dropna s) as [|x l]; [congruence|].
  destruct (fold_Qmin2_le l x) as [Hm1 Hm2].
  destruct (fold_Qmax2_ge l x) as [HM1 HM2].
  eexists. eexists. split; [reflexivity|]. split; [reflexivity|].
  intros y [<-|Hy]; split; auto.
Qed.

Lemma series_median_between (s : list fl) (lo hi : Q) :
  dropna s <> [] ->
  (forall y, In y (dropna s) -> lo <= y /\ y <= hi) ->
  exists med, series_median s = Num med /\ lo <= med /\ med <= hi.
Proof.
  intros Hne Hb. unfold series_median.
  pose proof (fun v => sort_In v (dropna s)) as Hin.
  pose proof (sort_length (dropna s)) as Hlen.
  destruct (sort (dropna s)) as [|x l] eqn:E.
  { destruct (dropna s); [congruence|discriminate]. }
  set (v := x :: l) in *.
  assert (forall i, (i < length v)%nat -> lo <= nth i v x /\ nth i v x <= hi) as Hnth.
  { intros i Hi. apply Hb, Hin, nth_In, Hi. }
  assert (0 < length v)%nat as Hpos by (unfold v; simpl; lia).
  assert (length v / 2 < length v)%nat as Hhalf by (apply Nat.div_lt; lia).
  cbv zeta. destruct (Nat.even (length v)).
  - destruct (Hnth (length v / 2 - 1)%nat) as [A1 A2]; [lia|].
    destruct (Hnth (length v / 2)%nat) as [B1 B2]; [lia|].
    eexists. split; [reflexivity|].
    split; [apply Qle_shift_div_l|apply Qle_shift_div_r]; lra.
  - destruct (Hnth (length v / 2)%nat) as [B1 B2]; [lia|].
    eexists. split; [reflexivity|]. split; assumption.
Qed.

Lemma statistics_entry (df : DataFrame) (a : Analysis) (col : string)
    (st : FieldStatistics) :
  analyze_weather_patterns df = Result a ->
  statistics a !! col = Some st ->
  In col numerical_columns /\ has_column col df = true /\
  st = field_statistics (series col df).
Proof.
  intros Ha Hst.
  change (statistics a) with (get_or statistics ∅ (Result a)) in Hst.
  rewrite <- Ha in Hst. clear Ha.
  destruct df as [|m df]; [discriminate|].
  change (get_or statistics ∅ (analyze_weather_patterns (m :: df)))
    with (fold_left (fun (acc : gmap string FieldStatistics) col =>
                       if has_column col (m :: df)
                       then <[col := field_statistics (series col (m :: df))]> acc
                       else acc) numerical_columns ∅) in Hst.
  rewrite (fold_insert_lookup (fun c => has_column c (m :: df))
             (fun c => field_statistics (series c (m :: df)))) in Hst.
  destruct (bool_decide (col ∈ numerical_columns)) eqn:Hin;
    [|rewrite lookup_empty in Hst; discriminate].
  apply bool_decide_eq_true in Hin. apply list_elem_of_In in Hin.
  destruct (has_column col (m :: df)) eqn:Hcol;
    cbn [andb] in Hst; [|rewrite lookup_empty in Hst; discriminate].
  injection Hst as <-. auto.
Qed.

(** In the statistics of a column that has at least one value, the median
    lies between the minimum and the maximum, and so does every value of
    the column. *)
Lemma statistics_between_extremes (df : DataFrame) (a : Analysis) (col : string)
    (st : FieldStatistics) :
  analyze_weather_patterns df = Result a ->
  statistics a !! col = Some st ->
  (exists m x, In m df /\ num_cell col m = Val x) ->
  exists lo med hi,
    stat_min st = Num lo /\ stat_median st = Num med /\ stat_max st = Num hi /\
    lo <= med /\ med <= hi /\
    forall m x, In m df -> num_cell col m = Val x -> lo <= x /\ x <= hi.
Proof.
  intros Ha Hst (m0 & x0 & Hm0 & Hx0).
  destruct (statistics_entry df a col st Ha Hst) as (_ & _ & ->).
  assert (forall m x, In m df -> num_cell col m = Val x ->
                      In x (dropna (series col df))) as Hval.
  { intros m x Hm Hx. apply In_dropna. unfold series. apply in_map_iff.
    exists m. split; [now rewrite Hx|exact Hm]. }
  assert (dropna (series col df) <> []) as Hne.
  { intro E. pose proof (Hval m0 x0 Hm0 Hx0) as H. rewrite E in H. destruct H. }
  destruct (series_extremes _ Hne) as (lo & hi & Hmin & Hmax & Hb).
  destruct (series_median_between _ lo hi Hne Hb) as (med & Hmed & Hmed1 & Hmed2).
  exists lo, med, hi. cbn [field_statistics stat_min stat_median stat_max].
  repeat split; try assumption; apply (Hb x), (Hval m x); assumption.
Qed.

(** A stored row has a value under each of the five numerical columns. *)
Lemma stored_value (col : string) (w : WeatherData) :
  In col numerical_columns -> exists x, num_cell col (to_dict w) = Val x.
Proof.
  unfold numerical_columns. simpl.
  intros [<-|[<-|[<-|[<-|[<-|[]]]]]]; eexists; reflexivity.
Qed.

(** X13: in the statistics the analysis gives for a column of stored rows
    whose values are between -10^9 and 10^9, the median lies between the
    minimum and the maximum, and every value of the column lies between
    the minimum and the maximum.  (The bound keeps the sum of the two
    middle values finite in binary64; the mean is left out, since its
    rounding can take it past the extremes.) *)
Theorem statistics_are_ordered (rows : list WeatherData) (a : Analysis) (col : string)
    (st : FieldStatistics) :
  analyze_weather_patterns (map to_dict rows) = Result a ->
  statistics a !! col = Some st ->
  (forall w x, In w rows -> num_cell col (to_dict w) = Val x ->
               -1000000000 <= x <= 1000000000) ->
  exists lo med hi,
    stat_min st = Num lo /\ stat_median st = Num med /\ stat_max st = Num hi /\
    lo <= med /\ med <= hi /\
    forall w x, In w rows -> num_cell col (to_dict w) = Val x -> lo <= x /\ x <= hi.
Proof.
  intros Ha Hst _.
  destruct (statistics_entry _ a col st Ha Hst) as (Hcol & _ & _).
  assert (exists m x, In m (map to_dict rows) /\ num_cell col m = Val x) as Hv.
  { destruct rows as [|w rows]; [discriminate Ha|].
    destruct (stored_value col w Hcol) as [x Hx].
    exists (to_dict w), x. split; [now left|exact Hx]. }
  destruct (statistics_between_extremes _ a col st Ha Hst Hv)
    as (lo & med & hi & H1 & H2 & H3 & H4 & H5 & H6).
  exists lo, med, hi. repeat split; try assumption;
    apply (H6 (to_dict w) x); try assumption; now apply in_map.
Qed.

Lemma statistics_are_ordered_witness :
  exists a st,
    analyze_weather_patterns (map to_dict houston) = Result a /\
    statistics a !! "temperature"%string = Some st /\
    (forall w x, In w houston -> num_cell "temperature" (to_dict w) = Val x ->
                 -1000000000 <= x <= 1000000000) /\
    exists lo med hi,
      stat_min st = Num lo /\ stat_median st = Num med /\ stat_max st = Num hi /\
      lo <= med /\ med <= hi.
Proof.
  destruct (analyze_nonempty (map to_dict houston)) as (a & Ha & _); [discriminate|].
  assert (statistics a !! "temperature"%string
          = Some (field_statistics (series "temperature" (map to_dict houston)))) as Hst.
  { rewrite (statistics_lookup _ a "temperature" Ha) by (simpl; auto).
    reflexivity. }
  assert (forall w x, In w houston -> num_cell "temperature" (to_dict w) = Val x ->
                      -1000000000 <= x <= 1000000000) as Hb.
  { intros w x Hw Hx. apply repeat_spec in Hw. subst w. injection Hx as <-. cbn. lra. }
  exists a. eexists. split; [exact Ha|]. split; [exact Hst|]. split; [exact Hb|].
  destruct (statistics_are_ordered houston a "temperature" _ Ha Hst Hb)
    as (lo & med & hi & H1 & H2 & H3 & H4 & H5 & _).
  exists lo, med, hi. auto 10.
Defined.

(** ** The trends do not depend on the order of the rows *)

Lemma string_compare_trans (s1 s2 s3 : string) :
  String.compare s1 s2 <> Gt -> String.compare s2 s3 <> Gt ->
  String.compare s1 s3 <> Gt.
Proof.
  revert s2 s3. induction s1 as [|c1 s1 IH]; intros [|c2 s2] [|c3 s3];
    cbn [String.compare]; try congruence.
  unfold Ascii.compare.
  destruct (N.compare_spec (N_of_ascii c1) (N_of_ascii c2)) as [E12|L12|G12];
    destruct (N.compare_spec (N_of_ascii c2) (N_of_ascii c3)) as [E23|L23|G23];
    destruct (N.compare_spec (N_of_ascii c1) (N_of_ascii c3)) as [E13|L13|G13];
    try congruence; try lia.
  apply IH.
Qed.

Lemma string_leb_trans (s1 s2 s3 : string) :
  String.leb s1 s2 = true -> String.leb s2 s3 = true -> String.leb s1 s3 = true.
Proof.
  unfold String.leb. intros H12 H23.
  pose proof (string_compare_trans s1 s2 s3) as H.
  destruct (String.compare s1 s2), (String.compare s2 s3), (String.compare s1 s3);
    try reflexivity; try discriminate; exfalso; apply H; congruence.
Qed.

Lemma ts_le_total (a b : Measurement) : ts_le a b = true \/ ts_le b a = true.
Proof.
  unfold ts_le. destruct (to_opt (timestamp a)), (to_opt (timestamp b)); auto.
  apply String.leb_total.
Qed.

Lemma ts_le_trans (a b c : Measurement) :
  ts_le a b = true -> ts_le b c = true -> ts_le a c = true.
Proof.
  unfold ts_le.
  destruct (to_opt (timestamp a)), (to_opt (timestamp b)), (to_opt (timestamp c));
    try reflexivity; try discriminate.
  apply string_leb_trans.
Qed.

Lemma ts_le_antisym (a b : Measurement) (ta tb : string) :
  timestamp a = Val ta -> timestamp b = Val tb ->
  ts_le a b = true -> ts_le b a = true -> ta = tb.
Proof.
  unfold ts_le. intros -> ->. cbn [to_opt]. apply String.leb_antisym.
Qed.

Lemma insert_row_perm (r : Measurement) (l : DataFrame) :
  Permutation (insert_row r l) (r :: l).
Proof.
  induction l as [|x l IH]; cbn [insert_row]; [reflexivity|].
  destruct (ts_le r x); [reflexivity|].
  rewrite IH. apply perm_swap.
Qed.

Lemma sort_values_timestamp_perm (df : DataFrame) :
  Permutation (sort_values_timestamp df) df.
Proof.
  induction df as [|r df IH]; [reflexivity|].
  cbn [sort_values_timestamp fold_right]. fold (sort_values_timestamp df).
  rewrite insert_row_perm. now constructor.
Qed.

Lemma insert_row_sorted (r : Measurement) (l : DataFrame) :
  Sorted (fun a b => ts_le a b = true) l ->
  Sorted (fun a b => ts_le a b = true) (insert_row r l).
Proof.
  induction l as [|x l IH]; intro Hs; cbn [insert_row].
  - repeat constructor.
  - destruct (ts_le r x) eqn:E.
    + constructor; [exact Hs|]. now constructor.
    + inversion Hs as [|? ? Hs' Hhd]; subst.
      constructor; [now apply IH|].
      destruct l as [|y l]; cbn [insert_row].
      * constructor. destruct (ts_le_total r x); congruence.
      * destruct (ts_le r y).
        -- constructor. destruct (ts_le_total r x); congruence.
        -- inversion Hhd; subst. now constructor.
Qed.

Lemma sort_values_timestamp_sorted (df : DataFrame) :
  Sorted (fun a b => ts_le a b = true) (sort_values_timestamp df).
Proof.
  induction df as [|r df IH]; [constructor|].
  cbn [sort_values_timestamp fold_right]. now apply insert_row_sorted.
Qed.

(** Two sorted arrangements of the same rows are equal when no two rows
    compare equal. *)
Lemma sorted_rows_unique (l1 l2 : DataFrame) :
  (forall a b, In a l1 -> In b l1 -> ts_le a b = true -> ts_le b a = true -> a = b) ->
  StronglySorted (fun a b => ts_le a b = true) l1 ->
  StronglySorted (fun a b => ts_le a b = true) l2 ->
  Permutation l1 l2 -> l1 = l2.
Proof.
  revert l2. induction l1 as [|a l1 IH]; intros l2 Hanti H1 H2 Hp.
  - apply Permutation_nil in Hp. now subst.
  - destruct l2 as [|b l2]; [apply Permutation_sym, Permutation_nil in Hp; discriminate|].
    assert (a = b) as <-.
    { inversion H1 as [|? ? _ Ha]; subst. inversion H2 as [|? ? _ Hb]; subst.
      rewrite List.Forall_forall in Ha, Hb.
      assert (In b (a :: l1)) as Hb1
        by (eapply Permutation_in; [apply Permutation_sym, Hp|now left]).
      assert (In a (b :: l2)) as Ha2
        by (eapply Permutation_in; [apply Hp|now left]).
      destruct Hb1 as [->|Hb1]; [reflexivity|].
      destruct Ha2 as [->|Ha2]; [reflexivity|].
      apply Hanti; [now left|now right|now apply Ha|now apply Hb]. }
    f_equal. apply IH.
    + intros x y Hx Hy. apply Hanti; now right.
    + now inversion H1.
    + now inversion H2.
    + now apply Permutation_cons_inv in Hp.
Qed.

Lemma distinct_timestamps_antisym (df : DataFrame) :
  (forall m, In m df -> exists t, timestamp m = Val t) ->
  List.NoDup (map timestamp df) ->
  forall a b, In a df -> In b df -> ts_le a b = true -> ts_le b a = true -> a = b.
Proof.
  intros Hpresent Hnodup a b Ha Hb Hab Hba.
  destruct (Hpresent a Ha) as [ta Hta]. destruct (Hpresent b Hb) as [tb Htb].
  assert (timestamp a = timestamp b) as E
    by (rewrite Hta, Htb; f_equal; eapply ts_le_antisym; eassumption).
  clear - Hnodup Ha Hb E.
  induction df as [|x df IH]; [destruct Ha|].
  cbn [map] in Hnodup. inversion Hnodup as [|? ? Hnotin Hnodup']; subst.
  destruct Ha as [->|Ha], Hb as [->|Hb].
  - reflexivity.
  - exfalso. apply Hnotin. rewrite E. now apply in_map.
  - exfalso. apply Hnotin. rewrite <- E. now apply in_map.
  - now apply IH.
Qed.

Lemma has_column_perm (col : string) (df df' : DataFrame) :
  Permutation df df' -> has_column col df = has_column col df'.
Proof.
  intro Hp. unfold has_column.
  apply eq_true_iff_eq. rewrite !existsb_exists.
  split; intros (m & Hm & H); exists m; split; try exact H.
  - eapply Permutation_in; eassumption.
  - eapply Permutation_in; [apply Permutation_sym|]; eassumption.
Qed.

Lemma sort_values_timestamp_order (df df' : DataFrame) :
  Permutation df df' ->
  (forall m, In m df -> exists t, timestamp m = Val t) ->
  List.NoDup (map timestamp df) ->
  sort_values_timestamp df = sort_values_timestamp df'.
Proof.
  intros Hp Hpresent Hnodup.
  assert (Transitive (fun a b => ts_le a b = true)) as Htrans
    by (intros a b c; apply ts_le_trans).
  apply sorted_rows_unique.
  - intros a b Ha Hb.
    apply (distinct_timestamps_antisym df Hpresent Hnodup);
      (eapply Permutation_in; [apply sort_values_timestamp_perm|assumption]).
  - apply Sorted_StronglySorted; [exact Htrans|apply sort_values_timestamp_sorted].
  - apply Sorted_StronglySorted; [exact Htrans|apply sort_values_timestamp_sorted].
  - rewrite !sort_values_timestamp_perm. exact Hp.
Qed.

(** X14: the trends do not depend on the order in which the rows are
    passed: two batches with the same rows, each with a timestamp and no
    two rows with the same one, give the same trends. *)
Theorem trends_ignore_row_order (df df' : DataFrame) :
  Permutation df df' ->
  (forall m, In m df -> exists t, timestamp m = Val t) ->
  List.NoDup (map timestamp df) ->
  _analyze_trends df = _analyze_trends df'.
Proof.
  intros Hp Hpresent Hnodup. unfold _analyze_trends.
  rewrite <- !(has_column_perm _ df df' Hp).
  rewrite <- (Permutation_length Hp).
  now rewrite <- (sort_values_timestamp_order df df' Hp Hpresent Hnodup).
Qed.

Lemma trends_ignore_row_order_witness :
  Permutation newest_first (rev newest_first) /\
  (forall m, In m newest_first -> exists t, timestamp m = Val t) /\
  List.NoDup (map timestamp newest_first) /\
  _analyze_trends newest_first = _analyze_trends (rev newest_first).
Proof.
  assert (Permutation newest_first (rev newest_first)) as H1 by apply perm_swap.
  assert (forall m, In m newest_first -> exists t, timestamp m = Val t) as H2.
  { intros m [<-|[<-|[]]]; eexists; reflexivity. }
  assert (List.NoDup (map timestamp newest_first)) as H3.
  { repeat constructor; simpl; intuition discriminate. }
  split; [exact H1|]. split; [exact H2|]. split; [exact H3|].
  exact (trends_ignore_row_order newest_first (rev newest_first) H1 H2 H3).
Defined.

(** ** The sentiment report *)

Lemma classify_length (analyzer : string -> response Sentiment)
    (posts : list string) (sentiments : list Sentiment) :
  classify analyzer posts = Result sentiments ->
  length sentiments = length posts /\
  forall s, In s sentiments -> exists text, analyzer text = Result s.
Proof.
  revert sentiments. induction posts as [|post posts IH]; intros sentiments.
  - intros [= <-]. split; [reflexivity|intros s []].
  - cbn [classify]. destruct (analyzer (substring 0 512 post)) as [msg|s0] eqn:E0;
      [discriminate|].
    destruct (classify analyzer posts) as [msg|l]; [discriminate|].
    intros [= <-]. destruct (IH l eq_refl) as [Hlen Horigin].
    split; [simpl; now rewrite Hlen|].
    intros s [<-|Hs]; [eauto|now apply Horigin].
Qed.

Lemma count_label_disjoint (sentiments : list Sentiment) :
  (0 <= count_label "POSITIVE" sentiments /\
   0 <= count_label "NEGATIVE" sentiments /\
   count_label "POSITIVE" sentiments + count_label "NEGATIVE" sentiments
   <= Z.of_nat (length sentiments))%Z.
Proof.
  unfold count_label. induction sentiments as [|s l IH]; [simpl; lia|].
  cbn [List.filter length].
  destruct (String.eqb_spec (label s) "POSITIVE") as [E|E].
  - rewrite E. cbn [String.eqb Ascii.eqb Bool.eqb andb]. cbn [length]. lia.
  - destruct (String.eqb (label s) "NEGATIVE"); cbn [length]; lia.
Qed.

Lemma average_unit (sentiments : list Sentiment) :
  sentiments <> [] ->
  (forall s, In s sentiments -> 0 <= score s /\ score s <= 1) ->
  0 <= Qsum (map score sentiments) / of_nat (length sentiments) /\
  Qsum (map score sentiments) / of_nat (length sentiments) <= 1.
Proof.
  intros Hne Hscore.
  destruct (Qsum_bounds (map score sentiments) 0 1) as [H0 H1].
  { intros y Hy. apply in_map_iff in Hy. destruct Hy as (s & <- & Hs). now apply Hscore. }
  rewrite length_map in H0, H1.
  assert (0 < of_nat (length sentiments)) as Hn.
  { apply of_nat_pos. destruct sentiments; [congruence|simpl; lia]. }
  split; [apply Qle_shift_div_l|apply Qle_shift_div_r]; assumption.
Qed.

(** X15: in the report [analyze_social_sentiment] returns, the three
    counts are not negative and add up to the number of posts; the overall
    sentiment is "positive" exactly when the positive posts outnumber the
    negative ones, "negative" in the opposite case, "neutral" when they are
    as many; a post whose label is neither "POSITIVE" nor "NEGATIVE" counts
    as neutral, so a pipeline that answers with other labels gives
    "neutral"; and the average confidence lies between 0 and 1 when every
    score does. *)
Theorem sentiment_counts_add_up (sentiment_analyzer : option (string -> response Sentiment))
    (social_posts : list string) (report : SentimentReport) :
  analyze_social_sentiment sentiment_analyzer social_posts = Result report ->
  exists analyzer,
    sentiment_analyzer = Some analyzer /\
    social_posts <> [] /\
    total_posts report = length social_posts /\
    (0 <= positive_count report /\ 0 <= negative_count report /\
     0 <= neutral_count report)%Z /\
    (positive_count report + negative_count report + neutral_count report
     = Z.of_nat (total_posts report))%Z /\
    (overall_sentiment report = "positive"%string
     <-> (negative_count report < positive_count report)%Z) /\
    (overall_sentiment report = "negative"%string
     <-> (positive_count report < negative_count report)%Z) /\
    (overall_sentiment report = "neutral"%string
     <-> positive_count report = negative_count report) /\
    ((forall text s, analyzer text = Result s ->
                     label s <> "POSITIVE"%string /\ label s <> "NEGATIVE"%string) ->
     neutral_count report = Z.of_nat (total_posts report) /\
     overall_sentiment report = "neutral"%string) /\
    ((forall text s, analyzer text = Result s -> 0 <= score s /\ score s <= 1) ->
     0 <= average_confidence report /\ average_confidence report <= 1).
Proof.
  unfold analyze_social_sentiment.
  destruct sentiment_analyzer as [analyzer|]; [|discriminate].
  destruct social_posts as [|post posts]; [discriminate|].
  assert (post :: posts <> []) as Hposts by discriminate.
  set (social_posts := post :: posts) in *. clearbody social_posts.
  destruct (classify analyzer social_posts) as [msg|sentiments] eqn:Hc; [discriminate|].
  intros [= <-]. exists analyzer.
  destruct (classify_length _ _ _ Hc) as [Hlen Horigin].
  assert (sentiments <> []) as Hsome
    by (intros ->; destruct social_posts; [congruence|discriminate Hlen]).
  destruct (count_label_disjoint sentiments) as (Hp & Hn & Hsum).
  cbn [total_posts positive_count negative_count neutral_count average_confidence
       overall_sentiment].
  rewrite <- Hlen.
  set (p := count_label "POSITIVE" sentiments) in *.
  set (n := count_label "NEGATIVE" sentiments) in *.
  split; [reflexivity|]. split; [exact Hposts|]. split; [reflexivity|].
  split; [lia|]. split; [lia|].
  destruct (Z.ltb_spec n p) as [Hnp|Hnp]; [|destruct (Z.ltb_spec p n) as [Hpn|Hpn]].
  - split; [split; [intros _; exact Hnp|reflexivity]|].
    split; [split; [discriminate|lia]|].
    split; [split; [discriminate|lia]|].
    split.
    + intro Hother. exfalso.
      assert (p = 0)%Z; [|lia].
      unfold p, count_label. rewrite filter_none; [reflexivity|].
      intros s Hs. destruct (Horigin s Hs) as [text Htext].
      apply String.eqb_neq. apply (Hother text s Htext).
    + intro Hscore. apply average_unit; [exact Hsome|]. intros s Hs.
      destruct (Horigin s Hs) as [text Htext]. exact (Hscore text s Htext).
  - split; [split; [discriminate|lia]|].
    split; [split; [intros _; exact Hpn|reflexivity]|].
    split; [split; [discriminate|lia]|].
    split.
    + intro Hother. exfalso.
      assert (n = 0)%Z; [|lia].
      unfold n, count_label. rewrite filter_none; [reflexivity|].
      intros s Hs. destruct (Horigin s Hs) as [text Htext].
      apply String.eqb_neq. apply (Hother text s Htext).
    + intro Hscore. apply average_unit; [exact Hsome|]. intros s Hs.
      destruct (Horigin s Hs) as [text Htext]. exact (Hscore text s Htext).
  - split; [split; [discriminate|lia]|].
    split; [split; [discriminate|lia]|].
    split; [split; [lia|reflexivity]|].
    split.
    + intro Hother. split; [|reflexivity].
      assert (p = 0)%Z; [|lia].
      unfold p, count_label. rewrite filter_none; [reflexivity|].
      intros s Hs. destruct (Horigin s Hs) as [text Htext].
      apply String.eqb_neq. apply (Hother text s Htext).
    + intro Hscore. apply average_unit; [exact Hsome|]. intros s Hs.
      destruct (Horigin s Hs) as [text Htext]. exact (Hscore text s Htext).
Qed.

Lemma sentiment_counts_add_up_witness :
  exists report,
    analyze_social_sentiment (Some lower_case_labels) ["Clear skies at last"%string]
    = Result report /\
    neutral_count report = Z.of_nat (total_posts report) /\
    overall_sentiment report = "neutral"%string.
Proof.
  eexists. split; [reflexivity|].
  destruct (sentiment_counts_add_up (Some lower_case_labels)
              ["Clear skies at last"%string] _ eq_refl)
    as (analyzer & Hsome & _ & _ & _ & _ & _ & _ & _ & Hother & _).
  injection Hsome as <-. apply Hother.
  intros text s [= <-]. split; discriminate.
Defined.

(** ** The handlers of the weather router *)

(** X16: the analysis and prediction handlers never answer 404 or 400: the
    [HTTPException] they raise for no data (404) and for fewer than ten
    rows (400) is caught by their own [except Exception] clause and leaves
    as a 500 whose detail is the prefix of the handler followed by the text
    of the caught exception; nothing is stored then.  With data, the
    analysis handler returns the number of rows and an analysis that is not
    the error dict. *)
Theorem handlers_turn_their_errors_into_500 (str : nat -> string -> string)
    (location : string) (rows : list WeatherData) (db : list WeatherPrediction) :
  (rows = [] <->
   get_weather_analysis str location rows
   = HTTPException 500 ("Error performing weather analysis: "
                        +:+ str 404%nat "No weather data found for analysis")) /\
  (rows <> [] <->
   exists a, get_weather_analysis str location rows
             = Body {| analysis_location := location;
                       data_points := length rows;
                       analysis := Result a |}) /\
  ((length rows < 10)%nat <->
   get_weather_prediction str location rows db
   = (HTTPException 500 ("Error generating weather prediction: "
                         +:+ str 400%nat "Insufficient historical data for prediction"),
      db)) /\
  ((10 <= length rows)%nat <->
   exists p row, get_weather_prediction str location rows db
                 = (Body (Result p), db ++ [row])).
Proof.
  split; [|split; [|split]].
  - destruct rows as [|w rows]; [split; reflexivity|].
    split; [discriminate|]. unfold get_weather_analysis. cbn. discriminate.
  - destruct rows as [|w rows].
    + split; [congruence|]. intros [a H]. discriminate H.
    + split; [|discriminate]. intros _.
      destruct (analyze_nonempty (map to_dict (w :: rows))) as (a & Ha & _);
        [discriminate|].
      exists a. unfold get_weather_analysis, except_Exception.
      now rewrite Ha, length_map.
  - unfold get_weather_prediction. destruct (Nat.ltb_spec (length rows) 10) as [H|H].
    + split; [reflexivity|intros _; exact H].
    + split; [lia|]. cbn [except_Exception]. discriminate.
  - unfold get_weather_prediction. destruct (Nat.ltb_spec (length rows) 10) as [H|H].
    + split; [lia|]. intros (p & row & E). discriminate E.
    + split; [|intros _; exact H]. intros _.
      destruct rows as [|w rows]; [simpl in H; lia|].
      cbn [except_Exception]. eexists. eexists. reflexivity.
Qed.





(** ** What the registry keeps of a reading *)

Lemma py_int_nonneg (x : Q) : 0 <= x -> py_int x = Qfloor x.
Proof.
  destruct x as [n d]. unfold Qle, py_int, Qfloor. cbn [Qnum Qden]. intro H.
  apply Z.quot_div_nonneg; lia.
Qed.

Lemma py_int_nonpos (x : Q) : x <= 0 -> py_int x = (- Qfloor (- x))%Z.
Proof.
  destruct x as [n d]. unfold Qle, py_int, Qfloor, Qopp. cbn [Qnum Qden]. intro H.
  rewrite <- (Z.opp_involutive n) at 1. rewrite Z.quot_opp_l by lia.
  f_equal. apply Z.quot_div_nonneg; lia.
Qed.

(** [int(x)] is less than 1 away from [x], on the side of zero. *)
Lemma py_int_error (x : Q) :
  Qabs (inject_Z (py_int x) - x) < 1 /\ Qabs (inject_Z (py_int x)) <= Qabs x.
Proof.
  destruct (Qlt_le_dec x 0) as [Hneg|Hpos].
  - rewrite py_int_nonpos by lra.
    pose proof (Qfloor_le (- x)) as H1. pose proof (Qlt_floor (- x)) as H2.
    rewrite inject_Z_plus in H2. change (inject_Z 1) with 1 in H2.
    assert (0 <= Qfloor (- x))%Z as H0.
    { change 0%Z with (Qfloor 0). apply Qfloor_resp_le. lra. }
    rewrite Zle_Qle in H0. change (inject_Z 0) with 0 in H0.
    rewrite inject_Z_opp. split.
    + apply Qabs_Qlt_condition. split; lra.
    + rewrite (Qabs_neg x) by lra. apply Qabs_Qle_condition. split; lra.
  - rewrite py_int_nonneg by assumption.
    pose proof (Qfloor_le x) as H1. pose proof (Qlt_floor x) as H2.
    rewrite inject_Z_plus in H2. change (inject_Z 1) with 1 in H2.
    assert (0 <= Qfloor x)%Z as H0.
    { change 0%Z with (Qfloor 0). now apply Qfloor_resp_le. }
    rewrite Zle_Qle in H0. change (inject_Z 0) with 0 in H0.
    split.
    + apply Qabs_Qlt_condition. split; lra.
    + rewrite (Qabs_pos x) by assumption. apply Qabs_Qle_condition. split; lra.
Qed.

(** A reading sent as [int(x * 100)] and read back as [n / 100.0]. *)
Lemma hundredths_error (x : Q) :
  Qabs (inject_Z (py_int (x * 100)) / 100 - x) < 0.01 /\
  Qabs (inject_Z (py_int (x * 100)) / 100) <= Qabs x.
Proof.
  destruct (py_int_error (x * 100)) as [H1 H2].
  set (k := inject_Z (py_int (x * 100))) in *. clearbody k.
  apply Qabs_Qlt_condition in H1. destruct H1 as [H1a H1b].
  split.
  - apply Qabs_Qlt_condition.
    assert (k / 100 == k * 0.01) as -> by field. split; lra.
  - assert (k / 100 == k * 0.01) as -> by field.
    destruct (Qlt_le_dec x 0) as [Hneg|Hpos].
    + rewrite (Qabs_neg x) by lra. rewrite (Qabs_neg (x * 100)) in H2 by lra.
      apply Qabs_Qle_condition in H2. apply Qabs_Qle_condition. split; lra.
    + rewrite (Qabs_pos x) by lra. rewrite (Qabs_pos (x * 100)) in H2 by lra.
      apply Qabs_Qle_condition in H2. apply Qabs_Qle_condition. split; lra.
Qed.

(** X18: a reading that goes to the registry and comes back is not the one
    that was sent: with the contract loaded, [submit_weather_data] sends
    hundredths for temperature, wind speed and precipitation and whole
    units for humidity and pressure.  For a temperature, wind speed and
    precipitation of at most 10^6 in absolute value, when the registry
    holds what was sent, [get_weather_data] returns a temperature, wind
    speed and precipitation less than 0.0101 away from the ones sent, and
    a humidity and pressure less than 1 away and not further from zero
    than the ones sent.  (Cutting the fraction costs less than 0.01; the
    rest stands for the rounding of [x * 100] and of [n / 100.0] in
    binary64.) *)
Theorem registry_keeps_two_decimals (send_transaction : Submission -> option string)
    (location weather_type ipfs_hash : string)
    (temperature humidity pressure wind_speed precipitation : Q) :
  Qabs temperature <= 1000000 ->
  Qabs wind_speed <= 1000000 ->
  Qabs precipitation <= 1000000 ->
  exists sent,
    submit_weather_data true send_transaction location temperature humidity pressure
      wind_speed precipitation weather_type ipfs_hash
    = Returns (send_transaction sent) /\
    forall result,
      entry_location result = sub_location sent ->
      entry_temperature result = temp_int sent ->
      entry_humidity result = humidity_int sent ->
      entry_pressure result = pressure_int sent ->
      entry_wind_speed result = wind_int sent ->
      entry_precipitation result = precip_int sent ->
      entry_weather_type result = sub_weather_type sent ->
      exists reading,
        get_weather_data true (Some result) = Some reading /\
        rd_location reading = location /\
        rd_weather_type reading = weather_type /\
        Qabs (rd_temperature reading - temperature) < 0.0101 /\
        Qabs (rd_wind_speed reading - wind_speed) < 0.0101 /\
        Qabs (rd_precipitation reading - precipitation) < 0.0101 /\
        Qabs (inject_Z (rd_humidity reading) - humidity) < 1 /\
        Qabs (inject_Z (rd_humidity reading)) <= Qabs humidity /\
        Qabs (inject_Z (rd_pressure reading) - pressure) < 1 /\
        Qabs (inject_Z (rd_pressure reading)) <= Qabs pressure.
Proof.
  intros _ _ _.
  eexists. split; [reflexivity|].
  cbn [sub_location temp_int humidity_int pressure_int wind_int precip_int sub_weather_type].
  intros result Hl Ht Hh Hp Hw Hr Hy.
  eexists. split; [reflexivity|].
  cbn [rd_location rd_weather_type rd_temperature rd_wind_speed rd_precipitation
       rd_humidity rd_pressure].
  rewrite Hl, Ht, Hh, Hp, Hw, Hr, Hy.
  destruct (hundredths_error temperature) as [Ht1 _],
    (hundredths_error wind_speed) as [Hw1 _],
    (hundredths_error precipitation) as [Hr1 _],
    (py_int_error humidity), (py_int_error pressure).
  repeat split; try assumption; lra.
Qed.

Lemma registry_keeps_two_decimals_witness :
  Qabs 0.29 <= 1000000 /\ Qabs 10 <= 1000000 /\ Qabs 0 <= 1000000 /\
  exists sent,
    submit_weather_data true accepting "Houston, US"
      0.29 50 1000 10 0 "rain" "Qm"
    = Returns (accepting sent).
Proof.
  assert (Qabs 0.29 <= 1000000) as H1 by (vm_compute; discriminate).
  assert (Qabs 10 <= 1000000) as H2 by (vm_compute; discriminate).
  assert (Qabs 0 <= 1000000) as H3 by (vm_compute; discriminate).
  split; [exact H1|]. split; [exact H2|]. split; [exact H3|].
  destruct (registry_keeps_two_decimals accepting "Houston, US"
              "rain" "Qm" 0.29 50 1000 10 0 H1 H2 H3) as (sent & Hsent & _).
  exists sent. exact Hsent.
Defined.

(** ** Edge cases of the field predictor *)






(** ** The storm alert of the sweep *)

Lemma fold_Qmax2_In (l : list Q) (x : Q) : In (fold_left Qmax2 l x) (x :: l).
Proof.
  revert x. induction l as [|y l IH]; intro x; cbn [fold_left]; [now left|].
  destruct (IH (Qmax2 x y)) as [H|H]; [|right; now right].
  rewrite <- H. unfold Qmax2. destruct (Qltb x y); [right|]; now left.
Qed.

(** [min(1.0, u)] against a threshold below 1. *)
Lemma py_min_above (u limit : Q) :
  limit < 1 ->
  fgt (py_min (Num 1) (Num u)) (Num limit) = true <-> limit < u.
Proof.
  intro Hlimit. unfold py_min, fgt, flt.
  destruct (Qltb u 1) eqn:E.
  - now rewrite Qltb_lt.
  - apply Qltb_ge in E. rewrite Qltb_lt. split; intro; lra.
Qed.

Lemma py_min_Num (u : Q) : exists q, py_min (Num 1) (Num u) = Num q.
Proof. unfold py_min, flt. destruct (Qltb u 1); eauto. Qed.

(** [max(a, b)] of two numbers against a threshold. *)
Lemma py_max_above (a b : fl) (limit : Q) :
  (exists x, a = Num x) -> (exists y, b = Num y) ->
  fgt (py_max a b) (Num limit) = true
  <-> fgt a (Num limit) = true \/ fgt b (Num limit) = true.
Proof.
  intros [x ->] [y ->]. unfold py_max, fgt, flt.
  destruct (Qltb x y) eqn:E; [apply Qltb_lt in E|apply Qltb_ge in E];
    rewrite !Qltb_lt; split; intro H; try tauto; destruct H; auto; lra.
Qed.

Lemma storm_score_of_rows (rows earlier : list WeatherData) (w0 w1 w2 : WeatherData) :
  rows = earlier ++ [w0; w1; w2] ->
  exists strongest,
    In strongest (map wd_wind_speed (tail 6 rows)) /\
    (forall w, In w (tail 6 rows) -> wd_wind_speed w <= strongest) /\
    storm_score (map to_dict rows)
    = py_max (py_min (Num 1) (Num (strongest / 60)))
             (py_min (Num 1)
                     (fdiv (py_max (Num 0) (Num (wd_pressure w0 - wd_pressure w2)))
                           (Num 20))).
Proof.
  intro Hrows.
  assert (rows <> []) as Hne by (rewrite Hrows; now destruct earlier).
  unfold storm_score.
  rewrite !has_column_to_dict; [|simpl; auto 10|assumption|simpl; auto 10|assumption].
  cbn [andb].
  rewrite (series_to_dict "wind_speed" wd_wind_speed) by reflexivity.
  rewrite (series_to_dict "pressure" wd_pressure) by reflexivity.
  rewrite !tail_map.
  assert (tail 3 rows = [w0; w1; w2]) as ->
    by (rewrite Hrows; now apply tail_app_exact).
  cbn [map iloc_first iloc_last hd List.last fsub lift2].
  unfold series_max. rewrite (dropna_map_Num wd_wind_speed).
  destruct (tail 6 rows) as [|w ws] eqn:Htail.
  { exfalso. apply (f_equal (@length _)) in Htail. rewrite length_tail in Htail.
    rewrite Hrows, length_app in Htail. cbn [length] in Htail. lia. }
  cbn [map]. exists (fold_left Qmax2 (map wd_wind_speed ws) (wd_wind_speed w)).
  split; [apply (fold_Qmax2_In (map wd_wind_speed ws) (wd_wind_speed w))|].
  split; [|reflexivity].
  destruct (fold_Qmax2_ge (map wd_wind_speed ws) (wd_wind_speed w)) as [H1 H2].
  intros r [<-|Hr]; [exact H1|]. apply H2. now apply in_map.
Qed.

Lemma storm_score_above (rows earlier : list WeatherData) (w0 w1 w2 : WeatherData)
    (limit : Q) :
  rows = earlier ++ [w0; w1; w2] ->
  0 <= limit -> limit < 1 ->
  fgt (storm_score (map to_dict rows)) (Num limit) = true
  <-> (exists w, In w (tail 6 rows) /\ limit * 60 < wd_wind_speed w) \/
      limit * 20 < wd_pressure w0 - wd_pressure w2.
Proof.
  intros Hrows H0 H1.
  destruct (storm_score_of_rows rows earlier w0 w1 w2 Hrows)
    as (strongest & Hin & Hmax & ->).
  set (drop := wd_pressure w0 - wd_pressure w2).
  assert (exists f, py_max (Num 0) (Num drop) = Num f /\
                    (limit < f / 20 <-> limit * 20 < drop)) as (f & -> & Hf).
  { unfold py_max, fgt, flt. destruct (Qltb 0 drop) eqn:E.
    - eexists. split; [reflexivity|].
      assert (drop == drop / 20 * 20) as Hd by field.
      set (u := drop / 20) in *. clearbody u. split; intro; lra.
    - apply Qltb_ge in E. eexists. split; [reflexivity|].
      assert (0 / 20 == 0) as E0 by reflexivity. rewrite E0. split; intro; lra. }
  cbn [fdiv lift2].
  rewrite py_max_above by apply py_min_Num.
  rewrite !py_min_above by assumption. rewrite Hf.
  apply or_iff_compat_r.
  split.
  - intro H. apply in_map_iff in Hin. destruct Hin as (w & Hw & Hin).
    exists w. split; [exact Hin|]. rewrite Hw.
    assert (strongest == strongest / 60 * 60) as Hs by field.
    set (u := strongest / 60) in *. clearbody u. lra.
  - intros (w & Hw & Hlimit). pose proof (Hmax w Hw) as Hle.
    assert (strongest == strongest / 60 * 60) as Hs by field.
    set (u := strongest / 60) in *. clearbody u. lra.
Qed.

(** X21: with more than ten rows, the pressures of the third-last and of
    the last row between 0 and 10000 hPa, the pattern analysis stores a
    storm alert when one of the last six rows has a wind speed of 42.01
    km/h or more, or the pressure of the last row is 14.01 hPa or more
    below that of the third-last row; it stores none when these six wind
    speeds are all 41.99 km/h or less and the drop is 13.99 hPa or less.
    The alert is of severity "high" when a wind speed is 48.01 km/h or
    more or the drop 16.01 hPa or more, and "medium" when the wind speeds
    are all 47.99 km/h or less and the drop is 15.99 hPa or less.  The
    thresholds of the code are 42 and 48 km/h, 14 and 16 hPa; the margins
    stand for the rounding of binary64. *)
Theorem storm_alert_wind_or_pressure (completion : AlertData -> option string)
    (recent_data earlier : list WeatherData) (w0 w1 w2 : WeatherData) (db : Session) :
  (10 < length recent_data)%nat ->
  recent_data = earlier ++ [w0; w1; w2] ->
  0 <= wd_pressure w0 <= 10000 ->
  0 <= wd_pressure w2 <= 10000 ->
  exists new,
    _perform_pattern_analysis completion recent_data db = db ++ new /\
    ((exists w, In w (tail 6 recent_data) /\ 42.01 <= wd_wind_speed w) \/
     14.01 <= wd_pressure w0 - wd_pressure w2 ->
     exists a, In a new /\ wa_alert_type a = "storm"%string) /\
    ((forall w, In w (tail 6 recent_data) -> wd_wind_speed w <= 41.99) ->
     wd_pressure w0 - wd_pressure w2 <= 13.99 ->
     forall a, In a new -> wa_alert_type a <> "storm"%string) /\
    (forall a, In a new -> wa_alert_type a = "storm"%string ->
               ((exists w, In w (tail 6 recent_data) /\ 48.01 <= wd_wind_speed w) \/
                16.01 <= wd_pressure w0 - wd_pressure w2 ->
                wa_severity a = "high"%string) /\
               ((forall w, In w (tail 6 recent_data) -> wd_wind_speed w <= 47.99) ->
                wd_pressure w0 - wd_pressure w2 <= 15.99 ->
                wa_severity a = "medium"%string)).
Proof.
  intros Hlen Hrows _ _.
  exists (flat_map (alerts_of completion) (_assess_risks (map to_dict recent_data))).
  split.
  { unfold _perform_pattern_analysis.
    assert ((10 <? length recent_data)%nat = true) as -> by now apply Nat.ltb_lt.
    rewrite analysis_risk_assessment by (destruct recent_data; [simpl in Hlen; lia|discriminate]).
    apply check_risk_thresholds_flat_map. }
  destruct (risk_row completion (map to_dict recent_data) "storm_risk"
              (storm_score (map to_dict recent_data))) as [Hrow Hsev].
  { rewrite assess_risks_items. simpl. auto 10. }
  change (replace "_risk" "" "storm_risk") with "storm"%string in Hrow, Hsev.
  pose proof (storm_score_above recent_data earlier w0 w1 w2 0.7 Hrows
                ltac:(lra) ltac:(lra)) as H07.
  pose proof (storm_score_above recent_data earlier w0 w1 w2 0.8 Hrows
                ltac:(lra) ltac:(lra)) as H08.
  rewrite H07 in Hrow.
  split; [|split].
  - intro H. apply Hrow.
    destruct H as [(w & Hw & H)|H]; [left; exists w; split; [exact Hw|lra]|right; lra].
  - intros Hwind Hdrop a Ha Ht.
    destruct (proj1 Hrow (ex_intro _ a (conj Ha Ht))) as [(w & Hw & H)|H].
    + specialize (Hwind w Hw). lra.
    + lra.
  - intros a Ha Ht. specialize (Hsev a Ha Ht). rewrite H08 in Hsev.
    split.
    + intro H. apply Hsev.
      destruct H as [(w & Hw & H)|H]; [left; exists w; split; [exact Hw|lra]|right; lra].
    + intros Hwind Hdrop.
      destruct (sweep_row_severity completion _ a Ha) as [Hhigh|Hmedium];
        [|exact Hmedium].
      destruct (proj1 Hsev Hhigh) as [(w & Hw & H)|H].
      * specialize (Hwind w Hw). lra.
      * lra.
Qed.

Lemma storm_alert_wind_or_pressure_witness :
  (10 < length gale)%nat /\
  gale = repeat houston_row 8 ++ [houston_row; houston_row; gale_row] /\
  0 <= wd_pressure houston_row <= 10000 /\
  0 <= wd_pressure gale_row <= 10000 /\
  exists new,
    _perform_pattern_analysis unreachable gale [] = [] ++ new /\
    exists a, In a new /\ wa_alert_type a = "storm"%string /\
              wa_severity a = "high"%string.
Proof.
  assert (10 < length gale)%nat as H1 by (simpl; lia).
  assert (gale = repeat houston_row 8 ++ [houston_row; houston_row; gale_row]) as H2
    by reflexivity.
  assert (0 <= wd_pressure houston_row <= 10000) as H3 by (cbn; lra).
  assert (0 <= wd_pressure gale_row <= 10000) as H4 by (cbn; lra).
  split; [exact H1|]. split; [exact H2|]. split; [exact H3|]. split; [exact H4|].
  destruct (storm_alert_wind_or_pressure unreachable gale (repeat houston_row 8)
              houston_row houston_row gale_row [] H1 H2 H3 H4)
    as (new & Hnew & Hyes & _ & Hsev).
  exists new. split; [exact Hnew|].
  assert (In gale_row (tail 6 gale)) as Hin by (simpl; auto 10).
  assert (48.01 <= wd_wind_speed gale_row) as Hwind by (cbn; lra).
  destruct Hyes as (a & Ha & Ht).
  { left. exists gale_row. split; [exact Hin|cbn; lra]. }
  exists a. split; [exact Ha|]. split; [exact Ht|].
  apply (Hsev a Ha Ht). left. exists gale_row. split; [exact Hin|exact Hwind].
Defined.

(** ** The drought alert of the sweep *)

Lemma series_mean_of_rows (field : WeatherData -> Q) (rows : list WeatherData) :
  rows <> [] ->
  series_mean (map (fun w => Num (field w)) (tail 720 rows))
  = Num (recent_mean field rows).
Proof.
  intro Hne. unfold series_mean, recent_mean.
  rewrite (dropna_map_Num field).
  destruct (tail 720 rows) as [|w ws] eqn:E.
  - exfalso. apply (f_equal (@length _)) in E. rewrite length_tail in E.
    destruct rows; [congruence|]. cbn [length] in E. lia.
  - cbn [map length]. now rewrite length_map.
Qed.

Lemma drought_score_of_rows (rows : list WeatherData) :
  rows <> [] ->
  drought_score (map to_dict rows)
  = fdiv (fadd (fsub (Num 1)
                     (py_min (Num 1) (Num (recent_mean wd_precipitation rows / 5))))
               (py_min (Num 1)
                       (fdiv (py_max (Num 0) (Num (recent_mean wd_temperature rows - 25)))
                             (Num (35 - 25)))))
         (Num 2).
Proof.
  intro Hne. unfold drought_score.
  rewrite !has_column_to_dict; [|simpl; auto 10|assumption|simpl; auto 10|assumption].
  cbn [andb].
  rewrite (series_to_dict "precipitation" wd_precipitation) by reflexivity.
  rewrite (series_to_dict "temperature" wd_temperature) by reflexivity.
  rewrite !tail_map, !series_mean_of_rows by assumption.
  reflexivity.
Qed.

(** The drought score against the threshold of the sweep, for a mean
    precipitation [P] that is not negative and a mean temperature [T]. *)
Lemma drought_above (P T : Q) :
  0 <= P ->
  let score :=
    fdiv (fadd (fsub (Num 1) (py_min (Num 1) (Num (P / 5))))
               (py_min (Num 1)
                       (fdiv (py_max (Num 0) (Num (T - 25))) (Num (35 - 25)))))
         (Num 2) in
  (fgt score (Num 0.7) = true -> 29 < T /\ P < 3) /\
  (P == 0 -> 29 < T -> fgt score (Num 0.7) = true).
Proof.
  intros HP score. unfold score, py_min, py_max, fgt, flt.
  assert (P == P / 5 * 5) as Hp by field.
  set (p := P / 5) in *. clearbody p.
  destruct (Qltb p 1) eqn:Ep; [apply Qltb_lt in Ep|apply Qltb_ge in Ep];
    (destruct (Qltb 0 (T - 25)) eqn:Et; [apply Qltb_lt in Et|apply Qltb_ge in Et]);
    cbn [fdiv fadd fsub lift2].
  all: try (assert (T - 25 == (T - 25) / (35 - 25) * 10) as Ht by field;
            set (t := (T - 25) / (35 - 25)) in *; clearbody t).
  all: try (assert (0 / (35 - 25) == 0) as Hz by reflexivity;
            set (z := 0 / (35 - 25)) in *; clearbody z).
  all: repeat match goal with
         | |- context [Qltb ?a ?b] =>
             let E := fresh "E" in
             destruct (Qltb a b) eqn:E; [apply Qltb_lt in E|apply Qltb_ge in E]
         end;
       cbn [fdiv fadd fsub lift2].
  all: match goal with
       | |- context [Qltb _ (?x / 2)] =>
           let Hx := fresh "Hx" in let u := fresh "u" in
           assert (x == x / 2 * 2) as Hx by field;
           set (u := x / 2) in *; clearbody u
       end.
  all: rewrite Qltb_lt.
  all: split; [intro; split; lra|intros; lra].
Qed.

(** X22: with more than ten rows whose precipitation is not negative and
    whose temperature is between -100 and 100 degrees, the pattern
    analysis stores a drought alert only when, over the last 720 rows, the
    mean temperature is above 28.99 degrees and the mean precipitation
    below 3.01 mm; when these rows have no precipitation at all, it stores
    one as soon as the mean temperature is 29.01 degrees or more.  The
    thresholds of the code are 29 degrees and 3 mm; the margins stand for
    the rounding of the means in binary64. *)
Theorem drought_alert_needs_heat_and_dryness (completion : AlertData -> option string)
    (recent_data : list WeatherData) (db : Session) :
  (10 < length recent_data)%nat ->
  (forall w, In w recent_data ->
             0 <= wd_precipitation w /\ -100 <= wd_temperature w <= 100) ->
  exists new,
    _perform_pattern_analysis completion recent_data db = db ++ new /\
    ((exists a, In a new /\ wa_alert_type a = "drought"%string) ->
     28.99 < recent_mean wd_temperature recent_data /\
     recent_mean wd_precipitation recent_data < 3.01) /\
    (recent_mean wd_precipitation recent_data == 0 ->
     29.01 <= recent_mean wd_temperature recent_data ->
     exists a, In a new /\ wa_alert_type a = "drought"%string).
Proof.
  intros Hlen Hrows.
  assert (recent_data <> []) as Hne
    by (destruct recent_data; [simpl in Hlen; lia|discriminate]).
  exists (flat_map (alerts_of completion) (_assess_risks (map to_dict recent_data))).
  split.
  { unfold _perform_pattern_analysis.
    assert ((10 <? length recent_data)%nat = true) as -> by now apply Nat.ltb_lt.
    rewrite analysis_risk_assessment by (destruct recent_data; [congruence|discriminate]).
    apply check_risk_thresholds_flat_map. }
  destruct (risk_row completion (map to_dict recent_data) "drought_risk"
              (drought_score (map to_dict recent_data))) as [Hrow _].
  { rewrite assess_risks_items. simpl. auto 10. }
  change (replace "_risk" "" "drought_risk") with "drought"%string in Hrow.
  rewrite (drought_score_of_rows recent_data Hne) in Hrow.
  assert (0 <= recent_mean wd_precipitation recent_data) as HP.
  { unfold recent_mean. apply Qle_shift_div_l.
    - apply of_nat_pos. rewrite length_tail. lia.
    - rewrite Qmult_0_l. apply Qsum_nonneg. apply List.Forall_forall.
      intros q Hq. apply in_map_iff in Hq. destruct Hq as (w & <- & Hw).
      apply Hrows. eapply In_tail, Hw. }
  destruct (drought_above (recent_mean wd_precipitation recent_data)
              (recent_mean wd_temperature recent_data) HP) as [Hneed Hdry].
  split.
  - intro Ha. destruct (Hneed (proj1 Hrow Ha)). split; lra.
  - intros Hzero Hhot. apply Hrow, Hdry; [exact Hzero|lra].
Qed.

Lemma drought_alert_needs_heat_and_dryness_witness :
  (10 < length dry_spell)%nat /\
  (forall w, In w dry_spell ->
             0 <= wd_precipitation w /\ -100 <= wd_temperature w <= 100) /\
  exists new,
    _perform_pattern_analysis unreachable dry_spell [] = [] ++ new /\
    exists a, In a new /\ wa_alert_type a = "drought"%string.
Proof.
  assert (10 < length dry_spell)%nat as H1 by (simpl; lia).
  assert (forall w, In w dry_spell ->
                    0 <= wd_precipitation w /\ -100 <= wd_temperature w <= 100) as H2.
  { intros w Hw. apply repeat_spec in Hw. subst w. cbn. lra. }
  split; [exact H1|]. split; [exact H2|].
  destruct (drought_alert_needs_heat_and_dryness unreachable dry_spell [] H1 H2)
    as (new & Hnew & _ & Hdry).
  exists new. split; [exact Hnew|].
  apply Hdry; [reflexivity|vm_compute; discriminate].
Defined.

(** ** The summary of an analysis *)

Lemma unique_In (seen s : list (option string)) (x : option string) :
  In x (unique seen s) <-> In x s /\ ~ In x seen.
Proof.
  revert seen. induction s as [|y s IH]; intro seen; cbn [unique].
  - simpl. tauto.
  - destruct (bool_decide (y ∈ seen)) eqn:E.
    + apply bool_decide_eq_true in E. apply list_elem_of_In in E.
      rewrite IH. simpl. split; [tauto|]. intros [[->|H] Hn]; tauto.
    + apply bool_decide_eq_false in E. rewrite list_elem_of_In in E.
      cbn [In]. rewrite IH. cbn [In].
      destruct (decide (y = x)) as [->|Hne]; [tauto|]. tauto.
Qed.

Lemma unique_NoDup (seen s : list (option string)) : List.NoDup (unique seen s).
Proof.
  revert seen. induction s as [|y s IH]; intro seen; cbn [unique]; [constructor|].
  destruct (bool_decide (y ∈ seen)); [apply IH|].
  constructor; [|apply IH]. rewrite unique_In. simpl. tauto.
Qed.

(** The least value of a string column, for a total and transitive order. *)
Lemma str_least_from (le : string -> string -> bool) (s : list (option string))
    (acc : option string) (r : string) :
  (forall a b, le a b = true \/ le b a = true) ->
  (forall a b c, le a b = true -> le b c = true -> le a c = true) ->
  fold_left (fun acc x =>
               match acc, x with
               | Some a, Some b => Some (if le a b then a else b)
               | None, _ => x
               | _, None => acc
               end) s acc = Some r ->
  (forall a, acc = Some a -> le r a = true) /\
  (forall b, In (Some b) s -> le r b = true).
Proof.
  intros Htotal Htrans. revert acc.
  assert (forall a, le a a = true) as Hrefl by (intro a; destruct (Htotal a a); assumption).
  induction s as [|x s IH]; intros acc; cbn [fold_left].
  - intros ->. split; [intros a [= <-]; apply Hrefl|intros b []].
  - intro H. apply IH in H. destruct H as [Hacc Hrest].
    destruct acc as [a|], x as [b|].
    + specialize (Hacc _ eq_refl). destruct (le a b) eqn:E.
      * split; [intros ? [= <-]; exact Hacc|].
        intros c [[= <-]|Hc]; [eapply Htrans; eassumption|now apply Hrest].
      * assert (le b a = true) as E' by (destruct (Htotal a b); congruence).
        split; [intros ? [= <-]; eapply Htrans; eassumption|].
        intros c [[= <-]|Hc]; [exact Hacc|now apply Hrest].
    + split; [intros ? [= <-]; now apply Hacc|].
      intros c [Hc|Hc]; [discriminate|now apply Hrest].
    + split; [discriminate|].
      intros c [[= <-]|Hc]; [now apply Hacc|now apply Hrest].
    + split; [discriminate|].
      intros c [Hc|Hc]; [discriminate|now apply Hrest].
Qed.

Lemma analysis_summary (df : DataFrame) (a : Analysis) :
  analyze_weather_patterns df = Result a ->
  summary a =
  {| total_records := length df;
     date_range :=
       (if has_column "timestamp" df
        then str_least String.leb (str_series "timestamp" df) else None,
        if has_column "timestamp" df
        then str_least (fun a b => String.leb b a) (str_series "timestamp" df) else None);
     locations :=
       if has_column "location" df then unique [] (str_series "location" df) else [] |}.
Proof.
  intro Ha. destruct df as [|m df]; [discriminate|]. injection Ha as <-. reflexivity.
Qed.

(** X24: the summary of an analysis counts the rows of the batch; its
    locations are those of the rows, each listed once; and when it gives a
    date range, no timestamp of the batch is before its start or after its
    end. *)
Theorem summary_is_consistent (df : DataFrame) (a : Analysis) :
  analyze_weather_patterns df = Result a ->
  total_records (summary a) = length df /\
  List.NoDup (locations (summary a)) /\
  (has_column "location" df = true ->
   forall l, In l (locations (summary a))
             <-> exists m, In m df /\ to_opt (location m) = l) /\
  (forall first_day last_day,
      date_range (summary a) = (Some first_day, Some last_day) ->
      forall m t, In m df -> timestamp m = Val t ->
                  String.leb first_day t = true /\ String.leb t last_day = true).
Proof.
  intro Ha. rewrite (analysis_summary df a Ha).
  cbn [total_records locations date_range].
  split; [reflexivity|]. split.
  { destruct (has_column "location" df); [apply unique_NoDup|constructor]. }
  split.
  { intros ->. intro l. rewrite unique_In. unfold str_series. rewrite in_map_iff.
    split; [intros [(m & Hm & Hin) _]; eauto|intros (m & Hin & Hm); split; eauto]. }
  intros first_day last_day Hrange m t Hm Ht.
  destruct (has_column "timestamp" df); [|discriminate].
  injection Hrange as Hfirst Hlast.
  assert (In (Some t) (str_series "timestamp" df)) as Hin.
  { unfold str_series. apply in_map_iff. exists m. split; [|exact Hm].
    cbn. now rewrite Ht. }
  split.
  - apply (str_least_from String.leb _ None first_day) in Hfirst.
    + now apply Hfirst.
    + apply String.leb_total.
    + apply string_leb_trans.
  - apply (str_least_from (fun a b => String.leb b a) _ None last_day) in Hlast.
    + now apply Hlast.
    + intros x y. destruct (String.leb_total x y); auto.
    + intros x y z Hxy Hyz. eapply string_leb_trans; eassumption.
Qed.

Lemma summary_is_consistent_witness :
  exists a,
    analyze_weather_patterns newest_first = Result a /\
    total_records (summary a) = length newest_first /\
    List.NoDup (locations (summary a)).
Proof.
  destruct (analyze_nonempty newest_first) as (a & Ha & _); [discriminate|].
  exists a. split; [exact Ha|].
  destruct (summary_is_consistent newest_first a Ha) as (H1 & H2 & _).
  split; assumption.
Defined.

(** ** The scores of stored rows *)

(** X25: for stored rows whose precipitation is not negative, each of the
    four risk scores lies in [0, 1], whatever the magnitude of the
    readings. *)
Theorem stored_scores_in_unit_interval (rows : list WeatherData) :
  (forall w, In w rows -> 0 <= wd_precipitation w) ->
  forall (k : string) (v : fl),
    In (k, v) (_assess_risks (map to_dict rows)) -> in_unit v.
Proof.
  intros Hrain k v.
  assert (nonneg_precipitation (map to_dict rows)) as Hpos.
  { unfold nonneg_precipitation. apply List.Forall_forall. intros m Hm q Hq.
    apply in_map_iff in Hm. destruct Hm as (w & <- & Hw).
    injection Hq as <-. now apply Hrain. }
  rewrite assess_risks_items. simpl.
  intros [H|[H|[H|[H|[]]]]]; injection H as _ <-.
  - now apply flood_score_unit.
  - now apply drought_score_unit.
  - apply storm_score_unit.
  - apply extreme_temperature_score_unit.
Qed.

Lemma stored_scores_in_unit_interval_witness :
  (forall w, In w houston -> 0 <= wd_precipitation w) /\
  forall (k : string) (v : fl),
    In (k, v) (_assess_risks (map to_dict houston)) -> in_unit v.
Proof.
  assert (forall w, In w houston -> 0 <= wd_precipitation w) as H.
  { intros w Hw. apply repeat_spec in Hw. subst w. cbn. lra. }
  split; [exact H|]. exact (stored_scores_in_unit_interval houston H).
Defined.

(** ** Recency of the storm score, again *)

(** X26: for two batches that are identical except that the last sample's
    wind speed is raised from 10 to 100 km/h, and whose pressure column,
    when there is one, holds at least one number, the storm score of the
    second batch is at least the storm score of the first.  (On a pressure
    column of [None] only there is no score: the block raises.) *)
Theorem storm_risk_recency (earlier : DataFrame) (m : Measurement) :
  (has_column "pressure" (earlier ++ [m]) = true ->
   holds_number "pressure" (earlier ++ [m])) ->
  exists r1 r2,
    od_get "storm_risk" (_assess_risks (earlier ++ [with_wind_speed 10 m])) = Some r1 /\
    od_get "storm_risk" (_assess_risks (earlier ++ [with_wind_speed 100 m])) = Some r2 /\
    fle r1 r2.
Proof. intros _. apply storm_score_recency. Qed.

Lemma storm_risk_recency_witness :
  (has_column "pressure" ([] ++ [sample (Val 20) (Val 50) (Val 1000) (Val 10) (Val 0)]) = true ->
   holds_number "pressure" ([] ++ [sample (Val 20) (Val 50) (Val 1000) (Val 10) (Val 0)])) /\
  exists r1 r2,
    od_get "storm_risk"
      (_assess_risks ([] ++ [with_wind_speed 10
                               (sample (Val 20) (Val 50) (Val 1000) (Val 10) (Val 0))]))
    = Some r1 /\
    od_get "storm_risk"
      (_assess_risks ([] ++ [with_wind_speed 100
                               (sample (Val 20) (Val 50) (Val 1000) (Val 10) (Val 0))]))
    = Some r2 /\
    fle r1 r2.
Proof.
  assert (has_column "pressure"
            ([] ++ [sample (Val 20) (Val 50) (Val 1000) (Val 10) (Val 0)]) = true ->
          holds_number "pressure"
            ([] ++ [sample (Val 20) (Val 50) (Val 1000) (Val 10) (Val 0)])) as H.
  { intros _. eexists. exists 1000. split; [left; reflexivity|reflexivity]. }
  split; [exact H|].
  exact (storm_risk_recency [] (sample (Val 20) (Val 50) (Val 1000) (Val 10) (Val 0)) H).
Defined.

(** ** The prediction loop in binary64 *)

Lemma prediction_loop_raised (df : list Binary64.Row) (cols : list string)
    (exception : string) :
  fold_left (fun (acc : Binary64.raising (gmap string Binary64.FieldPrediction)) param =>
               Binary64.bind acc (fun predictions =>
                 if Binary64.in_columns param df
                 then Binary64.bind
                        (Binary64.predict_field (Binary64.get_column param df))
                        (fun p => Binary64.Returned (<[param := p]> predictions))
                 else Binary64.Returned predictions))
            cols (Binary64.Raised exception)
  = Binary64.Raised exception.
Proof. induction cols as [|c cols IH]; [reflexivity|exact IH]. Qed.

(** Where an entry of the dict the loop returns comes from. *)
Lemma prediction_loop_lookup (df : list Binary64.Row) (cols : list string)
    (start result : gmap string Binary64.FieldPrediction) (param : string)
    (p : Binary64.FieldPrediction) :
  fold_left (fun (acc : Binary64.raising (gmap string Binary64.FieldPrediction)) param =>
               Binary64.bind acc (fun predictions =>
                 if Binary64.in_columns param df
                 then Binary64.bind
                        (Binary64.predict_field (Binary64.get_column param df))
                        (fun p => Binary64.Returned (<[param := p]> predictions))
                 else Binary64.Returned predictions))
            cols (Binary64.Returned start)
  = Binary64.Returned result ->
  result !! param = Some p ->
  start !! param = Some p \/
  Binary64.predict_field (Binary64.get_column param df) = Binary64.Returned p.
Proof.
  revert start. induction cols as [|c cols IH]; intros start Hfold Hp.
  - injection Hfold as <-. now left.
  - cbn [fold_left Binary64.bind] in Hfold.
    destruct (Binary64.in_columns c df).
    + destruct (Binary64.predict_field (Binary64.get_column c df)) as [e|q] eqn:Hc.
      * cbn [Binary64.bind] in Hfold. rewrite prediction_loop_raised in Hfold.
        discriminate Hfold.
      * cbn [Binary64.bind] in Hfold.
        destruct (IH _ Hfold Hp) as [H|H]; [|now right].
        destruct (decide (param = c)) as [->|Hne].
        -- rewrite lookup_insert_eq in H. injection H as ->. now right.
        -- rewrite lookup_insert_ne in H by congruence. now left.
    + apply (IH _ Hfold Hp).
Qed.

(** X27: in binary64, a batch of one or two rows gets an empty
    predictions dict; in a larger one, the entry of a column that pandas
    reads as float64 has the value [v2 + (v2 - v0) / 3], each operation
    rounded to the nearest float, where [v0] and [v2] are the third-last
    and the last value of the column (NaN for [None] or a missing key),
    and the trend "increasing" exactly when [(v2 - v0) / 3] is above
    zero. *)
Theorem float_column_prediction (df : list Binary64.Row) :
  ((0 < length df < 3)%nat -> Binary64.predictions df = Binary64.Returned ∅) /\
  forall (predictions : gmap string Binary64.FieldPrediction) (param : string)
         (p : Binary64.FieldPrediction) (values : list float) (v0 v1 v2 : float),
    Binary64.predictions df = Binary64.Returned predictions ->
    predictions !! param = Some p ->
    Binary64.get_column param df = Binary64.Float64 values ->
    tail 3 values = [v0; v1; v2] ->
    Binary64.value p = (v2 + (v2 - v0) / 3)%float /\
    (Binary64.trend p = "increasing"%string <-> (0 <? (v2 - v0) / 3)%float = true) /\
    (Binary64.trend p = "increasing"%string \/ Binary64.trend p = "decreasing"%string).
Proof.
  split.
  { intro Hlen. unfold Binary64.predictions.
    destruct (3 <=? length df)%nat eqn:E; [apply Nat.leb_le in E; lia|reflexivity]. }
  intros predictions param p values v0 v1 v2 Hloop Hp Hcol Htail.
  unfold Binary64.predictions in Hloop.
  destruct (3 <=? length df)%nat.
  - destruct (prediction_loop_lookup df _ _ _ param p Hloop Hp) as [H|H].
    { rewrite lookup_empty in H. discriminate H. }
    rewrite Hcol in H. unfold Binary64.predict_field in H.
    cbn [Binary64.column_tail] in H. rewrite Htail in H.
    cbn [Binary64.bind Binary64.as_floats List.last hd length] in H.
    injection H as <-.
    cbn [Binary64.value Binary64.trend].
    change (Binary64.of_nat 3) with 3%float.
    split; [reflexivity|].
    destruct (0 <? (v2 - v0) / 3)%float; split; try (split; intro; congruence); auto.
  - injection Hloop as <-. rewrite lookup_empty in Hp. discriminate Hp.
Qed.

Lemma float_column_prediction_witness :
  exists predictions p,
    Binary64.predictions three_floats = Binary64.Returned predictions /\
    predictions !! "temperature"%string = Some p /\
    Binary64.get_column "temperature" three_floats
    = Binary64.Float64 [20%float; 22%float; 25%float] /\
    tail 3 [20%float; 22%float; 25%float] = [20%float; 22%float; 25%float] /\
    Binary64.value p = 26.666666666666668%float.
Proof.
  destruct (Binary64.predict_field (Binary64.get_column "temperature" three_floats))
    as [|p] eqn:Hp; [vm_compute in Hp; discriminate Hp|].
  assert (Binary64.predictions three_floats
          = Binary64.Returned {[ "temperature"%string := p ]}) as Hloop.
  { unfold Binary64.predictions. change (3 <=? length three_floats)%nat with true.
    cbn [fold_left numerical_columns Binary64.bind].
    change (Binary64.in_columns "temperature" three_floats) with true.
    cbv iota. rewrite Hp. cbn [Binary64.bind].
    change (Binary64.in_columns "humidity" three_floats) with false.
    change (Binary64.in_columns "pressure" three_floats) with false.
    change (Binary64.in_columns "wind_speed" three_floats) with false.
    change (Binary64.in_columns "precipitation" three_floats) with false.
    cbv iota. reflexivity. }
  assert ({[ "temperature"%string := p ]} !! "temperature"%string = Some p) as Hget
    by apply lookup_singleton_eq.
  exists {[ "temperature"%string := p ]}, p.
  split; [exact Hloop|]. split; [exact Hget|].
  split; [reflexivity|]. split; [reflexivity|].
  destruct (proj2 (float_column_prediction three_floats) _ "temperature"%string p
              [20%float; 22%float; 25%float] 20%float 22%float 25%float
              Hloop Hget eq_refl eq_refl) as [Hvalue _].
  rewrite Hvalue. reflexivity.
Defined.

(** ** Batches without a temperature value *)

(** X28: in a batch where no row has a temperature value (the key is
    missing or holds [None]) and whose pressure column, when there is one,
    holds at least one number, the extreme-temperature score is exactly
    0.0.  (On a pressure column of [None] only [_assess_risks] raises in
    the storm block, before this score is computed.) *)
Theorem no_temperature_no_extreme_risk (df : DataFrame) :
  Forall (fun m => temperature m = Null \/ temperature m = Absent) df ->
  (has_column "pressure" df = true -> holds_number "pressure" df) ->
  exists r,
    od_get "extreme_temperature_risk" (_assess_risks df) = Some (Num r) /\ r == 0.
Proof.
  intros Hno _.
  destruct (extreme_score_without_values df Hno) as (r & Hr & Hr0).
  exists r. split; [|exact Hr0].
  rewrite assess_risks_items, <- Hr. reflexivity.
Qed.

Lemma no_temperature_no_extreme_risk_witness :
  Forall (fun m => temperature m = Null \/ temperature m = Absent) null_temperature /\
  (has_column "pressure" null_temperature = true ->
   holds_number "pressure" null_temperature) /\
  exists r,
    od_get "extreme_temperature_risk" (_assess_risks null_temperature) = Some (Num r) /\
    r == 0.
Proof.
  assert (Forall (fun m => temperature m = Null \/ temperature m = Absent)
                 null_temperature) as H1 by (repeat constructor; left; reflexivity).
  assert (has_column "pressure" null_temperature = true ->
          holds_number "pressure" null_temperature) as H2.
  { intros _. eexists. exists 1000. split; [left; reflexivity|reflexivity]. }
  split; [exact H1|]. split; [exact H2|].
  exact (no_temperature_no_extreme_risk null_temperature H1 H2).
Defined.

(** ** Columns of [None] *)

(** A column stays a column of Python objects exactly when the batch is
    not empty and every row holds [None] under the key. *)
Lemma object_column (col : string) (df : list Binary64.Row) :
  (exists values, Binary64.get_column col df = Binary64.Object values)
  <-> df <> [] /\ Forall (fun r => Binary64.number_cell col r = Null) df.
Proof.
  unfold Binary64.get_column.
  assert (forallb Binary64.is_none (map (Binary64.number_cell col) df) = true
          <-> Forall (fun r => Binary64.number_cell col r = Null) df) as Hnone.
  { rewrite forallb_forall, List.Forall_forall. split.
    - intros H r Hr. specialize (H _ (in_map _ _ _ Hr)).
      destruct (Binary64.number_cell col r); try discriminate H. reflexivity.
    - intros H c Hc. apply in_map_iff in Hc. destruct Hc as (r & <- & Hr).
      now rewrite (H r Hr). }
  split.
  - intros [values H].
    destruct (forallb Binary64.is_int (map (Binary64.number_cell col) df)) eqn:Hint;
      [discriminate H|].
    destruct (forallb Binary64.is_none (map (Binary64.number_cell col) df)) eqn:Hn;
      [|discriminate H].
    split; [|now apply Hnone].
    intros ->. discriminate Hint.
  - intros [Hne Hall].
    assert (forallb Binary64.is_int (map (Binary64.number_cell col) df) = false) as ->.
    { destruct df as [|r df]; [congruence|].
      cbn [map forallb]. apply List.Forall_inv in Hall. now rewrite Hall. }
    rewrite (proj2 Hnone Hall). eexists. reflexivity.
Qed.

Lemma column_tail_object (n : nat) (s : Binary64.column) :
  (exists values, Binary64.column_tail n s = Binary64.Object values)
  <-> exists values, s = Binary64.Object values.
Proof.
  destruct s; cbn [Binary64.column_tail];
    split; intros [v H]; try discriminate H; eexists; reflexivity.
Qed.

(** X29: the storm block raises exactly when the batch has a wind-speed
    column and every row holds [None] under "pressure": the exception is
    the [TypeError] of [None - None]; in every other case the block gives a
    score. *)
Theorem storm_block_raises_on_null_pressure (df : list Binary64.Row) :
  ((exists exception, Binary64.storm_risk df = Binary64.Raised exception)
   <-> Binary64.in_columns "wind_speed" df = true /\
       df <> [] /\ Forall (fun r => Binary64.row_pressure r = Null) df) /\
  (forall exception, Binary64.storm_risk df = Binary64.Raised exception ->
                     exception = "TypeError"%string) /\
  ((exists score, Binary64.storm_risk df = Binary64.Returned score) \/
   Binary64.storm_risk df = Binary64.Raised "TypeError").
Proof.
  pose proof (object_column "pressure" df) as Hobject.
  change (fun r => Binary64.number_cell "pressure" r = Null)
    with (fun r => Binary64.row_pressure r = Null) in Hobject.
  assert (df <> [] -> Forall (fun r => Binary64.row_pressure r = Null) df ->
          Binary64.in_columns "pressure" df = true) as Hpresent.
  { intros Hne Hall. destruct df as [|r df]; [congruence|].
    unfold Binary64.in_columns. cbn [existsb].
    change (Binary64.number_cell "pressure" r) with (Binary64.row_pressure r).
    apply List.Forall_inv in Hall. now rewrite Hall. }
  unfold Binary64.storm_risk.
  destruct (Binary64.in_columns "wind_speed" df) eqn:Hwind.
  - destruct (Binary64.get_column "pressure" df) as [ints|floats|nones] eqn:Hcol.
    + cbn [andb Binary64.column_tail Binary64.first_minus_last Binary64.bind].
      destruct (Binary64.in_columns "pressure" df);
        (split; [split|split]; [intros [e H]; discriminate H| |intros e H; discriminate H|left; eexists; reflexivity]);
        intros (_ & Hne & Hall); destruct (proj2 Hobject (conj Hne Hall)) as [v Hv];
        discriminate Hv.
    + cbn [andb Binary64.column_tail Binary64.first_minus_last Binary64.bind].
      destruct (Binary64.in_columns "pressure" df);
        (split; [split|split]; [intros [e H]; discriminate H| |intros e H; discriminate H|left; eexists; reflexivity]);
        intros (_ & Hne & Hall); destruct (proj2 Hobject (conj Hne Hall)) as [v Hv];
        discriminate Hv.
    + destruct (proj1 Hobject (ex_intro _ nones eq_refl)) as [Hne Hall].
      rewrite (Hpresent Hne Hall).
      cbn [andb Binary64.column_tail Binary64.first_minus_last Binary64.bind].
      split; [split|split].
      * intros _. auto.
      * intros _. eexists. reflexivity.
      * intros e [= <-]. reflexivity.
      * now right.
  - cbn [andb]. split; [split|split].
    + intros [e H]. discriminate H.
    + intros (H & _). discriminate H.
    + intros e H. discriminate H.
    + left. eexists. reflexivity.
Qed.

Lemma predict_field_raises (s : Binary64.column) :
  (exists exception, Binary64.predict_field s = Binary64.Raised exception)
  <-> exists values, s = Binary64.Object values.
Proof.
  unfold Binary64.predict_field.
  destruct s; cbn [Binary64.column_tail Binary64.bind]; split; intros [v H];
    try discriminate H; eexists; reflexivity.
Qed.

Lemma prediction_loop_raises (df : list Binary64.Row) (cols : list string)
    (start : gmap string Binary64.FieldPrediction) :
  (exists exception,
     fold_left (fun (acc : Binary64.raising (gmap string Binary64.FieldPrediction)) param =>
                  Binary64.bind acc (fun predictions =>
                    if Binary64.in_columns param df
                    then Binary64.bind
                           (Binary64.predict_field (Binary64.get_column param df))
                           (fun p => Binary64.Returned (<[param := p]> predictions))
                    else Binary64.Returned predictions))
               cols (Binary64.Returned start)
     = Binary64.Raised exception)
  <-> exists param, In param cols /\ Binary64.in_columns param df = true /\
                    exists values, Binary64.get_column param df = Binary64.Object values.
Proof.
  revert start. induction cols as [|c cols IH]; intro start.
  - cbn [fold_left]. split; [intros [e H]; discriminate H|intros (p & [] & _)].
  - cbn [fold_left Binary64.bind].
    destruct (Binary64.in_columns c df) eqn:Hc.
    + destruct (Binary64.predict_field (Binary64.get_column c df)) as [e|p] eqn:Hp.
      * cbn [Binary64.bind]. rewrite prediction_loop_raised. split.
        -- intros _. exists c. split; [now left|]. split; [exact Hc|].
           apply predict_field_raises. eauto.
        -- intros _. eauto.
      * cbn [Binary64.bind]. rewrite IH. split.
        -- intros (param & Hin & H). exists param. split; [now right|exact H].
        -- intros (param & [<-|Hin] & Hcol & Hobj).
           ++ apply predict_field_raises in Hobj. destruct Hobj as [e He].
              rewrite Hp in He. discriminate He.
           ++ exists param. auto.
    + rewrite IH. split.
      * intros (param & Hin & H). exists param. split; [now right|exact H].
      * intros (param & [<-|Hin] & Hcol & Hobj).
        -- rewrite Hc in Hcol. discriminate Hcol.
        -- exists param. auto.
Qed.

(** X30: the prediction loop raises exactly when the batch has at least
    three rows and, for one of the five numeric fields, every row holds
    [None]; otherwise it gives the predictions dict. *)
Theorem prediction_loop_raises_on_null_column (df : list Binary64.Row) :
  (exists exception, Binary64.predictions df = Binary64.Raised exception)
  <-> (3 <= length df)%nat /\
      exists param, In param numerical_columns /\
                    Forall (fun r => Binary64.number_cell param r = Null) df.
Proof.
  unfold Binary64.predictions.
  destruct (3 <=? length df)%nat eqn:Hlen.
  - apply Nat.leb_le in Hlen. rewrite prediction_loop_raises. split.
    + intros (param & Hin & _ & Hobj). split; [exact Hlen|].
      exists param. split; [exact Hin|]. now apply object_column.
    + intros (_ & param & Hin & Hall).
      assert (df <> []) as Hne by (intros ->; simpl in Hlen; lia).
      exists param. split; [exact Hin|]. split.
      * destruct df as [|r df]; [congruence|].
        unfold Binary64.in_columns. cbn [existsb].
        apply List.Forall_inv in Hall. now rewrite Hall.
      * apply object_column. auto.
  - apply Nat.leb_gt in Hlen. split.
    + intros [e H]. discriminate H.
    + intros [H _]. lia.
Qed.

Lemma insert_row_all (P : Binary64.Row -> Prop) (r : Binary64.Row)
    (rows : list Binary64.Row) :
  P r -> Forall P rows -> Forall P (Binary64.insert_row r rows).
Proof.
  intros Hr Hrows. induction Hrows as [|r' rows Hr' Hrows IH];
    cbn [Binary64.insert_row]; [repeat constructor; exact Hr|].
  destruct (Binary64.row_le r r'); repeat constructor; assumption.
Qed.

Lemma sorted_rows_all (P : Binary64.Row -> Prop) (df : list Binary64.Row) :
  Forall P df -> Forall P (Binary64.sort_values_timestamp df).
Proof.
  unfold Binary64.sort_values_timestamp.
  induction 1 as [|r rows Hr Hrows IH]; cbn [fold_right]; [constructor|].
  now apply insert_row_all.
Qed.

Lemma insert_row_length (r : Binary64.Row) (rows : list Binary64.Row) :
  length (Binary64.insert_row r rows) = S (length rows).
Proof.
  induction rows as [|r' rows IH]; cbn [Binary64.insert_row]; [reflexivity|].
  destruct (Binary64.row_le r r'); cbn [length]; [reflexivity|now rewrite IH].
Qed.

Lemma sorted_rows_length (df : list Binary64.Row) :
  length (Binary64.sort_values_timestamp df) = length df.
Proof.
  unfold Binary64.sort_values_timestamp.
  induction df as [|r rows IH]; cbn [fold_right]; [reflexivity|].
  now rewrite insert_row_length, IH.
Qed.

(** X31: in a batch of at least two rows with a timestamp column, where
    every row holds [None] under "temperature", [_analyze_trends] raises
    [TypeError], whatever the least-squares solver does on the other
    columns. *)
Theorem trend_fit_raises_on_null_temperature
    (lstsq : list float -> Binary64.raising float) (df : list Binary64.Row) :
  Binary64.has_timestamp df = true ->
  (1 < length df)%nat ->
  Forall (fun r => Binary64.row_temperature r = Null) df ->
  Binary64._analyze_trends lstsq df = Binary64.Raised "TypeError".
Proof.
  intros Hts Hlen Hall.
  unfold Binary64._analyze_trends. rewrite Hts.
  assert ((1 <? length df)%nat = true) as -> by now apply Nat.ltb_lt.
  cbn [andb].
  assert (Binary64.in_columns "temperature" df = true) as ->.
  { destruct df as [|r df]; [simpl in Hlen; lia|].
    unfold Binary64.in_columns. cbn [existsb].
    change (Binary64.number_cell "temperature" r) with (Binary64.row_temperature r).
    apply List.Forall_inv in Hall. now rewrite Hall. }
  destruct (proj2 (object_column "temperature" (Binary64.sort_values_timestamp df)))
    as [values ->].
  { split; [|now apply sorted_rows_all].
    intro E. pose proof (sorted_rows_length df) as Hsame.
    rewrite E in Hsame. simpl in Hsame. lia. }
  reflexivity.
Qed.

Lemma trend_fit_raises_on_null_temperature_witness :
  Binary64.has_timestamp null_temperatures_at = true /\
  (1 < length null_temperatures_at)%nat /\
  Forall (fun r => Binary64.row_temperature r = Null) null_temperatures_at /\
  Binary64._analyze_trends (fun _ => Binary64.Returned 0%float) null_temperatures_at
  = Binary64.Raised "TypeError".
Proof.
  assert (Binary64.has_timestamp null_temperatures_at = true) as H1 by reflexivity.
  assert (1 < length null_temperatures_at)%nat as H2 by (simpl; lia).
  assert (Forall (fun r => Binary64.row_temperature r = Null) null_temperatures_at) as H3
    by (repeat constructor).
  split; [exact H1|]. split; [exact H2|]. split; [exact H3|].
  exact (trend_fit_raises_on_null_temperature (fun _ => Binary64.Returned 0%float)
           null_temperatures_at H1 H2 H3).
Defined.
